(** * MCP protocol client: model and verified properties

    Shallow embedding of [app/mcp/mcp_client.py] (class [MCPClient]) and of the
    data types of [app/mcp/types.py] it builds.

    - Python [str] values are Rocq strings; a character is a code point
      below 256.
    - Decoded JSON documents are values of [json]; a Python [dict] is an
      association list in insertion order, [None] is [JNull].  Floating
      point numbers are not represented.
    - The client is a state/exception monad over [World]: the mutable
      fields of the client object, the scripted behaviour of the HTTP
      session and of [uuid.uuid4], and the trace of the effects performed
      ([session.post], [time.sleep], [session.close]).
    - Exceptions are the subclasses of [Exception]; [except Exception]
      catches all of them.  Logging is not modelled. *)

From Stdlib Require Import String Ascii List Bool Arith ZArith Lia.
Import ListNotations.
Set Warnings "-register-all".
Local Open Scope string_scope.
Local Open Scope list_scope.
Local Open Scope nat_scope.

(** ** Python string primitives *)

Module PyStr.

Definition code (c : ascii) : nat := nat_of_ascii c.

(** [str.isspace] on one code point below 256. *)
Definition isspace (c : ascii) : bool :=
  let n := code c in
  ((9 <=? n) && (n <=? 13)) || ((28 <=? n) && (n <=? 32))
  || (n =? 133) || (n =? 160).

(** Line boundaries of [str.splitlines] below 256. *)
Definition is_linebreak (c : ascii) : bool :=
  let n := code c in
  ((10 <=? n) && (n <=? 13)) || ((28 <=? n) && (n <=? 30)) || (n =? 133).

(** [str.lower] on one code point below 256. *)
Definition lower_char (c : ascii) : ascii :=
  let n := code c in
  if ((65 <=? n) && (n <=? 90))
     || ((192 <=? n) && (n <=? 222) && negb (n =? 215))
  then ascii_of_nat (n + 32) else c.

Fixpoint lower (s : string) : string :=
  match s with
  | EmptyString => EmptyString
  | String c s' => String (lower_char c) (lower s')
  end.

Fixpoint lstrip (s : string) : string :=
  match s with
  | EmptyString => EmptyString
  | String c s' => if isspace c then lstrip s' else s
  end.

(** [rstrip] keeps a character when it is not a space or when something
    that is kept follows it. *)
Fixpoint rstrip (s : string) : string :=
  match s with
  | EmptyString => EmptyString
  | String c s' =>
      match rstrip s' with
      | EmptyString => if isspace c then EmptyString else String c EmptyString
      | r => String c r
      end
  end.

Definition strip (s : string) : string := rstrip (lstrip s).

Fixpoint startswith (s p : string) : bool :=
  match p, s with
  | EmptyString, _ => true
  | String _ _, EmptyString => false
  | String a p', String b s' => Ascii.eqb a b && startswith s' p'
  end.

(** [s[n:]] *)
Fixpoint slice_from (n : nat) (s : string) : string :=
  match n, s with
  | 0, _ => s
  | S _, EmptyString => EmptyString
  | S n', String _ s' => slice_from n' s'
  end.

(** [p in s] for strings. *)
Fixpoint contains (s p : string) : bool :=
  startswith s p ||
  match s with
  | EmptyString => false
  | String _ s' => contains s' p
  end.

(** [str.splitlines]: [cur] is the line being read, [after_cr] tells that
    the previous character was a carriage return, so that a line feed
    coming next belongs to the same boundary. *)
Fixpoint splitlines_from (cur : string) (after_cr : bool) (s : string)
  : list string :=
  match s with
  | EmptyString =>
      match cur with EmptyString => [] | _ => [cur] end
  | String c s' =>
      if after_cr && (code c =? 10) then splitlines_from cur false s'
      else if is_linebreak c
           then cur :: splitlines_from EmptyString (code c =? 13) s'
           else splitlines_from (cur ++ String c EmptyString)%string false s'
  end.

Definition splitlines (s : string) : list string :=
  splitlines_from EmptyString false s.

End PyStr.

(** ** Decoded JSON values *)

Inductive json : Type :=
| JNull
| JBool (b : bool)
| JInt (n : Z)
| JStr (s : string)
| JArr (items : list json)
| JObj (fields : list (string * json)).

Module Py.

(** Truth value of a decoded JSON value ([if x:], [x or d]). *)
Definition truthy (j : json) : bool :=
  match j with
  | JNull => false
  | JBool b => b
  | JInt n => negb (Z.eqb n 0)
  | JStr s => negb (String.eqb s "")
  | JArr l => match l with [] => false | _ => true end
  | JObj m => match m with [] => false | _ => true end
  end.

(** [x or d] *)
Definition or_else (x d : json) : json := if truthy x then x else d.

Fixpoint lookup (k : string) (m : list (string * json)) : option json :=
  match m with
  | [] => None
  | (k', v) :: m' => if String.eqb k k' then Some v else lookup k m'
  end.

(** [d.get(k, default)] on a dict *)
Definition dict_get (m : list (string * json)) (k : string) (d : json) : json :=
  match lookup k m with Some v => v | None => d end.

(** [d[k] = v]: an existing key keeps its position. *)
Fixpoint dict_set (m : list (string * json)) (k : string) (v : json)
  : list (string * json) :=
  match m with
  | [] => [(k, v)]
  | (k', v') :: m' =>
      if String.eqb k k' then (k', v) :: m' else (k', v') :: dict_set m' k v
  end.

(** [a == b] where [a] is a [str] and [b] a decoded value. *)
Definition str_eq (a : string) (b : json) : bool :=
  match b with JStr s => String.eqb a s | _ => false end.

End Py.

(** ** Exceptions *)

Inductive exn_class : Type :=
| RequestException        (* requests.exceptions.RequestException, its subclasses below excepted *)
| RequestsJSONDecodeError (* requests.exceptions.JSONDecodeError, raised by resp.json() *)
| JSONDecodeError         (* json.JSONDecodeError, raised by json.loads *)
| ValidationError         (* pydantic *)
| TypeError
| KeyError
| AttributeError
| OtherException          (* any other subclass of Exception *)
| PlainException.         (* Exception(...) raised by the client itself *)

(** An exception: its class, [str(e)] and [e.__cause__]. *)
Inductive exn : Type :=
| Exn (cls : exn_class) (msg : string) (cause : option exn).

Definition exn_cls (e : exn) : exn_class := let (c, _, _) := e in c.
Definition exn_msg (e : exn) : string := let (_, m, _) := e in m.
Definition exn_cause (e : exn) : option exn := let (_, _, c) := e in c.

Inductive Res (A : Type) : Type :=
| Ok (a : A)
| Raise (e : exn).
Arguments Ok {A} a.
Arguments Raise {A} e.

Definition res_bind {A B} (r : Res A) (k : A -> Res B) : Res B :=
  match r with Ok a => k a | Raise e => Raise e end.

Fixpoint res_mapM {A B} (f : A -> Res B) (l : list A) : Res (list B) :=
  match l with
  | [] => Ok []
  | x :: l' =>
      res_bind (f x) (fun y => res_bind (res_mapM f l') (fun ys => Ok (y :: ys)))
  end.

(** ** The Python runtime the client runs on

    The library functions whose results the client only passes on. *)

Record Runtime : Type := {
  (** [json.loads]; [None] when it raises *)
  json_loads : string -> option json;
  (** [str(e)] of the decode error for a text [json.loads] rejects *)
  json_error : string -> string;
  (** [str(v)] of a decoded value that is not a string *)
  py_repr : json -> string;
  (** [str(e)] of the HTTPError [raise_for_status] raises for a status *)
  http_error : nat -> string;
  (** [str(e)] of a TypeError, KeyError, AttributeError or ValidationError
      raised on a value *)
  lib_error : exn_class -> json -> string
}.

Section Client.

Variable rt : Runtime.

(** [str(v)] inside an f-string *)
Definition py_str (v : json) : string :=
  match v with JStr s => s | _ => py_repr rt v end.

Definition lib_raise {A} (c : exn_class) (v : json) : Res A :=
  Raise (Exn c (lib_error rt c v) None).

(** [json.loads(text)] *)
Definition loads (text : string) : Res json :=
  match json_loads rt text with
  | Some j => Ok j
  | None => Raise (Exn JSONDecodeError (json_error rt text) None)
  end.

(** *** [MCPClient._parse_sse_response] *)

Definition is_data_line (line : string) : bool :=
  PyStr.startswith (PyStr.lower line) "data:".

Definition data_payload (line : string) : string :=
  PyStr.lstrip (PyStr.slice_from 5 line).

(** One iteration of the loop over [sse_text.splitlines()]; [data_obj] is
    [JNull] while the Python variable is [None]. *)
Definition sse_step (data_obj : json) (raw_line : string) : json :=
  let line := PyStr.strip raw_line in
  if is_data_line line then
    match json_loads rt (data_payload line) with
    | Some j => j
    | None => data_obj
    end
  else data_obj.

Definition _parse_sse_response (sse_text : string) : Res json :=
  let data_obj := fold_left sse_step (PyStr.splitlines sse_text) JNull in
  match data_obj with
  | JNull => loads sse_text
  | _ => Ok data_obj
  end.

(** *** Pydantic validation (version 2, lax mode) *)

Definition validate_str (v : json) : Res string :=
  match v with JStr s => Ok s | _ => lib_raise ValidationError v end.

(** [Optional[str]] *)
Definition validate_opt_str (v : json) : Res (option string) :=
  match v with
  | JNull => Ok None
  | JStr s => Ok (Some s)
  | _ => lib_raise ValidationError v
  end.

(** [Optional[Dict[str, Any]]] *)
Definition validate_opt_dict (v : json) : Res (option (list (string * json))) :=
  match v with
  | JNull => Ok None
  | JObj m => Ok (Some m)
  | _ => lib_raise ValidationError v
  end.

(** [Optional[List[str]]] *)
Definition validate_opt_list_str (v : json) : Res (option (list string)) :=
  match v with
  | JNull => Ok None
  | JArr l => res_bind (res_mapM validate_str l) (fun l' => Ok (Some l'))
  | _ => lib_raise ValidationError v
  end.

Definition bool_words_true : list string := ["1"; "on"; "t"; "true"; "y"; "yes"].
Definition bool_words_false : list string := ["0"; "off"; "f"; "false"; "n"; "no"].

(** [bool] *)
Definition validate_bool (v : json) : Res bool :=
  match v with
  | JBool b => Ok b
  | JInt 0%Z => Ok false
  | JInt 1%Z => Ok true
  | JStr s =>
      if existsb (String.eqb (PyStr.lower s)) bool_words_true then Ok true
      else if existsb (String.eqb (PyStr.lower s)) bool_words_false then Ok false
      else lib_raise ValidationError v
  | _ => lib_raise ValidationError v
  end.

(** [List[Dict[str, Any]]] *)
Definition validate_list_dict (v : json) : Res (list json) :=
  match v with
  | JArr l =>
      res_mapM (fun x => match x with
                         | JObj _ => Ok x
                         | _ => lib_raise ValidationError x
                         end) l
  | _ => lib_raise ValidationError v
  end.

(** *** The models of [app/mcp/types.py] the client builds *)

Record MCPResponse : Type := {
  resp_jsonrpc : string;
  resp_id : string;
  result : option (list (string * json));
  error : option (list (string * json))
}.

Record ToolParameter : Type := {
  tp_name : string;
  tp_type : string;
  tp_description : string;
  tp_required : bool;
  tp_enum : option (list string)
}.

Record Tool : Type := {
  tool_name : string;
  tool_description : string;
  parameters : list ToolParameter
}.

Record Resource : Type := {
  uri : string;
  res_name : string;
  res_description : option string;
  mimeType : option string
}.

Record ToolCallResponse : Type := {
  content : list json;
  isError : bool
}.

(** [MCPResponse] built from [data] unpacked as keyword arguments: [data]
    has to be a mapping, keys that are not fields are ignored. *)
Definition make_MCPResponse (data : json) : Res MCPResponse :=
  match data with
  | JObj m =>
      res_bind (validate_str (Py.dict_get m "jsonrpc" (JStr "2.0"))) (fun v =>
      res_bind (match Py.lookup "id" m with
                | Some i => validate_str i
                | None => lib_raise ValidationError data
                end) (fun i =>
      res_bind (validate_opt_dict (Py.dict_get m "result" JNull)) (fun r =>
      res_bind (validate_opt_dict (Py.dict_get m "error" JNull)) (fun e =>
      Ok {| resp_jsonrpc := v; resp_id := i; result := r; error := e |}))))
  | _ => lib_raise TypeError data
  end.

(** [Resource] built from [r] unpacked as keyword arguments *)
Definition make_Resource (r : json) : Res Resource :=
  match r with
  | JObj m =>
      res_bind (match Py.lookup "uri" m with
                | Some u => validate_str u
                | None => lib_raise ValidationError r
                end) (fun u =>
      res_bind (match Py.lookup "name" m with
                | Some n => validate_str n
                | None => lib_raise ValidationError r
                end) (fun n =>
      res_bind (validate_opt_str (Py.dict_get m "description" JNull)) (fun d =>
      res_bind (validate_opt_str (Py.dict_get m "mimeType" JNull)) (fun mt =>
      Ok {| uri := u; res_name := n; res_description := d; mimeType := mt |}))))
  | _ => lib_raise TypeError r
  end.

(** *** The HTTP session and the world the client acts on *)

Record HttpResponse : Type := {
  status_code : nat;
  headers : list (string * string);
  text : string
}.

(** [resp.headers.get(name)]: header names compare without case. *)
Fixpoint header_get (name : string) (hs : list (string * string)) : option string :=
  match hs with
  | [] => None
  | (k, v) :: hs' =>
      if String.eqb (PyStr.lower k) (PyStr.lower name) then Some v
      else header_get name hs'
  end.

(** What one call of [session.post] does. *)
Inductive PostOutcome : Type :=
| PostRaises (e : exn)
| PostReturns (r : HttpResponse).

(** What is handed to [session.post]: the envelope ([id] is absent from a
    notification, [params] when none were given) and the headers. *)
Record Request : Type := {
  req_method : string;
  req_id : option string;
  req_params : option json;
  req_headers : list (string * string)
}.

Inductive Event : Type :=
| EvPost (rq : Request) (o : PostOutcome)
| EvSleep (delay : nat)
| EvClose.

Definition is_post (ev : Event) : bool :=
  match ev with EvPost _ _ => true | _ => false end.
Definition is_close (ev : Event) : bool :=
  match ev with EvClose => true | _ => false end.

(** The delays of the [time.sleep] calls of a trace, in order. *)
Fixpoint sleeps (tr : list Event) : list nat :=
  match tr with
  | [] => []
  | EvSleep d :: tr' => d :: sleeps tr'
  | _ :: tr' => sleeps tr'
  end.

Definition count_posts (tr : list Event) : nat := length (filter is_post tr).
Definition count_closes (tr : list Event) : nat := length (filter is_close tr).

Record World : Type := {
  (** fields of the client object *)
  connected : bool;
  session_id : option string;
  server_capabilities : option json;
  (** the environment: what the n-th [session.post] does, the n-th
      identifier drawn, whether the n-th [session.close] raises *)
  net : nat -> PostOutcome;
  uuid4 : nat -> string;
  close_exn : nat -> option exn;
  (** the effects performed so far, oldest first *)
  trace : list Event
}.

Definition set_connected (b : bool) (w : World) : World :=
  {| connected := b; session_id := session_id w;
     server_capabilities := server_capabilities w;
     net := net w; uuid4 := uuid4 w; close_exn := close_exn w;
     trace := trace w |}.

Definition set_session_id (sid : option string) (w : World) : World :=
  {| connected := connected w; session_id := sid;
     server_capabilities := server_capabilities w;
     net := net w; uuid4 := uuid4 w; close_exn := close_exn w;
     trace := trace w |}.

Definition set_server_capabilities (c : option json) (w : World) : World :=
  {| connected := connected w; session_id := session_id w;
     server_capabilities := c;
     net := net w; uuid4 := uuid4 w; close_exn := close_exn w;
     trace := trace w |}.

Definition emit (ev : Event) (w : World) : World :=
  {| connected := connected w; session_id := session_id w;
     server_capabilities := server_capabilities w;
     net := net w; uuid4 := uuid4 w; close_exn := close_exn w;
     trace := trace w ++ [ev] |}.

(** *** The monad of client methods *)

Definition M (A : Type) : Type := World -> Res A * World.

Definition ret {A} (a : A) : M A := fun w => (Ok a, w).
Definition raise {A} (e : exn) : M A := fun w => (Raise e, w).
Definition lift {A} (r : Res A) : M A := fun w => (r, w).

Definition bind {A B} (c : M A) (k : A -> M B) : M B :=
  fun w => match c w with
           | (Ok a, w') => k a w'
           | (Raise e, w') => (Raise e, w')
           end.

(** [try: c  except Exception as e: h e] *)
Definition try_except {A} (c : M A) (h : exn -> M A) : M A :=
  fun w => match c w with
           | (Ok a, w') => (Ok a, w')
           | (Raise e, w') => h e w'
           end.

(** [try: c  finally: f] *)
Definition try_finally {A} (c : M A) (f : M unit) : M A :=
  fun w => match c w with
           | (r, w') =>
               match f w' with
               | (Ok _, w'') => (r, w'')
               | (Raise e, w'') => (Raise e, w'')
               end
           end.

Definition get {A} (f : World -> A) : M A := fun w => (Ok (f w), w).
Definition modify (f : World -> World) : M unit := fun w => (Ok tt, f w).

Notation "x <- c ;; k" := (bind c (fun x => k))
  (at level 61, c at next level, right associativity).
Notation "c ;;; k" := (bind c (fun _ => k))
  (at level 61, right associativity).

(** [self.session.post(...)] *)
Definition session_post (rq : Request) : M HttpResponse :=
  fun w =>
    let o := net w (count_posts (trace w)) in
    let w' := emit (EvPost rq o) w in
    match o with
    | PostRaises e => (Raise e, w')
    | PostReturns r => (Ok r, w')
    end.

(** [time.sleep(delay)] *)
Definition sleep (delay : nat) : M unit := modify (emit (EvSleep delay)).

(** [self.session.close()] *)
Definition session_close : M unit :=
  fun w =>
    let w' := emit EvClose w in
    match close_exn w (count_closes (trace w)) with
    | Some e => (Raise e, w')
    | None => (Ok tt, w')
    end.

(** [str(uuid.uuid4())] *)
Definition fresh_uuid : M string :=
  get (fun w => uuid4 w (length (trace w))).

(** [resp.raise_for_status()] *)
Definition raise_for_status (r : HttpResponse) : M unit :=
  if (400 <=? status_code r) && (status_code r <? 600)
  then raise (Exn RequestException (http_error rt (status_code r)) None)
  else ret tt.

(** [resp.json()] *)
Definition resp_json (r : HttpResponse) : Res json :=
  match json_loads rt (text r) with
  | Some j => Ok j
  | None => Raise (Exn RequestsJSONDecodeError (json_error rt (text r)) None)
  end.

(** *** Low-level request primitives *)

Definition str_truthy (s : option string) : bool :=
  match s with
  | Some v => negb (String.eqb v "")
  | None => false
  end.

Definition _make_headers : M (list (string * string)) :=
  get (fun w =>
    let headers := [("Content-Type", "application/json");
                    ("Accept", "application/json, text/event-stream")] in
    if str_truthy (session_id w) then
      match session_id w with
      | Some sid => headers ++ [("mcp-session-id", sid)]
      | None => headers
      end
    else headers).

Definition communicate_error (e : exn) : exn :=
  Exn PlainException ("Failed to communicate with MCP server: " ++ exn_msg e) (Some e).

Definition mcp_error (err : list (string * json)) : exn :=
  Exn PlainException
      ("MCP Error: " ++ py_str (Py.dict_get err "message" (JObj err))) None.

(** Lines 142-149: the decoded body, by the declared content type. *)
Definition decode_body (resp : HttpResponse) : Res json :=
  let content_type :=
    PyStr.lower (match header_get "Content-Type" (headers resp) with
                 | Some v => if String.eqb v "" then "" else v
                 | None => ""
                 end) in
  if PyStr.contains content_type "text/event-stream"
  then _parse_sse_response (text resp)
  else resp_json resp.

(** Lines 136-158: what [_send_request] does with the response once
    [raise_for_status] has passed. *)
Definition receive (resp : HttpResponse) : M MCPResponse :=
  let sid := header_get "mcp-session-id" (headers resp) in
  (if str_truthy sid then modify (set_session_id sid) else ret tt) ;;;
  data <- lift (decode_body resp) ;;
  mcp_response <- lift (make_MCPResponse data) ;;
  match error mcp_response with
  | Some ((_ :: _) as err) => raise (mcp_error err)
  | _ => ret mcp_response
  end.

Definition _send_request (method : string) (params : option json) : M MCPResponse :=
  id <- fresh_uuid ;;
  try_except
    (hs <- _make_headers ;;
     resp <- session_post {| req_method := method; req_id := Some id;
                             req_params := params; req_headers := hs |} ;;
     raise_for_status resp ;;;
     receive resp)
    (fun e =>
       match exn_cls e with
       | RequestsJSONDecodeError | RequestException => raise (communicate_error e)
       | _ => raise e
       end).

Definition _send_notification (method : string) (params : option json) : M unit :=
  try_except
    (hs <- _make_headers ;;
     _ <- session_post {| req_method := method; req_id := None;
                          req_params := params; req_headers := hs |} ;;
     ret tt)
    (fun _ => ret tt).

(** *** Connection lifecycle *)

Definition retry_delays : list nat := [1; 2; 4].

(** [enumerate(l, start)] *)
Fixpoint enumerate {A} (l : list A) (start : nat) : list (nat * A) :=
  match l with
  | [] => []
  | x :: l' => (start, x) :: enumerate l' (S start)
  end.

Definition initialize_params : json :=
  JObj [("protocolVersion", JStr "2024-11-05");
        ("capabilities", JObj [("roots", JObj [("listChanged", JBool true)]);
                               ("sampling", JObj [])]);
        ("clientInfo", JObj [("name", JStr "customer-support-mcp-client");
                             ("version", JStr "1.0.0")])].

Definition connect_error (e : exn) : exn :=
  Exn PlainException ("Failed to connect to MCP server: " ++ exn_msg e) (Some e).

(** The body of the [try] of one attempt, up to [return True]. *)
Definition connect_attempt : M bool :=
  resp <- _send_request "initialize" (Some initialize_params) ;;
  modify (set_server_capabilities
            (Some (match result resp with
                   | Some ((_ :: _) as r) => JObj r
                   | _ => JObj []
                   end))) ;;;
  _send_notification "notifications/initialized" None ;;;
  modify (set_connected true) ;;;
  ret true.

(** The [for attempt, delay in enumerate(retry_delays, 1)] loop; [total] is
    [len(retry_delays)]. *)
Fixpoint connect_loop (total : nat) (attempts : list (nat * nat)) : M bool :=
  match attempts with
  | [] => ret false
  | (attempt, delay) :: rest =>
      fun w =>
        match connect_attempt w with
        | (Ok b, w') => (Ok b, w')
        | (Raise e, w') =>
            if attempt <? total
            then (sleep delay ;;; connect_loop total rest) w'
            else raise (connect_error e) w'
        end
  end.

Definition connect : M bool :=
  connect_loop (length retry_delays) (enumerate retry_delays 1).

(** [self.session] is a [requests.Session], which is always true. *)
Definition disconnect : M unit :=
  try_finally
    (c <- get connected ;;
     if c then
       try_finally
         (try_except (_send_request "shutdown" None ;;; ret tt) (fun _ => ret tt))
         (modify (set_connected false))
     else ret tt)
    (try_except session_close (fun _ => ret tt)).

(** *** Tools and resources *)

(** [v.get]: only a dict has it *)
Definition as_dict (v : json) : Res (list (string * json)) :=
  match v with JObj m => Ok m | _ => lib_raise AttributeError v end.

(** The values [for x in v] goes through *)
Definition py_iter (v : json) : Res (list json) :=
  match v with
  | JArr l => Ok l
  | JObj m => Ok (map (fun kv => JStr (fst kv)) m)
  | JStr s => Ok (map (fun c => JStr (String c EmptyString)) (list_ascii_of_string s))
  | _ => lib_raise TypeError v
  end.

(** [name in c] *)
Definition py_in (name : string) (c : json) : Res bool :=
  match c with
  | JArr l => Ok (existsb (Py.str_eq name) l)
  | JObj m => Ok (existsb (fun kv => String.eqb name (fst kv)) m)
  | JStr s => Ok (PyStr.contains s name)
  | _ => lib_raise TypeError c
  end.

(** [ToolParameter] validated from the dict the loop appends *)
Definition make_ToolParameter (name : string) (ty desc : json) (req : bool) (enum : json)
  : Res ToolParameter :=
  res_bind (validate_str ty) (fun ty' =>
  res_bind (validate_str desc) (fun desc' =>
  res_bind (validate_opt_list_str enum) (fun enum' =>
  Ok {| tp_name := name; tp_type := ty'; tp_description := desc';
        tp_required := req; tp_enum := enum' |}))).

(** The dict appended for one entry of [properties.items()] *)
Definition flatten_property (required : json) (entry : string * json)
  : Res (string * json * json * bool * json) :=
  let (name, info) := entry in
  res_bind (as_dict info) (fun i =>
  res_bind (py_in name required) (fun req =>
  Ok (name, Py.dict_get i "type" (JStr "string"), Py.dict_get i "description" (JStr ""),
      req, Py.dict_get i "enum" JNull))).

(** The body of the loop over [tools_data] *)
Definition parse_tool (t : json) : Res Tool :=
  res_bind (as_dict t) (fun tm =>
  res_bind (as_dict (Py.or_else (Py.dict_get tm "inputSchema" (JObj [])) (JObj []))) (fun schema =>
  let properties := Py.or_else (Py.dict_get schema "properties" (JObj [])) (JObj []) in
  let required := Py.or_else (Py.dict_get schema "required" (JArr [])) (JArr []) in
  res_bind (as_dict properties) (fun props =>
  res_bind (res_mapM (flatten_property required) props) (fun raw =>
  res_bind (match Py.lookup "name" tm with
            | Some n => Ok n
            | None => lib_raise KeyError t
            end) (fun n =>
  res_bind (validate_str n) (fun n' =>
  res_bind (validate_str (Py.dict_get tm "description" (JStr ""))) (fun d =>
  res_bind (res_mapM (fun p => match p with
                               | (name, ty, desc, req, enum) =>
                                   make_ToolParameter name ty desc req enum
                               end) raw) (fun ps =>
  Ok {| tool_name := n'; tool_description := d; parameters := ps |})))))))).

(** [resp.result.get(key, []) if resp.result else []] *)
Definition result_list (resp : MCPResponse) (key : string) : json :=
  match result resp with
  | Some ((_ :: _) as r) => Py.dict_get r key (JArr [])
  | _ => JArr []
  end.

Definition list_tools : M (list Tool) :=
  try_except
    (resp <- _send_request "tools/list" None ;;
     let tools_data := result_list resp "tools" in
     lift (res_bind (py_iter tools_data) (res_mapM parse_tool)))
    (fun _ => ret []).

Definition list_resources : M (list Resource) :=
  try_except
    (resp <- _send_request "resources/list" None ;;
     let resources_data := result_list resp "resources" in
     lift (res_bind (py_iter resources_data) (res_mapM make_Resource)))
    (fun _ => ret []).

Definition error_item (e : exn) : json :=
  JObj [("type", JStr "text"); ("text", JStr ("Error: " ++ exn_msg e))].

Definition call_tool (name : string) (arguments : json) : M ToolCallResponse :=
  try_except
    (resp <- _send_request "tools/call"
               (Some (JObj [("name", JStr name); ("arguments", arguments)])) ;;
     let result := match result resp with
                   | Some ((_ :: _) as r) => r
                   | _ => []
                   end in
     lift (res_bind (validate_list_dict (Py.dict_get result "content" (JArr []))) (fun c =>
           res_bind (validate_bool (Py.dict_get result "isError" (JBool false))) (fun b =>
           Ok {| content := c; isError := b |}))))
    (fun e => ret {| content := [error_item e]; isError := true |}).

End Client.

(** ** A reference runtime

    A decoder for the fragment of JSON without floating point numbers and
    without [\u] escapes, on which it agrees with [json.loads], and fixed
    texts for the library messages.  The closed examples below run on it. *)

Module Mini.

Definition is_ws (c : ascii) : bool :=
  let n := nat_of_ascii c in
  (n =? 32) || (n =? 9) || (n =? 10) || (n =? 13).

Fixpoint skip_ws (s : string) : string :=
  match s with
  | EmptyString => EmptyString
  | String c s' => if is_ws c then skip_ws s' else s
  end.

Definition is_digit (c : ascii) : bool :=
  (48 <=? nat_of_ascii c) && (nat_of_ascii c <=? 57).

Definition digit_val (c : ascii) : Z := Z.of_nat (nat_of_ascii c - 48).

(** A maximal run of digits: its value, its length and what follows. *)
Fixpoint read_digits (acc : Z) (len : nat) (s : string) : Z * nat * string :=
  match s with
  | String c s' =>
      if is_digit c then read_digits (acc * 10 + digit_val c)%Z (S len) s'
      else (acc, len, s)
  | EmptyString => (acc, len, s)
  end.

(** An integer without leading zero that no fraction or exponent follows. *)
Definition read_int (s : string) : option (Z * string) :=
  let (neg, body) :=
    match s with
    | String "-" s' => (true, s')
    | _ => (false, s)
    end in
  match read_digits 0 0 body with
  | (v, len, rest) =>
      let leading_zero :=
        match body with String "0" _ => 1 <? len | _ => false end in
      let is_float :=
        match rest with
        | String c _ => Ascii.eqb c "." || Ascii.eqb c "e" || Ascii.eqb c "E"
        | EmptyString => false
        end in
      if (len =? 0) || leading_zero || is_float then None
      else Some (if neg then (- v)%Z else v, rest)
  end.

Definition dquote : ascii := ascii_of_nat 34.
Definition backslash : ascii := ascii_of_nat 92.

Definition unescape (c : ascii) : option ascii :=
  if Ascii.eqb c dquote then Some dquote
  else if Ascii.eqb c backslash then Some backslash
  else if Ascii.eqb c "/" then Some "/"%char
  else if Ascii.eqb c "n" then Some (ascii_of_nat 10)
  else if Ascii.eqb c "t" then Some (ascii_of_nat 9)
  else if Ascii.eqb c "r" then Some (ascii_of_nat 13)
  else if Ascii.eqb c "b" then Some (ascii_of_nat 8)
  else if Ascii.eqb c "f" then Some (ascii_of_nat 12)
  else None.

(** The characters of a string literal after its opening quote. *)
Fixpoint read_string (s : string) : option (string * string) :=
  match s with
  | EmptyString => None
  | String c s' =>
      if Ascii.eqb c dquote then Some (EmptyString, s')
      else if Ascii.eqb c backslash then
        match s' with
        | String e s'' =>
            match unescape e, read_string s'' with
            | Some ch, Some (body, rest) => Some (String ch body, rest)
            | _, _ => None
            end
        | EmptyString => None
        end
      else if nat_of_ascii c <? 32 then None
      else match read_string s' with
           | Some (body, rest) => Some (String c body, rest)
           | None => None
           end
  end.

Fixpoint parse_value (fuel : nat) (s : string) : option (json * string) :=
  match fuel with
  | 0 => None
  | S fuel' =>
      match skip_ws s with
      | EmptyString => None
      | String c r =>
          if Ascii.eqb c "{" then
            match skip_ws r with
            | String "}" r' => Some (JObj [], r')
            | _ => parse_members fuel' [] r
            end
          else if Ascii.eqb c "[" then
            match skip_ws r with
            | String "]" r' => Some (JArr [], r')
            | _ => parse_elements fuel' [] r
            end
          else if Ascii.eqb c dquote then
            match read_string r with
            | Some (v, r') => Some (JStr v, r')
            | None => None
            end
          else if PyStr.startswith (String c r) "null" then
            Some (JNull, PyStr.slice_from 4 (String c r))
          else if PyStr.startswith (String c r) "true" then
            Some (JBool true, PyStr.slice_from 4 (String c r))
          else if PyStr.startswith (String c r) "false" then
            Some (JBool false, PyStr.slice_from 5 (String c r))
          else
            match read_int (String c r) with
            | Some (n, r') => Some (JInt n, r')
            | None => None
            end
      end
  end
with parse_members (fuel : nat) (acc : list (string * json)) (s : string)
  : option (json * string) :=
  match fuel with
  | 0 => None
  | S fuel' =>
      match skip_ws s with
      | String c r =>
          if Ascii.eqb c dquote then
            match read_string r with
            | Some (k, r1) =>
                match skip_ws r1 with
                | String ":" r2 =>
                    match parse_value fuel' r2 with
                    | Some (v, r3) =>
                        match skip_ws r3 with
                        | String "," r4 => parse_members fuel' (Py.dict_set acc k v) r4
                        | String "}" r4 => Some (JObj (Py.dict_set acc k v), r4)
                        | _ => None
                        end
                    | None => None
                    end
                | _ => None
                end
            | None => None
            end
          else None
      | EmptyString => None
      end
  end
with parse_elements (fuel : nat) (acc : list json) (s : string)
  : option (json * string) :=
  match fuel with
  | 0 => None
  | S fuel' =>
      match parse_value fuel' s with
      | Some (v, r) =>
          match skip_ws r with
          | String "," r' => parse_elements fuel' (acc ++ [v]) r'
          | String "]" r' => Some (JArr (acc ++ [v]), r')
          | _ => None
          end
      | None => None
      end
  end.

Definition loads (s : string) : option json :=
  match parse_value (S (S (String.length s))) s with
  | Some (v, rest) =>
      match skip_ws rest with
      | EmptyString => Some v
      | _ => None
      end
  | None => None
  end.

Definition rt : Runtime :=
  {| json_loads := loads;
     json_error := fun _ => "Expecting value";
     py_repr := fun _ => "<value>";
     http_error := fun _ => "HTTP error";
     lib_error := fun _ _ => "invalid value" |}.

(** Building texts that hold quotes. *)
Definition q (s : string) : string :=
  (String dquote s ++ String dquote EmptyString)%string.
Definition nl : string := String (ascii_of_nat 10) EmptyString.

End Mini.

(** * Vocabulary of the properties *)

Section Vocabulary.

Variable rt : Runtime.

(** The stripped lines of a body that begin with the marker. *)
Definition data_lines (body : string) : list string :=
  filter is_data_line (map PyStr.strip (PyStr.splitlines body)).

(** The documents decoded from the data lines of a list of raw lines, in
    order; a payload that does not decode contributes nothing. *)
Definition decoded_payloads (raw_lines : list string) : list json :=
  flat_map (fun l => match json_loads rt (data_payload l) with
                     | Some j => [j]
                     | None => []
                     end)
           (filter is_data_line (map PyStr.strip raw_lines)).

(** The outcome of the next call of [session.post]. *)
Definition next_outcome (w : World) : PostOutcome :=
  net w (count_posts (trace w)).

(** A client as [__init__] leaves it, in a given environment. *)
Definition new_client (n : nat -> PostOutcome) (u : nat -> string)
           (c : nat -> option exn) : World :=
  {| connected := false; session_id := None; server_capabilities := None;
     net := n; uuid4 := u; close_exn := c; trace := [] |}.

(** The result of one request/response exchange whose [session.post]
    behaves as [o]: what [_send_request] answers on a new client. *)
Definition exchange (o : PostOutcome) : Res MCPResponse :=
  fst (_send_request rt "" None
         (new_client (fun _ => o) (fun _ => "") (fun _ => None))).

(** The headers the client attaches in the state [w]. *)
Definition headers_of (w : World) : list (string * string) :=
  match fst (_make_headers w) with
  | Ok hs => hs
  | Raise _ => []
  end.

Definition request_of (method : string) (params : option json) (w : World)
  : Request :=
  {| req_method := method; req_id := Some (uuid4 w (length (trace w)));
     req_params := params; req_headers := headers_of w |}.

Definition notification_of (method : string) (params : option json) (w : World)
  : Request :=
  {| req_method := method; req_id := None;
     req_params := params; req_headers := headers_of w |}.

(** The session token a response supplies to [_send_request]: the value of
    the session header of a response that passed [raise_for_status], when
    it is not empty. *)
Definition supplied_token (o : PostOutcome) : option string :=
  match o with
  | PostReturns r =>
      if (400 <=? status_code r) && (status_code r <? 600) then None
      else match header_get "mcp-session-id" (headers r) with
           | Some t => if String.eqb t "" then None else Some t
           | None => None
           end
  | PostRaises _ => None
  end.

(** The exception [_send_request] lets out for an exception [e] raised in
    its [try] block. *)
Definition surfaced (e : exn) : exn :=
  match exn_cls e with
  | RequestsJSONDecodeError | RequestException => communicate_error e
  | _ => e
  end.

(** The error object of a well-formed response: the response passes
    [raise_for_status], its body decodes, the document validates as an
    [MCPResponse] and its [error] is a non-empty object. *)
Definition error_object (o : PostOutcome) : option (list (string * json)) :=
  match o with
  | PostReturns r =>
      if (400 <=? status_code r) && (status_code r <? 600) then None
      else match res_bind (decode_body rt r) (make_MCPResponse rt) with
           | Ok mr => match error mr with
                      | Some ((_ :: _) as err) => Some err
                      | _ => None
                      end
           | Raise _ => None
           end
  | PostRaises _ => None
  end.

(** The world [_send_request] leaves. *)
Definition after_request (method : string) (params : option json) (w : World)
  : World :=
  let w' := emit (EvPost (request_of method params w) (next_outcome w)) w in
  match supplied_token (next_outcome w) with
  | Some t => set_session_id (Some t) w'
  | None => w'
  end.

(** The world [_send_notification] leaves. *)
Definition after_notification (method : string) (params : option json) (w : World)
  : World :=
  emit (EvPost (notification_of method params w) (next_outcome w)) w.

(** A result with the error flag set and one text item that describes
    the failure [e]. *)
Definition failure_response (e : exn) : ToolCallResponse :=
  {| content := [JObj [("type", JStr "text");
                       ("text", JStr ("Error: " ++ exn_msg e))]];
     isError := true |}.

(** A result payload without the key [k]: no payload at all, or one that
    does not hold the key. *)
Definition lacks_key (resp : MCPResponse) (k : string) : Prop :=
  match result resp with
  | None => True
  | Some r => Py.lookup k r = None
  end.

(** The value a tool entry, or its schema, holds under the key [k]; [d]
    when the key is absent or its value is false. *)
Definition entry_field (v : json) (k : string) (d : json) : json :=
  match v with
  | JObj m => Py.or_else (Py.dict_get m k d) d
  | _ => d
  end.

(** The property map of the input schema of a tool entry, in the order
    of the document. *)
Definition schema_properties (t : json) : list (string * json) :=
  match entry_field (entry_field t "inputSchema" (JObj [])) "properties" (JObj []) with
  | JObj props => props
  | _ => []
  end.

(** What the input schema of a tool entry holds under "required". *)
Definition schema_required (t : json) : json :=
  entry_field (entry_field t "inputSchema" (JObj [])) "required" (JArr []).

(** The parsed tool lists the properties of the entry in their order and
    flags as required the names that occur in the required list. *)
Definition flattened (t : json) (tool : Tool) : Prop :=
  map tp_name (parameters tool) = map fst (schema_properties t)
  /\ forall names,
       schema_required t = JArr names ->
       forall p, In p (parameters tool) ->
                 (tp_required p = true <-> In (JStr (tp_name p)) names).

(** Whether a computation returns a value. *)
Definition returns {A : Type} (r : Res A) : bool :=
  match r with Ok _ => true | Raise _ => false end.

Definition is_str (v : json) : bool :=
  match v with JStr _ => true | _ => false end.

(** Nothing, or a list of strings. *)
Definition is_opt_str_list (v : json) : bool :=
  match v with
  | JNull => true
  | JArr l => forallb is_str l
  | _ => false
  end.

(** The values a membership test is defined on. *)
Definition is_container (v : json) : bool :=
  match v with JArr _ | JObj _ | JStr _ => true | _ => false end.

(** A property of an input schema that can become a parameter: an object
    whose type and description, where it has them, are strings, and whose
    enum, where it has one, is null or a list of strings. *)
Definition well_formed_property (entry : string * json) : bool :=
  match snd entry with
  | JObj i =>
      is_str (Py.dict_get i "type" (JStr "string"))
      && is_str (Py.dict_get i "description" (JStr ""))
      && is_opt_str_list (Py.dict_get i "enum" JNull)
  | _ => false
  end.

(** A tool entry that can become a tool: an object with a string under
    "name" and, where it has a description, a string under it; its input
    schema and the property map of the schema are objects when they are
    not absent or false, every property is well formed, and where there
    is a property at all the schema holds a container under "required"
    when it holds anything true there. *)
Definition well_formed_tool (t : json) : bool :=
  match t with
  | JObj tm =>
      match Py.lookup "name" tm with Some (JStr _) => true | _ => false end
      && is_str (Py.dict_get tm "description" (JStr ""))
      && match entry_field t "inputSchema" (JObj []) with
         | JObj schema =>
             match entry_field (JObj schema) "properties" (JObj []) with
             | JObj props =>
                 forallb well_formed_property props
                 && match props with
                    | [] => true
                    | _ :: _ => is_container (schema_required t)
                    end
             | _ => false
             end
         | _ => false
         end
  | _ => false
  end.

(** The session header a posted request carries. *)
Definition session_header (rq : Request) : option string :=
  header_get "mcp-session-id" (req_headers rq).

(** The token an event supplies to the client: that of the response to a
    request; the response to a notification is not looked at. *)
Definition event_token (ev : Event) : option string :=
  match ev with
  | EvPost rq o =>
      match req_id rq with
      | Some _ => supplied_token o
      | None => None
      end
  | _ => None
  end.

(** The token most recently supplied along a trace. *)
Definition latest_token (tr : list Event) : option string :=
  fold_left (fun acc ev => match event_token ev with
                           | Some t => Some t
                           | None => acc
                           end) tr None.

(** The operations of a client; [OpRequest] and [OpNotify] are the two
    primitives every other method goes through. *)
Inductive Op : Type :=
| OpConnect
| OpDisconnect
| OpListTools
| OpListResources
| OpCallTool (name : string) (arguments : json)
| OpRequest (method : string) (params : option json)
| OpNotify (method : string) (params : option json).

(** The world an operation leaves, whether it returns or raises. *)
Definition run_op (op : Op) (w : World) : World :=
  match op with
  | OpConnect => snd (connect rt w)
  | OpDisconnect => snd (disconnect rt w)
  | OpListTools => snd (list_tools rt w)
  | OpListResources => snd (list_resources rt w)
  | OpCallTool name arguments => snd (call_tool rt name arguments w)
  | OpRequest method params => snd (_send_request rt method params w)
  | OpNotify method params => snd (_send_notification method params w)
  end.

Definition run_ops (ops : list Op) (w : World) : World :=
  fold_left (fun w' op => run_op op w') ops w.

(** Every request of the trace carries the token most recently supplied
    before it, and none when there is none. *)
Definition headers_follow_tokens (tr : list Event) : Prop :=
  forall pre rq o post,
    tr = pre ++ EvPost rq o :: post ->
    session_header rq = latest_token pre.

(** The invariant of the session: the stored token is the one most
    recently supplied, and so were the headers of the requests sent. *)
Definition session_inv (w : World) : Prop :=
  session_id w = latest_token (trace w) /\ headers_follow_tokens (trace w).

End Vocabulary.

(** ** Inputs of the closed examples *)

Definition sse_body_done : string :=
  ("data: [1]" ++ Mini.nl ++ "data: [DONE]")%string.

Definition refused : exn := Exn RequestException "Connection refused" None.

(** A response with status 200, a JSON content type and a session header. *)
Definition json_response (sid body : string) : PostOutcome :=
  PostReturns {| status_code := 200;
                 headers := [("Content-Type", "application/json");
                             ("mcp-session-id", sid)];
                 text := body |}.

Definition field_text (k v : string) : string := (Mini.q k ++ ":" ++ v)%string.

(** An envelope with identifier ["1"] and one more field. *)
Definition envelope_text (k v : string) : string :=
  ("{" ++ field_text "jsonrpc" (Mini.q "2.0") ++ ","
       ++ field_text "id" (Mini.q "1") ++ ","
       ++ field_text k v ++ "}")%string.

Definition initialize_ok_text : string :=
  envelope_text "result" ("{" ++ field_text "capabilities" "{}" ++ "}").

Definition invalid_params_text : string :=
  envelope_text "error" ("{" ++ field_text "code" "-32602" ++ ","
                             ++ field_text "message" (Mini.q "Invalid params") ++ "}").

(** Refuses the connection twice, then answers the handshake. *)
Definition net_third_time (n : nat) : PostOutcome :=
  match n with
  | 0 | 1 => PostRaises refused
  | _ => json_response "s1" initialize_ok_text
  end.

Definition net_refusing (n : nat) : PostOutcome := PostRaises refused.

(** Answers every request with the error object "Invalid params". *)
Definition net_rejecting (n : nat) : PostOutcome :=
  json_response "s1" invalid_params_text.

Definition client_on (n : nat -> PostOutcome) : World :=
  new_client n (fun _ => "id") (fun _ => None).

(** Answers every request with an empty result payload. *)
Definition net_empty_result (n : nat) : PostOutcome :=
  json_response "s1" (envelope_text "result" "{}").

(** A listing with the tool "search": "query" is in the required list
    though its own entry says otherwise, "limit" is not. *)
Definition search_tool_text : string :=
  ("{" ++ field_text "name" (Mini.q "search") ++ ","
       ++ field_text "description" (Mini.q "Search") ++ ","
       ++ field_text "inputSchema"
            ("{" ++ field_text "properties"
                      ("{" ++ field_text "query"
                                ("{" ++ field_text "type" (Mini.q "string") ++ ","
                                     ++ field_text "required" "false" ++ "}")
                           ++ ","
                           ++ field_text "limit"
                                ("{" ++ field_text "type" (Mini.q "number") ++ ","
                                     ++ field_text "required" "true" ++ "}")
                           ++ "}")
                 ++ "," ++ field_text "required" ("[" ++ Mini.q "query" ++ "]")
                 ++ "}")
       ++ "}")%string.

Definition net_search_tool (n : nat) : PostOutcome :=
  json_response "s1"
    (envelope_text "result" ("{" ++ field_text "tools" ("[" ++ search_tool_text ++ "]") ++ "}")).

Definition search_tool : Tool :=
  {| tool_name := "search";
     tool_description := "Search";
     parameters :=
       [{| tp_name := "query"; tp_type := "string"; tp_description := "";
           tp_required := true; tp_enum := None |};
        {| tp_name := "limit"; tp_type := "number"; tp_description := "";
           tp_required := false; tp_enum := None |}] |}.

(** The entry of the search tool as the client decodes it. *)
Definition search_entry : json :=
  JObj [("name", JStr "search");
        ("description", JStr "Search");
        ("inputSchema",
         JObj [("properties",
                JObj [("query", JObj [("type", JStr "string");
                                      ("required", JBool false)]);
                      ("limit", JObj [("type", JStr "number");
                                      ("required", JBool true)])]);
               ("required", JArr [JStr "query"])])].

(** An entry that has a description and no name. *)
Definition stray_entry : json := JObj [("description", JStr "anonymous")].

(** Lists the search tool followed by the entry without a name. *)
Definition net_search_and_stray (n : nat) : PostOutcome :=
  json_response "s1"
    (envelope_text "result"
       ("{" ++ field_text "tools"
                 ("[" ++ search_tool_text ++ ",{"
                      ++ field_text "description" (Mini.q "anonymous") ++ "}]")
            ++ "}")).

(** The trace of a handshake that succeeds at the third attempt, followed
    by a listing. *)
Definition session_trace : list Event :=
  trace (run_ops Mini.rt [OpConnect; OpListTools] (client_on net_third_time)).

(** * The remaining methods of the client and their callers *)

Section ClientMore.

Variable rt : Runtime.

Local Notation "x <- c ;; k" := (bind c (fun x => k))
  (at level 61, c at next level, right associativity).
Local Notation "c ;;; k" := (bind c (fun _ => k))
  (at level 61, right associativity).

(** ** [MCPClient.health_check]

    The report without its [server_url], a constant of the client;
    [hr_timed] tells whether [response_time_ms] holds the measured time
    rather than its initial [0.0]. *)

Record HealthReport : Type := {
  hr_status : string;
  hr_connected : bool;
  hr_timed : bool;
  hr_error : option string
}.

(** A pydantic model is always true, so [resp and not resp.error] is
    [not resp.error]. *)
Definition health_check : M HealthReport :=
  c <- get connected ;;
  try_except
    (resp <- _send_request rt "tools/list" None ;;
     match error resp with
     | Some ((_ :: _) as err) =>
         ret {| hr_status := "unhealthy"; hr_connected := c; hr_timed := false;
                hr_error := Some (py_str rt (JObj err)) |}
     | _ =>
         ret {| hr_status := "healthy"; hr_connected := c; hr_timed := true;
                hr_error := None |}
     end)
    (fun e =>
       ret {| hr_status := "unhealthy"; hr_connected := c; hr_timed := false;
              hr_error := Some (exn_msg e) |}).

(** ** [MCPClient.initialize] *)

Definition initialize : M json :=
  connect rt ;;;
  caps <- get server_capabilities ;;
  ret (match caps with
       | Some c => Py.or_else c (JObj [])
       | None => JObj []
       end).

(** ** [MCPClient.read_resource] *)

(** [v[0]]; a JSON object has no key [0]. *)
Definition py_first (v : json) : Res json :=
  match v with
  | JArr (x :: _) => Ok x
  | JArr [] => Raise (Exn OtherException (lib_error rt OtherException v) None)
  | JStr (String c _) => Ok (JStr (String c EmptyString))
  | JStr EmptyString => Raise (Exn OtherException (lib_error rt OtherException v) None)
  | JObj _ => lib_raise rt KeyError v
  | _ => lib_raise rt TypeError v
  end.

(** The value returned is [None], written [JNull], or what the server
    sent under "text" or "blob". *)
Definition read_resource (uri : string) : M json :=
  try_except
    (resp <- _send_request rt "resources/read" (Some (JObj [("uri", JStr uri)])) ;;
     let result := match result resp with
                   | Some ((_ :: _) as r) => r
                   | _ => []
                   end in
     let contents := Py.dict_get result "contents" (JArr []) in
     if Py.truthy contents then
       lift (res_bind (py_first contents) (fun first =>
             res_bind (as_dict rt first) (fun d =>
             let t := Py.dict_get d "text" JNull in
             if Py.truthy t then Ok t
             else res_bind (py_first contents) (fun first' =>
                  res_bind (as_dict rt first') (fun d' =>
                  Ok (Py.dict_get d' "blob" JNull))))))
     else ret JNull)
    (fun _ => ret JNull).

(** ** [MCPClient.close] *)

Definition close : M unit := session_close.

(** ** The Jira and Confluence helpers

    [JiraIssue] and [ConfluencePage] are validated by pydantic, dates
    included; the validation is a parameter: [None] when building the model
    from a decoded value raises. *)

Section Helpers.

Variable Record_ : Type.
Variable make_record : json -> option Record_.

(** The loop over a decoded list inside the [try], which appends the model
    built from each element: the models built before the first failure
    stay. *)
Fixpoint append_until_failure (ds : list json) : list Record_ :=
  match ds with
  | [] => []
  | d :: ds' =>
      match make_record d with
      | Some r => r :: append_until_failure ds'
      | None => []
      end
  end.

(** What the body of the loop of a search adds for one content item. *)
Definition records_of_item (item : json) : Res (list Record_) :=
  res_bind (as_dict rt item) (fun m =>
    if Py.str_eq "text" (Py.dict_get m "type" JNull) then
      Ok match Py.lookup "text" m with
         | Some (JStr s) =>
             match json_loads rt s with
             | Some (JArr ds) => append_until_failure ds
             | Some (JObj d) =>
                 match make_record (JObj d) with
                 | Some r => [r]
                 | None => []
                 end
             | _ => []
             end
         | _ => []
         end
    else Ok []).

(** The loop of a search over [resp.content]. *)
Definition records_of_content (items : list json) : Res (list Record_) :=
  res_bind (res_mapM records_of_item items) (fun rs => Ok (concat rs)).

(** The loop of a lookup over [resp.content]: the first text item that
    decodes and validates is returned. *)
Fixpoint first_record (items : list json) : Res (option Record_) :=
  match items with
  | [] => Ok None
  | item :: items' =>
      res_bind (as_dict rt item) (fun m =>
        if Py.str_eq "text" (Py.dict_get m "type" JNull) then
          match Py.lookup "text" m with
          | Some (JStr s) =>
              match json_loads rt s with
              | Some data =>
                  match make_record data with
                  | Some r => Ok (Some r)
                  | None => first_record items'
                  end
              | None => first_record items'
              end
          | _ => first_record items'
          end
        else first_record items')
  end.

(** A search: the call, then the loop unless the result is flagged. *)
Definition search_with (tool : string) (args : json) : M (list Record_) :=
  resp <- call_tool rt tool args ;;
  if isError resp then ret []
  else lift (records_of_content (content resp)).

(** A lookup: the call, then the loop unless the result is flagged. *)
Definition get_with (tool : string) (args : json) : M (option Record_) :=
  resp <- call_tool rt tool args ;;
  if isError resp then ret None
  else lift (first_record (content resp)).

End Helpers.

(** [" AND ".join(conditions)] and the like *)
Definition join (sep : string) (parts : list string) : string :=
  String.concat sep parts.

(** The query of [search_jira_issues]. *)
Definition jira_jql (jql project status : option string) : string :=
  if str_truthy jql then match jql with Some q => q | None => "" end
  else
    let conditions :=
      (if str_truthy project
       then [("project = " ++ match project with Some p => p | None => "" end)%string]
       else [])
      ++ (if str_truthy status
          then [("status = '" ++ match status with Some s => s | None => "" end ++ "'")%string]
          else []) in
    match conditions with
    | [] => "ORDER BY updated DESC"
    | _ => join " AND " conditions
    end.

Section JiraConfluence.

Variables JiraIssue ConfluencePage : Type.
Variable make_JiraIssue : json -> option JiraIssue.
Variable make_ConfluencePage : json -> option ConfluencePage.

Definition search_jira_issues (jql project status : option string) (max_results : Z)
  : M (list JiraIssue) :=
  search_with JiraIssue make_JiraIssue "jira_search_issues"
    (JObj [("maxResults", JInt max_results);
           ("jql", JStr (jira_jql jql project status))]).

Definition get_jira_issue (issue_key : string) : M (option JiraIssue) :=
  get_with JiraIssue make_JiraIssue "jira_get_issue"
    (JObj [("issueKey", JStr issue_key)]).

(** The query of [search_confluence_pages]. *)
Definition confluence_cql (query : string) (space : option string) : string :=
  let cql := ("text ~ '" ++ query ++ "'")%string in
  if str_truthy space
  then ("space = " ++ match space with Some s => s | None => "" end ++ " AND " ++ cql)%string
  else cql.

Definition search_confluence_pages (query : string) (space : option string)
           (max_results : Z) : M (list ConfluencePage) :=
  search_with ConfluencePage make_ConfluencePage "confluence_search"
    (JObj [("cql", JStr (confluence_cql query space)); ("limit", JInt max_results)]).

Definition get_confluence_page (page_id : string) : M (option ConfluencePage) :=
  get_with ConfluencePage make_ConfluencePage "confluence_get_page"
    (JObj [("pageId", JStr page_id)]).

(** *** [ConfluenceCollector.list_pages] ([app/mcp/confluence_collector.py])

    Whatever [search_confluence_pages] raises is answered with the empty
    list. *)
Definition list_pages (space_key : option string) (limit : Z)
  : M (list ConfluencePage) :=
  try_except
    (let query := if str_truthy space_key
                  then ("space = " ++ match space_key with Some s => s | None => "" end)%string
                  else "type = page" in
     search_confluence_pages query space_key limit)
    (fun _ => ret []).

End JiraConfluence.

(** ** [JiraCollector._build_default_jql] ([app/mcp/jira_collector.py]) *)

Definition _build_default_jql (project status : option string) : string :=
  let conditions :=
    (if str_truthy project
     then [("project = " ++ match project with Some p => p | None => "" end)%string]
     else [])
    ++ (if str_truthy status
        then [("status = '" ++ match status with Some s => s | None => "" end ++ "'")%string]
        else ["status IN (Done, Resolved, Closed)"; "resolved >= -180d"]) in
  match conditions with
  | [] => "ORDER BY updated DESC"
  | _ => (join " AND " conditions ++ " ORDER BY updated DESC")%string
  end.

End ClientMore.

(** ** Batches of [save_to_cache] (both collectors) *)

Section Batches.

Variables Item DB : Type.

(** [_save_single_issue] or [_save_single_page] on a connection: the
    database it leaves and whether it returned rather than raised. *)
Variable save_single : DB -> Item -> DB * bool.

(** [range(start, stop, step)] for a positive step; it has at most
    [stop] elements. *)
Fixpoint range_fuel (fuel start stop step : nat) : list nat :=
  match fuel with
  | 0 => []
  | S fuel' =>
      if start <? stop then start :: range_fuel fuel' (start + step) stop step
      else []
  end.

Definition py_range (start stop step : nat) : list nat :=
  range_fuel stop start stop step.

(** [l[i:j]] *)
Definition slice {A} (l : list A) (i j : nat) : list A :=
  firstn (j - i) (skipn i l).

Definition batch_size : nat := 50.

(** [(len(issues) + self.batch_size - 1) // self.batch_size] *)
Definition total_batches (n : nat) : nat := (n + batch_size - 1) / batch_size.

(** The inner loop: every item of the batch is tried, a failure is
    logged and the loop goes on. *)
Fixpoint save_batch (batch : list Item) (st : DB * nat) : DB * nat :=
  match batch with
  | [] => st
  | item :: batch' =>
      let (db, saved_count) := st in
      let (db', ok) := save_single db item in
      save_batch batch' (db', if ok then S saved_count else saved_count)
  end.

(** The loop over [range(0, len(issues), self.batch_size)]. *)
Definition save_batches (items : list Item) (db : DB) : DB * nat :=
  fold_left (fun st i => save_batch (slice items i (i + batch_size)) st)
            (py_range 0 (length items) batch_size)
            (db, 0).

End Batches.

(** ** The framing of the mock server ([scripts/mock_mcp_server.py])

    [send_sse_response] on the text [json.dumps] returned. *)

Definition line_feed : string := String (ascii_of_nat 10) EmptyString.

Definition sse_frame (json_str : string) : string :=
  ("event: message" ++ line_feed ++ "data: " ++ json_str ++ line_feed ++ line_feed)%string.

(** * Vocabulary of the further properties *)

(** The status for which [raise_for_status] raises. *)
Definition http_failed (r : HttpResponse) : bool :=
  (400 <=? status_code r) && (status_code r <? 600).

(** The declared content type names an event stream. *)
Definition is_event_stream (r : HttpResponse) : bool :=
  PyStr.contains
    (PyStr.lower (match header_get "Content-Type" (headers r) with
                  | Some v => v
                  | None => ""
                  end))
    "text/event-stream".

(** No character of the text is a line boundary. *)
Definition single_line (s : string) : bool :=
  forallb (fun c => negb (PyStr.is_linebreak c)) (list_ascii_of_string s).

(** ** Inputs of the further closed examples *)

(** A response with a given status, content type and session header. *)
Definition response_with (status : nat) (ctype sid body : string) : PostOutcome :=
  PostReturns {| status_code := status;
                 headers := [("Content-Type", ctype); ("mcp-session-id", sid)];
                 text := body |}.

(** Answers every request with status 503, though with a valid body and a
    session header. *)
Definition net_unavailable (n : nat) : PostOutcome :=
  response_with 503 "application/json" "s9" initialize_ok_text.

(** Answers every request with a body that is not JSON, declared as JSON. *)
Definition net_garbled (n : nat) : PostOutcome :=
  response_with 200 "application/json" "s2" "<html>".

(** The same body declared as an event stream. *)
Definition net_garbled_stream (n : nat) : PostOutcome :=
  response_with 200 "text/event-stream" "s2" "<html>".

(** Answers every request with an empty error object. *)
Definition net_empty_error (n : nat) : PostOutcome :=
  json_response "s1" (envelope_text "error" "{}").

(** A transport that raises something that is not a [RequestException]. *)
Definition net_broken (n : nat) : PostOutcome :=
  PostRaises (Exn OtherException "boom" None).

(** Answers every request with the handshake result. *)
Definition net_handshake (n : nat) : PostOutcome :=
  json_response "s1" initialize_ok_text.

(** Answers every request with two resource contents; the text of the
    first one is empty, its blob is not. *)
Definition net_blob_resource (n : nat) : PostOutcome :=
  json_response "s1"
    (envelope_text "result"
       ("{" ++ field_text "contents"
                 ("[{" ++ field_text "text" (Mini.q "") ++ ","
                       ++ field_text "blob" (Mini.q "QUJD") ++ "},{"
                       ++ field_text "text" (Mini.q "second") ++ "}]")
            ++ "}")).

(** A decoded value is an object. *)
Definition is_object (v : json) : Prop := exists m, v = JObj m.

(** The resource was built from the entry: its uri and its name are the
    strings the entry holds. *)
Definition resource_of_entry (entry : json) (r : Resource) : Prop :=
  exists m, entry = JObj m
            /\ Py.lookup "uri" m = Some (JStr (uri r))
            /\ Py.lookup "name" m = Some (JStr (res_name r)).

Definition is_opt_str (v : json) : bool :=
  match v with JNull | JStr _ => true | _ => false end.

(** An entry that can become a resource: an object with strings under
    "uri" and "name" and, where it has them, null or a string under
    "description" and "mimeType". *)
Definition well_formed_resource (entry : json) : bool :=
  match entry with
  | JObj m =>
      match Py.lookup "uri" m with Some (JStr _) => true | _ => false end
      && match Py.lookup "name" m with Some (JStr _) => true | _ => false end
      && is_opt_str (Py.dict_get m "description" JNull)
      && is_opt_str (Py.dict_get m "mimeType" JNull)
  | _ => false
  end.

(** Answers every call with two content items and no error flag. *)
Definition net_two_items (n : nat) : PostOutcome :=
  json_response "s1"
    (envelope_text "result"
       ("{" ++ field_text "content"
                 ("[{" ++ field_text "type" (Mini.q "text") ++ ","
                       ++ field_text "text" (Mini.q "first") ++ "},{"
                       ++ field_text "type" (Mini.q "image") ++ "}]")
            ++ "}")).

(** Answers every call with a content list that holds a number. *)
Definition net_bad_item (n : nat) : PostOutcome :=
  json_response "s1"
    (envelope_text "result" ("{" ++ field_text "content" "[{},7]" ++ "}")).

(** A listing of two tools, the second without a name. *)
Definition net_nameless_tool (n : nat) : PostOutcome :=
  json_response "s1"
    (envelope_text "result"
       ("{" ++ field_text "tools"
                 ("[" ++ search_tool_text ++ ",{"
                      ++ field_text "description" (Mini.q "anonymous") ++ "}]")
            ++ "}")).

(** A listing of two resources. *)
Definition net_two_resources (n : nat) : PostOutcome :=
  json_response "s1"
    (envelope_text "result"
       ("{" ++ field_text "resources"
                 ("[{" ++ field_text "uri" (Mini.q "doc://1") ++ ","
                       ++ field_text "name" (Mini.q "one") ++ "},{"
                       ++ field_text "uri" (Mini.q "doc://2") ++ ","
                       ++ field_text "name" (Mini.q "two") ++ ","
                       ++ field_text "mimeType" (Mini.q "text/plain") ++ "}]")
            ++ "}")).

(** What one content item yields to a lookup: the model built from its
    text, when the item is of type "text", its text decodes and the
    decoded value validates. *)
Definition item_yield {R : Type} (rt : Runtime) (make : json -> option R)
           (item : json) : option R :=
  match item with
  | JObj m =>
      if Py.str_eq "text" (Py.dict_get m "type" JNull) then
        match Py.lookup "text" m with
        | Some (JStr s) =>
            match json_loads rt s with
            | Some d => make d
            | None => None
            end
        | _ => None
        end
      else None
  | _ => None
  end.

(** The arguments of a tool call as they are posted. *)
Definition tool_call_params (tool : string) (args : json) : option json :=
  Some (JObj [("name", JStr tool); ("arguments", args)]).

(** A validator for the closed examples: a record is the key of an
    object that has one. *)
Definition key_of (d : json) : option string :=
  match d with
  | JObj m =>
      match Py.lookup "key" m with
      | Some (JStr k) => Some k
      | _ => None
      end
  | _ => None
  end.

(** A text item whose text is the given JSON text; the quotes of the
    text are escaped. *)
Definition escaped_quote : string :=
  String Mini.backslash (String Mini.dquote EmptyString).

Definition text_item (escaped : string) : string :=
  ("{" ++ field_text "type" (Mini.q "text") ++ ","
       ++ field_text "text" (Mini.q escaped) ++ "}")%string.

(** The text of the object with the key [k], quotes escaped. *)
Definition key_object (k : string) : string :=
  ("{" ++ escaped_quote ++ "key" ++ escaped_quote ++ ":"
       ++ escaped_quote ++ k ++ escaped_quote ++ "}")%string.

(** Answers a call with three items: an image, a text that is not JSON
    and the issue with the key A-1. *)
Definition net_issue_third (n : nat) : PostOutcome :=
  json_response "s1"
    (envelope_text "result"
       ("{" ++ field_text "content"
                 ("[{" ++ field_text "type" (Mini.q "image") ++ "},"
                       ++ text_item "oops" ++ ","
                       ++ text_item (key_object "A-1") ++ "]")
            ++ "}")).

(** Answers a call with one text item: a list of an issue, a number and
    another issue. *)
Definition net_issue_list (n : nat) : PostOutcome :=
  json_response "s1"
    (envelope_text "result"
       ("{" ++ field_text "content"
                 ("[" ++ text_item ("[" ++ key_object "A-1" ++ ",7,"
                                        ++ key_object "A-3" ++ "]") ++ "]")
            ++ "}")).

(** * Properties *)

(** ** Decoding an event-stream body *)

Section SseProperties.

Variable rt : Runtime.

Lemma last_cons {A} (l : list A) (a d : A) : last (a :: l) d = last l a.
Proof.
  revert a d. induction l as [|y ys IH]; intros a d; [reflexivity|].
  change (last (a :: y :: ys) d) with (last (y :: ys) d).
  rewrite (IH y d), (IH y a). reflexivity.
Qed.

Lemma sse_fold_last (raw_lines : list string) (init : json) :
  fold_left (sse_step rt) raw_lines init = last (decoded_payloads rt raw_lines) init.
Proof.
  revert init.
  induction raw_lines as [|l ls IH]; intros init; [reflexivity|].
  cbn [fold_left]. rewrite IH. unfold decoded_payloads, sse_step.
  cbn [map filter].
  destruct (is_data_line (PyStr.strip l)); [|reflexivity].
  cbn [flat_map].
  destruct (json_loads rt (data_payload (PyStr.strip l))) as [j|]; [|reflexivity].
  cbn [app]. symmetry. apply last_cons.
Qed.

Lemma parse_sse_characterised (body : string) :
  _parse_sse_response rt body =
  match last (decoded_payloads rt (PyStr.splitlines body)) JNull with
  | JNull => loads rt body
  | j => Ok j
  end.
Proof.
  unfold _parse_sse_response. rewrite sse_fold_last.
  destruct (last _ _); reflexivity.
Qed.

Lemma decoded_payloads_app (l1 l2 : list string) :
  decoded_payloads rt (l1 ++ l2) = decoded_payloads rt l1 ++ decoded_payloads rt l2.
Proof.
  unfold decoded_payloads.
  rewrite map_app, filter_app, flat_map_app. reflexivity.
Qed.

Lemma decoded_payloads_none (ls : list string) :
  (forall l, In l ls -> is_data_line (PyStr.strip l) = true ->
             json_loads rt (data_payload (PyStr.strip l)) = None) ->
  decoded_payloads rt ls = [].
Proof.
  induction ls as [|l ls IH]; intros H; [reflexivity|].
  unfold decoded_payloads in *. cbn [map filter].
  destruct (is_data_line (PyStr.strip l)) eqn:E.
  - cbn [flat_map]. rewrite (H l (or_introl eq_refl) E). cbn [app].
    apply IH. intros l' Hin. apply H. right. exact Hin.
  - apply IH. intros l' Hin. apply H. right. exact Hin.
Qed.

(** C1 (as amended): the decoder returns the document of the last data line
    whose payload decodes, when that document is not null and the data
    lines after it are those whose payload does not decode; when no line
    of the body begins with the marker, the whole body is decoded. *)
Theorem parse_sse_last_decodable (body : string) :
  (forall pre l post j,
      PyStr.splitlines body = pre ++ l :: post ->
      is_data_line (PyStr.strip l) = true ->
      json_loads rt (data_payload (PyStr.strip l)) = Some j ->
      j <> JNull ->
      (forall l', In l' post -> is_data_line (PyStr.strip l') = true ->
                  json_loads rt (data_payload (PyStr.strip l')) = None) ->
      _parse_sse_response rt body = Ok j)
  /\ (data_lines body = [] -> _parse_sse_response rt body = loads rt body).
Proof.
  split.
  - intros pre l post j Hsplit Hdata Hj Hnn Hpost.
    rewrite parse_sse_characterised, Hsplit.
    change (l :: post) with ([l] ++ post).
    rewrite !decoded_payloads_app, (decoded_payloads_none post Hpost), app_nil_r.
    unfold decoded_payloads at 2. cbn [map filter]. rewrite Hdata.
    cbn [flat_map]. rewrite Hj. cbn [app].
    rewrite last_last. destruct j; congruence.
  - intros Hnone. rewrite parse_sse_characterised.
    unfold decoded_payloads. unfold data_lines in Hnone. rewrite Hnone.
    reflexivity.
Qed.

End SseProperties.

(** C1 (counterexample): the last data line of this body is
    [data: [DONE]], whose payload is not JSON; the decoder answers with the
    payload of the line before it, not with that of the last data line. *)
Lemma parse_sse_last_line_cex :
  data_lines sse_body_done = ["data: [1]"; "data: [DONE]"]
  /\ loads Mini.rt (data_payload "data: [DONE]")
     = Raise (Exn JSONDecodeError "Expecting value" None)
  /\ loads Mini.rt (data_payload "data: [1]") = Ok (JArr [JInt 1])
  /\ _parse_sse_response Mini.rt sse_body_done = Ok (JArr [JInt 1]).
Proof. vm_compute. repeat split. Qed.

Lemma parse_sse_last_decodable_witness :
  _parse_sse_response Mini.rt sse_body_done = Ok (JArr [JInt 1])
  /\ _parse_sse_response Mini.rt "[7]" = Ok (JArr [JInt 7]).
Proof.
  destruct (parse_sse_last_decodable Mini.rt sse_body_done) as [Hlast _].
  destruct (parse_sse_last_decodable Mini.rt "[7]") as [_ Hnone].
  split.
  - apply (Hlast [] "data: [1]" ["data: [DONE]"] (JArr [JInt 1])).
    + reflexivity.
    + reflexivity.
    + reflexivity.
    + discriminate.
    + intros l' [<-|[]] _. reflexivity.
  - rewrite Hnone; reflexivity.
Defined.

(** ** One request/response exchange *)

Section ExchangeProperties.

Variable rt : Runtime.

Lemma count_posts_app (t1 t2 : list Event) :
  count_posts (t1 ++ t2) = count_posts t1 + count_posts t2.
Proof. unfold count_posts. rewrite filter_app, length_app. reflexivity. Qed.

Lemma count_closes_app (t1 t2 : list Event) :
  count_closes (t1 ++ t2) = count_closes t1 + count_closes t2.
Proof. unfold count_closes. rewrite filter_app, length_app. reflexivity. Qed.

Lemma sleeps_app (t1 t2 : list Event) : sleeps (t1 ++ t2) = sleeps t1 ++ sleeps t2.
Proof.
  induction t1 as [|ev t1 IH]; [reflexivity|].
  destruct ev; cbn; rewrite IH; reflexivity.
Qed.

(** [_send_request] posts once; its result is that of the exchange, and it
    keeps the token of the response, if it supplies one. *)
Ltac run_step :=
  cbv beta iota zeta; unfold str_truthy, negb; cbv beta iota zeta.

Lemma send_request_run (method : string) (params : option json) (w : World) :
  _send_request rt method params w
  = (exchange rt (next_outcome w), after_request method params w).
Proof.
  unfold exchange, after_request, supplied_token, next_outcome.
  unfold _send_request, bind, try_except, fresh_uuid, _make_headers, get,
    session_post, raise_for_status, receive, bind, modify, lift, ret, raise.
  run_step.
  set (o := net w (count_posts (trace w))). clearbody o.
  change (net (new_client (fun _ => o) (fun _ => "") (fun _ => None))
              (count_posts (trace (new_client (fun _ => o) (fun _ => "")
                                              (fun _ => None)))))
    with o.
  destruct o as [e|r]; run_step.
  - destruct e as [c m ca]. destruct c; reflexivity.
  - set (bad := (400 <=? status_code r) && (status_code r <? 600)).
    destruct bad; run_step; [reflexivity|].
    set (data := decode_body rt r). clearbody data.
    destruct (header_get "mcp-session-id" (headers r)) as [t|]; run_step.
    + destruct (String.eqb t ""); run_step.
      * destruct data as [d|[c m ca]]; run_step; [|destruct c; reflexivity].
        destruct (make_MCPResponse rt d) as [mr|[c m ca]]; run_step;
          [|destruct c; reflexivity].
        destruct (error mr) as [[|x err]|]; reflexivity.
      * destruct data as [d|[c m ca]]; run_step; [|destruct c; reflexivity].
        destruct (make_MCPResponse rt d) as [mr|[c m ca]]; run_step;
          [|destruct c; reflexivity].
        destruct (error mr) as [[|x err]|]; reflexivity.
    + destruct data as [d|[c m ca]]; run_step; [|destruct c; reflexivity].
      destruct (make_MCPResponse rt d) as [mr|[c m ca]]; run_step;
        [|destruct c; reflexivity].
      destruct (error mr) as [[|x err]|]; reflexivity.
Qed.

(** The result of an exchange, case by case. *)
Lemma exchange_cases (o : PostOutcome) :
  exchange rt o =
  match o with
  | PostRaises e => Raise (surfaced e)
  | PostReturns r =>
      if (400 <=? status_code r) && (status_code r <? 600)
      then Raise (communicate_error
                    (Exn RequestException (http_error rt (status_code r)) None))
      else match res_bind (decode_body rt r) (make_MCPResponse rt) with
           | Ok mr => match error mr with
                      | Some ((_ :: _) as err) => Raise (mcp_error rt err)
                      | _ => Ok mr
                      end
           | Raise e => Raise (surfaced e)
           end
  end.
Proof.
  unfold exchange, surfaced.
  unfold _send_request, bind, try_except, fresh_uuid, _make_headers, get,
    session_post, raise_for_status, receive, bind, modify, lift, ret, raise.
  run_step.
  change (net (new_client (fun _ => o) (fun _ => "") (fun _ => None))
              (count_posts (trace (new_client (fun _ => o) (fun _ => "")
                                              (fun _ => None)))))
    with o.
  destruct o as [e|r]; run_step.
  - destruct e as [c m ca]. destruct c; reflexivity.
  - set (bad := (400 <=? status_code r) && (status_code r <? 600)).
    destruct bad; run_step; [reflexivity|].
    set (data := decode_body rt r). clearbody data.
    destruct (header_get "mcp-session-id" (headers r)) as [t|]; run_step.
    + destruct (String.eqb t ""); run_step.
      * destruct data as [d|[c m ca]]; run_step; [|destruct c; reflexivity].
        unfold res_bind.
        destruct (make_MCPResponse rt d) as [mr|[c m ca]]; run_step;
          [|destruct c; reflexivity].
        destruct (error mr) as [[|x err]|]; reflexivity.
      * destruct data as [d|[c m ca]]; run_step; [|destruct c; reflexivity].
        unfold res_bind.
        destruct (make_MCPResponse rt d) as [mr|[c m ca]]; run_step;
          [|destruct c; reflexivity].
        destruct (error mr) as [[|x err]|]; reflexivity.
    + destruct data as [d|[c m ca]]; run_step; [|destruct c; reflexivity].
      unfold res_bind.
      destruct (make_MCPResponse rt d) as [mr|[c m ca]]; run_step;
        [|destruct c; reflexivity].
      destruct (error mr) as [[|x err]|]; reflexivity.
Qed.

(** A well-formed response that carries an error object makes the
    exchange raise the error of the protocol. *)
Lemma error_object_exchange (o : PostOutcome) (err : list (string * json)) :
  error_object rt o = Some err ->
  exchange rt o = Raise (mcp_error rt err).
Proof.
  rewrite exchange_cases. unfold error_object.
  destruct o as [e|r]; [discriminate|].
  destruct ((400 <=? status_code r) && (status_code r <? 600)); [discriminate|].
  destruct (res_bind (decode_body rt r) (make_MCPResponse rt)) as [mr|e];
    [|discriminate].
  destruct (error mr) as [[|x l]|]; try discriminate.
  intros [= <-]. reflexivity.
Qed.

Lemma send_notification_run (method : string) (params : option json) (w : World) :
  _send_notification method params w = (Ok tt, after_notification method params w).
Proof.
  unfold _send_notification, after_notification, next_outcome, notification_of, headers_of, _make_headers, try_except, bind,
    session_post, get, ret.
  cbv beta zeta iota.
  destruct (net w (count_posts (trace w))); reflexivity.
Qed.

End ExchangeProperties.

(** ** Connection establishment *)

Section ConnectProperties.

Variable rt : Runtime.

Lemma after_request_trace (m : string) (p : option json) (w : World) :
  trace (after_request m p w)
  = trace w ++ [EvPost (request_of m p w) (next_outcome w)].
Proof. unfold after_request. destruct (supplied_token _); reflexivity. Qed.

Lemma after_request_net (m : string) (p : option json) (w : World) :
  net (after_request m p w) = net w.
Proof. unfold after_request. destruct (supplied_token _); reflexivity. Qed.

Lemma after_request_connected (m : string) (p : option json) (w : World) :
  connected (after_request m p w) = connected w.
Proof. unfold after_request. destruct (supplied_token _); reflexivity. Qed.

Lemma after_request_close_exn (m : string) (p : option json) (w : World) :
  close_exn (after_request m p w) = close_exn w.
Proof. unfold after_request. destruct (supplied_token _); reflexivity. Qed.

(** The next outcome of a world that extends [w] by the events [evs]. *)
Lemma next_outcome_extends (w w' : World) (evs : list Event) :
  trace w' = trace w ++ evs ->
  net w' = net w ->
  next_outcome w' = net w (count_posts (trace w) + count_posts evs).
Proof.
  intros Ht Hn. unfold next_outcome. rewrite Ht, Hn, count_posts_app. reflexivity.
Qed.

Lemma connect_attempt_fails (w : World) (e : exn) :
  exchange rt (next_outcome w) = Raise e ->
  connect_attempt rt w
  = (Raise e, after_request "initialize" (Some initialize_params) w).
Proof.
  intros H. unfold connect_attempt, bind.
  rewrite send_request_run, H. reflexivity.
Qed.

Lemma connect_attempt_succeeds (w : World) (resp : MCPResponse) :
  exchange rt (next_outcome w) = Ok resp ->
  exists caps,
    connect_attempt rt w
    = (Ok true,
       set_connected true
         (after_notification "notifications/initialized" None
            (set_server_capabilities caps
               (after_request "initialize" (Some initialize_params) w)))).
Proof.
  intros H. unfold connect_attempt, bind.
  rewrite send_request_run, H. unfold modify.
  rewrite send_notification_run. eexists. reflexivity.
Qed.

(** The loop after a failed attempt that is not the last one. *)
Lemma connect_loop_retry (total attempt delay : nat) (rest : list (nat * nat))
      (w : World) (e : exn) :
  exchange rt (next_outcome w) = Raise e ->
  (attempt <? total) = true ->
  connect_loop rt total ((attempt, delay) :: rest) w
  = connect_loop rt total rest
      (emit (EvSleep delay) (after_request "initialize" (Some initialize_params) w)).
Proof.
  intros H Hlt. cbn [connect_loop].
  rewrite (connect_attempt_fails w e H), Hlt. reflexivity.
Qed.

(** The loop after a failed last attempt. *)
Lemma connect_loop_exhausted (total attempt delay : nat) (rest : list (nat * nat))
      (w : World) (e : exn) :
  exchange rt (next_outcome w) = Raise e ->
  (attempt <? total) = false ->
  connect_loop rt total ((attempt, delay) :: rest) w
  = (Raise (connect_error e),
     after_request "initialize" (Some initialize_params) w).
Proof.
  intros H Hlt. cbn [connect_loop].
  rewrite (connect_attempt_fails w e H), Hlt. reflexivity.
Qed.

(** The world after a failed attempt and its sleep. *)
Lemma retry_world (w : World) (delay : nat) :
  let w' := emit (EvSleep delay)
              (after_request "initialize" (Some initialize_params) w) in
  trace w' = trace w ++ [EvPost (request_of "initialize" (Some initialize_params) w)
                                (next_outcome w); EvSleep delay]
  /\ net w' = net w
  /\ connected w' = connected w
  /\ next_outcome w' = net w (S (count_posts (trace w))).
Proof.
  cbn zeta.
  assert (Ht : trace (emit (EvSleep delay)
                        (after_request "initialize" (Some initialize_params) w))
               = trace w ++ [EvPost (request_of "initialize" (Some initialize_params) w)
                                    (next_outcome w); EvSleep delay]).
  { cbn [emit trace]. rewrite after_request_trace, <- app_assoc. reflexivity. }
  assert (Hn : net (emit (EvSleep delay)
                      (after_request "initialize" (Some initialize_params) w))
               = net w).
  { cbn [emit net]. apply after_request_net. }
  repeat split; try assumption.
  - cbn [emit connected]. apply after_request_connected.
  - rewrite (next_outcome_extends _ _ _ Ht Hn). cbn. f_equal. lia.
Qed.

(** C2: when the exchange fails on attempts 1 and 2 and succeeds on
    attempt 3, [connect] returns [True] after exactly two sleeps, of 1
    before the second attempt and of 2 before the third, and the client is
    connected. *)
Theorem connect_succeeds_on_third_attempt (w : World) (e1 e2 : exn) (resp : MCPResponse) :
  exchange rt (net w (count_posts (trace w))) = Raise e1 ->
  exchange rt (net w (1 + count_posts (trace w))) = Raise e2 ->
  exchange rt (net w (2 + count_posts (trace w))) = Ok resp ->
  exists w' r1 r2 r3 r4,
    connect rt w = (Ok true, w')
    /\ trace w' = trace w ++ [EvPost r1 (net w (count_posts (trace w)));
                              EvSleep 1;
                              EvPost r2 (net w (1 + count_posts (trace w)));
                              EvSleep 2;
                              EvPost r3 (net w (2 + count_posts (trace w)));
                              EvPost r4 (net w (3 + count_posts (trace w)))]
    /\ sleeps (trace w') = sleeps (trace w) ++ [1; 2]
    /\ connected w' = true.
Proof.
  intros H1 H2 H3. cbn [Nat.add] in *.
  unfold connect. cbn [retry_delays enumerate length].
  rewrite (connect_loop_retry 3 1 1 _ w e1 H1 eq_refl).
  destruct (retry_world w 1) as (Ht1 & Hn1 & _ & Ho1).
  set (w1 := emit (EvSleep 1) _) in *.
  rewrite <- Ho1 in H2.
  rewrite (connect_loop_retry 3 2 2 _ w1 e2 H2 eq_refl).
  destruct (retry_world w1 2) as (Ht2 & Hn2 & _ & Ho2).
  set (w2 := emit (EvSleep 2) _) in *.
  assert (Hc2 : count_posts (trace w1) = S (count_posts (trace w))).
  { rewrite Ht1, count_posts_app. cbn. lia. }
  assert (Ho3 : next_outcome w2 = net w (S (S (count_posts (trace w))))).
  { rewrite Ho2, Hn1, Hc2. reflexivity. }
  rewrite <- Ho3 in H3.
  cbn [connect_loop].
  destruct (connect_attempt_succeeds w2 resp H3) as [caps ->].
  set (w3 := after_request "initialize" (Some initialize_params) w2).
  set (w4 := set_server_capabilities caps w3).
  assert (Ht3 : trace w4 = trace w2 ++ [EvPost (request_of "initialize"
                                                   (Some initialize_params) w2)
                                               (next_outcome w2)]).
  { apply after_request_trace. }
  assert (Hn3 : net w4 = net w2) by apply after_request_net.
  assert (Ho4 : next_outcome w4 = net w (S (S (S (count_posts (trace w)))))).
  { rewrite (next_outcome_extends w2 w4 _ Ht3 Hn3), Hn2, Hn1, Ht2.
    rewrite count_posts_app, Hc2. cbn. f_equal. lia. }
  eexists _, _, _, _, _. split; [reflexivity|].
  assert (Htr : trace (set_connected true
                         (after_notification "notifications/initialized" None w4))
                = trace w
                    ++ [EvPost (request_of "initialize" (Some initialize_params) w)
                               (net w (count_posts (trace w)));
                        EvSleep 1;
                        EvPost (request_of "initialize" (Some initialize_params) w1)
                               (net w (S (count_posts (trace w))));
                        EvSleep 2;
                        EvPost (request_of "initialize" (Some initialize_params) w2)
                               (net w (S (S (count_posts (trace w)))));
                        EvPost (notification_of "notifications/initialized" None w4)
                               (net w (S (S (S (count_posts (trace w))))))]).
  { cbn [set_connected after_notification emit trace].
    rewrite Ho4, Ht3, Ho3, Ht2, Ho1, Ht1.
    rewrite <- !app_assoc. reflexivity. }
  split; [exact Htr|]. split; [|reflexivity].
  rewrite Htr, sleeps_app. reflexivity.
Qed.

(** Three failed exchanges in a row exhaust the loop. *)
Lemma connect_exhausts (w : World) (e1 e2 e3 : exn) :
  exchange rt (net w (count_posts (trace w))) = Raise e1 ->
  exchange rt (net w (1 + count_posts (trace w))) = Raise e2 ->
  exchange rt (net w (2 + count_posts (trace w))) = Raise e3 ->
  exists w' evs,
    connect rt w
    = (Raise (Exn PlainException
                  ("Failed to connect to MCP server: " ++ exn_msg e3) (Some e3)),
       w')
    /\ trace w' = trace w ++ evs
    /\ count_posts evs = 3
    /\ sleeps evs = [1; 2]
    /\ connected w' = connected w.
Proof.
  intros H1 H2 H3. cbn [Nat.add] in *.
  unfold connect. cbn [retry_delays enumerate length].
  rewrite (connect_loop_retry 3 1 1 _ w e1 H1 eq_refl).
  destruct (retry_world w 1) as (Ht1 & Hn1 & Hc1 & Ho1).
  set (w1 := emit (EvSleep 1) _) in *.
  rewrite <- Ho1 in H2.
  rewrite (connect_loop_retry 3 2 2 _ w1 e2 H2 eq_refl).
  destruct (retry_world w1 2) as (Ht2 & Hn2 & Hc2 & Ho2).
  set (w2 := emit (EvSleep 2) _) in *.
  assert (Hp1 : count_posts (trace w1) = S (count_posts (trace w))).
  { rewrite Ht1, count_posts_app. cbn. lia. }
  assert (Ho3 : next_outcome w2 = net w (S (S (count_posts (trace w))))).
  { rewrite Ho2, Hn1, Hp1. reflexivity. }
  rewrite <- Ho3 in H3.
  rewrite (connect_loop_exhausted 3 3 4 [] w2 e3 H3 eq_refl).
  eexists _, _. split; [reflexivity|].
  split.
  - rewrite after_request_trace, Ht2, Ht1, <- !app_assoc. reflexivity.
  - split; [reflexivity|]. split; [reflexivity|].
    rewrite after_request_connected, Hc2, Hc1. reflexivity.
Qed.


(** The loop only adds to the trace. *)
Lemma connect_loop_extends (total : nat) (attempts : list (nat * nat)) (w : World) :
  exists evs, trace (snd (connect_loop rt total attempts w)) = trace w ++ evs.
Proof.
  revert w. induction attempts as [|[attempt delay] rest IH]; intros w.
  - exists []. cbn. rewrite app_nil_r. reflexivity.
  - cbn [connect_loop].
    destruct (exchange rt (next_outcome w)) as [resp|e] eqn:E.
    + destruct (connect_attempt_succeeds w resp E) as [caps ->].
      eexists. cbn [snd set_connected set_server_capabilities after_notification emit trace].
      rewrite after_request_trace, <- app_assoc. reflexivity.
    + rewrite (connect_attempt_fails w e E).
      destruct (attempt <? total).
      * unfold bind, sleep, modify.
        destruct (IH (emit (EvSleep delay)
                        (after_request "initialize" (Some initialize_params) w)))
          as [evs Hevs].
        eexists. rewrite Hevs. cbn [emit trace].
        rewrite after_request_trace, <- !app_assoc. reflexivity.
      * eexists. cbn [raise snd]. apply after_request_trace.
Qed.

(** An attempt begins with a post. *)
Lemma connect_loop_posts_first (total attempt delay : nat) (rest : list (nat * nat))
      (w : World) :
  exists evs,
    trace (snd (connect_loop rt total ((attempt, delay) :: rest) w))
    = trace w ++ EvPost (request_of "initialize" (Some initialize_params) w)
                        (next_outcome w) :: evs.
Proof.
  cbn [connect_loop].
  destruct (exchange rt (next_outcome w)) as [resp|e] eqn:E.
  - destruct (connect_attempt_succeeds w resp E) as [caps ->].
    eexists. cbn [snd set_connected set_server_capabilities after_notification emit trace].
    rewrite after_request_trace, <- app_assoc. reflexivity.
  - rewrite (connect_attempt_fails w e E).
    destruct (attempt <? total).
    + unfold bind, sleep, modify.
      destruct (connect_loop_extends total rest
                  (emit (EvSleep delay)
                     (after_request "initialize" (Some initialize_params) w)))
        as [evs Hevs].
      eexists. rewrite Hevs. cbn [emit trace].
      rewrite after_request_trace, <- !app_assoc. reflexivity.
    + exists []. cbn [raise snd]. apply after_request_trace.
Qed.

(** C3: when the exchange fails on all three attempts, [connect] sends
    three times, sleeps twice (1, then 2) and raises the exception that
    wraps the last error; a client that was disconnected stays so. *)
Theorem connect_fails_after_three_attempts (w : World) (e1 e2 e3 : exn) :
  connected w = false ->
  exchange rt (net w (count_posts (trace w))) = Raise e1 ->
  exchange rt (net w (1 + count_posts (trace w))) = Raise e2 ->
  exchange rt (net w (2 + count_posts (trace w))) = Raise e3 ->
  exists w' evs,
    connect rt w
    = (Raise (Exn PlainException
                  ("Failed to connect to MCP server: " ++ exn_msg e3) (Some e3)),
       w')
    /\ trace w' = trace w ++ evs
    /\ count_posts evs = 3
    /\ sleeps evs = [1; 2]
    /\ connected w' = false.
Proof.
  intros Hc H1 H2 H3.
  destruct (connect_exhausts w e1 e2 e3 H1 H2 H3) as (w' & evs & Hr & Ht & Hp & Hs & Hk).
  exists w', evs. repeat split; try assumption. rewrite Hk. exact Hc.
Qed.

(** C4 (as amended): a well-formed response that carries an error object
    is handled as any failed attempt.  After such a response to the first
    attempt [connect] sleeps 1 and sends the handshake again; when all
    three attempts are answered so, it has sent three times and slept
    1 and 2 before it raises, wrapping the error of the last response. *)
Theorem connect_retries_protocol_error (w : World) (err1 : list (string * json)) :
  error_object rt (net w (count_posts (trace w))) = Some err1 ->
  (exists r1 r2 evs,
      trace (snd (connect rt w))
      = trace w ++ EvPost r1 (net w (count_posts (trace w)))
                :: EvSleep 1
                :: EvPost r2 (net w (1 + count_posts (trace w)))
                :: evs)
  /\ (forall err2 err3,
         error_object rt (net w (1 + count_posts (trace w))) = Some err2 ->
         error_object rt (net w (2 + count_posts (trace w))) = Some err3 ->
         exists w' evs,
           connect rt w = (Raise (connect_error (mcp_error rt err3)), w')
           /\ trace w' = trace w ++ evs
           /\ count_posts evs = 3
           /\ sleeps evs = [1; 2]).
Proof.
  intros H1. pose proof (error_object_exchange rt _ _ H1) as E1. split.
  - unfold connect. cbn [retry_delays enumerate length].
    rewrite (connect_loop_retry 3 1 1 _ w _ E1 eq_refl).
    destruct (retry_world w 1) as (Ht1 & _ & _ & Ho1).
    set (w1 := emit (EvSleep 1) _) in *.
    destruct (connect_loop_posts_first 3 2 2 [(3, 4)] w1) as [evs Hevs].
    eexists _, _, evs. rewrite Hevs, Ht1, Ho1, <- app_assoc. reflexivity.
  - intros err2 err3 H2 H3.
    pose proof (error_object_exchange rt _ _ H2) as E2.
    pose proof (error_object_exchange rt _ _ H3) as E3.
    destruct (connect_exhausts w _ _ _ E1 E2 E3)
      as (w' & evs & Hr & Ht & Hp & Hs & _).
    exists w', evs. repeat split; assumption.
Qed.

End ConnectProperties.

Lemma connect_succeeds_on_third_attempt_witness :
  exists w',
    connect Mini.rt (client_on net_third_time) = (Ok true, w')
    /\ sleeps (trace w') = [1; 2]
    /\ connected w' = true.
Proof.
  edestruct (connect_succeeds_on_third_attempt Mini.rt (client_on net_third_time))
    as (w' & r1 & r2 & r3 & r4 & Hc & Ht & Hs & Hk).
  - vm_compute. reflexivity.
  - vm_compute. reflexivity.
  - vm_compute. reflexivity.
  - exists w'. split; [exact Hc|]. split; [exact Hs|exact Hk].
Defined.

Lemma connect_fails_after_three_attempts_witness :
  exists w',
    connect Mini.rt (client_on net_refusing)
    = (Raise (connect_error (communicate_error refused)), w')
    /\ count_posts (trace w') = 3
    /\ sleeps (trace w') = [1; 2]
    /\ connected w' = false.
Proof.
  edestruct (connect_fails_after_three_attempts Mini.rt (client_on net_refusing))
    as (w' & evs & Hc & Ht & Hp & Hs & Hk).
  - reflexivity.
  - vm_compute. reflexivity.
  - vm_compute. reflexivity.
  - vm_compute. reflexivity.
  - exists w'. split; [exact Hc|].
    cbn [client_on new_client trace app] in Ht. rewrite Ht.
    split; [exact Hp|]. split; [exact Hs|exact Hk].
Defined.

(** C4 (counterexample): the server answers the handshake with the error
    object "Invalid params"; [connect] nevertheless sleeps twice and sends
    three times. *)
Lemma connect_protocol_error_cex :
  error_object Mini.rt (net_rejecting 0)
  = Some [("code", JInt (-32602)%Z); ("message", JStr "Invalid params")]
  /\ sleeps (trace (snd (connect Mini.rt (client_on net_rejecting)))) = [1; 2]
  /\ count_posts (trace (snd (connect Mini.rt (client_on net_rejecting)))) = 3.
Proof. vm_compute. repeat split. Qed.

Lemma connect_retries_protocol_error_witness :
  exists w',
    connect Mini.rt (client_on net_rejecting)
    = (Raise (Exn PlainException
                  "Failed to connect to MCP server: MCP Error: Invalid params"
                  (Some (Exn PlainException "MCP Error: Invalid params" None))),
       w')
    /\ sleeps (trace w') = [1; 2].
Proof.
  edestruct (connect_retries_protocol_error Mini.rt (client_on net_rejecting))
    as [_ Hall].
  - vm_compute. reflexivity.
  - edestruct Hall as (w' & evs & Hc & Ht & Hp & Hs).
    + vm_compute. reflexivity.
    + vm_compute. reflexivity.
    + exists w'. split; [exact Hc|].
      cbn [client_on new_client trace app] in Ht. rewrite Ht. exact Hs.
Defined.

(** ** Disconnection *)

Section DisconnectProperties.

Variable rt : Runtime.

(** What [disconnect] does: the shutdown exchange when the client is
    connected, whatever its result, then the release of the session,
    whatever its result. *)
Lemma disconnect_run (w : World) :
  disconnect rt w
  = (Ok tt,
     emit EvClose (if connected w
                   then set_connected false (after_request "shutdown" None w)
                   else w)).
Proof.
  unfold disconnect, try_finally, try_except, bind, get, modify, ret, session_close.
  cbv beta iota zeta.
  destruct (connected w).
  - rewrite send_request_run.
    destruct (exchange rt (next_outcome w)); cbv beta iota zeta;
      destruct (close_exn _ _); reflexivity.
  - cbv beta iota zeta. destruct (close_exn _ _); reflexivity.
Qed.

(** C7: [disconnect] returns normally from every state and for every
    behaviour of the shutdown exchange and of the release of the session,
    and leaves the client disconnected; so do two calls in a row and a
    call that follows [connect], failed or not. *)
Theorem disconnect_never_raises :
  (forall w, exists w',
      disconnect rt w = (Ok tt, w') /\ connected w' = false)
  /\ (forall w, exists w',
         bind (disconnect rt) (fun _ => disconnect rt) w = (Ok tt, w')
         /\ connected w' = false)
  /\ (forall w, exists w',
         disconnect rt (snd (connect rt w)) = (Ok tt, w')
         /\ connected w' = false).
Proof.
  assert (H : forall w, exists w',
               disconnect rt w = (Ok tt, w') /\ connected w' = false).
  { intros w. rewrite disconnect_run. eexists. split; [reflexivity|].
    cbn [emit connected]. destruct (connected w) eqn:E; [reflexivity|exact E]. }
  split; [exact H|]. split.
  - intros w. unfold bind. destruct (H w) as (w1 & -> & _). apply H.
  - intros w. apply H.
Qed.

End DisconnectProperties.

(** ** Tool calls and listings *)

Section ToolProperties.

Variable rt : Runtime.

Lemma call_tool_run (name : string) (arguments : json) (w : World) :
  exists r,
    call_tool rt name arguments w
    = (Ok r, after_request "tools/call"
               (Some (JObj [("name", JStr name); ("arguments", arguments)])) w)
    /\ forall e, exchange rt (next_outcome w) = Raise e -> r = failure_response e.
Proof.
  unfold call_tool, try_except, bind, lift, ret. rewrite send_request_run.
  destruct (exchange rt (next_outcome w)) as [resp|e]; cbv beta iota zeta.
  - match goal with
    | |- context [res_bind ?a ?k] => destruct (res_bind a k) as [r|e]
    end; eexists; (split; [reflexivity|discriminate]).
  - eexists. split; [reflexivity|]. intros e' [= <-]. reflexivity.
Qed.

Lemma mcp_error_message (err : list (string * json)) (m : string) :
  Py.lookup "message" err = Some (JStr m) ->
  exn_msg (mcp_error rt err) = ("MCP Error: " ++ m)%string.
Proof.
  intros H. unfold mcp_error, Py.dict_get. rewrite H. reflexivity.
Qed.

(** C5: [call_tool] returns normally in every case; when the exchange
    fails, it returns the result with the error flag set and the single
    text item "Error: " followed by the description of the failure: the
    wrapped error of the transport, the decode error, or "MCP Error: "
    with the message of the server for an error object. *)
Theorem call_tool_reports_failure (name : string) (arguments : json) (w : World) :
  (exists r w', call_tool rt name arguments w = (Ok r, w'))
  /\ (forall e,
         exchange rt (next_outcome w) = Raise e ->
         exists w', call_tool rt name arguments w = (Ok (failure_response e), w'))
  /\ (forall e,
         next_outcome w = PostRaises e ->
         exists w',
           call_tool rt name arguments w = (Ok (failure_response (surfaced e)), w'))
  /\ (forall err m,
         error_object rt (next_outcome w) = Some err ->
         Py.lookup "message" err = Some (JStr m) ->
         exists w',
           call_tool rt name arguments w
           = (Ok {| content := [JObj [("type", JStr "text");
                                      ("text", JStr ("Error: MCP Error: " ++ m))]];
                    isError := true |}, w')).
Proof.
  destruct (call_tool_run name arguments w) as (r & Hrun & Hfail).
  assert (G : forall e, exchange rt (next_outcome w) = Raise e ->
                        exists w', call_tool rt name arguments w
                                   = (Ok (failure_response e), w')).
  { intros e He. rewrite Hrun, (Hfail e He). eexists. reflexivity. }
  split; [eexists _, _; exact Hrun|]. split; [exact G|]. split.
  - intros e He. apply G. rewrite exchange_cases, He. reflexivity.
  - intros err m Herr Hm.
    destruct (G _ (error_object_exchange rt _ _ Herr)) as [w' Hw'].
    exists w'. rewrite Hw'. unfold failure_response.
    rewrite (mcp_error_message err m Hm). reflexivity.
Qed.

Lemma list_tools_run (w : World) :
  list_tools rt w
  = (Ok match exchange rt (next_outcome w) with
        | Ok resp =>
            match res_bind (py_iter rt (result_list resp "tools"))
                           (res_mapM (parse_tool rt)) with
            | Ok l => l
            | Raise _ => []
            end
        | Raise _ => []
        end,
     after_request "tools/list" None w).
Proof.
  unfold list_tools, try_except, bind, lift, ret. rewrite send_request_run.
  destruct (exchange rt (next_outcome w)) as [resp|e]; cbv beta iota zeta;
    [|reflexivity].
  destruct (res_bind _ _); reflexivity.
Qed.

Lemma list_resources_run (w : World) :
  list_resources rt w
  = (Ok match exchange rt (next_outcome w) with
        | Ok resp =>
            match res_bind (py_iter rt (result_list resp "resources"))
                           (res_mapM (make_Resource rt)) with
            | Ok l => l
            | Raise _ => []
            end
        | Raise _ => []
        end,
     after_request "resources/list" None w).
Proof.
  unfold list_resources, try_except, bind, lift, ret. rewrite send_request_run.
  destruct (exchange rt (next_outcome w)) as [resp|e]; cbv beta iota zeta;
    [|reflexivity].
  destruct (res_bind _ _); reflexivity.
Qed.

Lemma result_list_lacking (resp : MCPResponse) (k : string) :
  lacks_key resp k -> result_list resp k = JArr [].
Proof.
  unfold lacks_key, result_list, Py.dict_get.
  destruct (result resp) as [[|x r]|]; try reflexivity.
  intros ->. reflexivity.
Qed.

(** C8: when the exchange succeeds and the result payload is absent or
    lacks the key "tools" (resp. "resources"), [list_tools] (resp.
    [list_resources]) returns the empty list. *)
Theorem listing_without_key_is_empty (w : World) (resp : MCPResponse) :
  exchange rt (next_outcome w) = Ok resp ->
  (lacks_key resp "tools" -> exists w', list_tools rt w = (Ok [], w'))
  /\ (lacks_key resp "resources" -> exists w', list_resources rt w = (Ok [], w')).
Proof.
  intros He. split; intros Hk.
  - rewrite list_tools_run, He, (result_list_lacking _ _ Hk).
    eexists. reflexivity.
  - rewrite list_resources_run, He, (result_list_lacking _ _ Hk).
    eexists. reflexivity.
Qed.

(** C10: [list_tools] and [list_resources] return normally in every
    case, and when the exchange fails, for whatever reason, they return
    the empty list, which is also their answer to a server without tools
    or resources. *)
Theorem listing_absorbs_failures (w : World) :
  (exists l w', list_tools rt w = (Ok l, w'))
  /\ (exists l w', list_resources rt w = (Ok l, w'))
  /\ (forall e,
         exchange rt (next_outcome w) = Raise e ->
         (exists w', list_tools rt w = (Ok [], w'))
         /\ (exists w', list_resources rt w = (Ok [], w'))).
Proof.
  split; [rewrite list_tools_run; eexists _, _; reflexivity|].
  split; [rewrite list_resources_run; eexists _, _; reflexivity|].
  intros e He. rewrite list_tools_run, list_resources_run, He.
  split; eexists; reflexivity.
Qed.

End ToolProperties.

Lemma call_tool_reports_failure_witness :
  exists w',
    call_tool Mini.rt "invalid_tool" (JObj []) (client_on net_rejecting)
    = (Ok {| content := [JObj [("type", JStr "text");
                               ("text", JStr "Error: MCP Error: Invalid params")]];
             isError := true |}, w').
Proof.
  destruct (call_tool_reports_failure Mini.rt "invalid_tool" (JObj [])
              (client_on net_rejecting)) as (_ & _ & _ & H).
  apply (H [("code", JInt (-32602)%Z); ("message", JStr "Invalid params")]
           "Invalid params").
  - vm_compute. reflexivity.
  - reflexivity.
Defined.

Lemma listing_without_key_is_empty_witness :
  (exists w', list_tools Mini.rt (client_on net_empty_result) = (Ok [], w'))
  /\ (exists w', list_resources Mini.rt (client_on net_empty_result) = (Ok [], w')).
Proof.
  edestruct (listing_without_key_is_empty Mini.rt (client_on net_empty_result))
    as [Ht Hr].
  - vm_compute. reflexivity.
  - split; [apply Ht|apply Hr]; reflexivity.
Defined.

Lemma listing_absorbs_failures_witness :
  (exists w', list_tools Mini.rt (client_on net_refusing) = (Ok [], w'))
  /\ (exists w', list_resources Mini.rt (client_on net_rejecting) = (Ok [], w')).
Proof.
  destruct (listing_absorbs_failures Mini.rt (client_on net_refusing))
    as (_ & _ & H1).
  destruct (listing_absorbs_failures Mini.rt (client_on net_rejecting))
    as (_ & _ & H2).
  split.
  - apply (H1 (communicate_error refused)). vm_compute. reflexivity.
  - apply (H2 (Exn PlainException "MCP Error: Invalid params" None)).
    vm_compute. reflexivity.
Defined.

(** ** Flattening of the input schema *)

Section FlattenProperties.

Variable rt : Runtime.

Lemma res_mapM_Forall2 {A B} (f : A -> Res B) (l : list A) (l' : list B) :
  res_mapM f l = Ok l' -> Forall2 (fun x y => f x = Ok y) l l'.
Proof.
  revert l'. induction l as [|x l IH]; intros l' H.
  - injection H as <-. constructor.
  - cbn [res_mapM] in H. unfold res_bind in H.
    destruct (f x) as [y|] eqn:Ex; [|discriminate].
    destruct (res_mapM f l) as [ys|]; [|discriminate].
    injection H as <-. constructor; [exact Ex|]. apply IH. reflexivity.
Qed.

Lemma existsb_str_eq (name : string) (names : list json) :
  existsb (Py.str_eq name) names = true <-> In (JStr name) names.
Proof.
  rewrite existsb_exists. split.
  - intros (x & Hin & Heq). destruct x; try discriminate.
    cbn in Heq. apply String.eqb_eq in Heq. subst. exact Hin.
  - intros Hin. exists (JStr name). split; [exact Hin|].
    cbn. apply String.eqb_refl.
Qed.

(** One property of the map and the parameter built from it. *)
Lemma flatten_property_parameter (required : json) (entry : string * json)
      (raw : string * json * json * bool * json) (p : ToolParameter) :
  flatten_property rt required entry = Ok raw ->
  (let '(name, ty, desc, req, enum) := raw in
   make_ToolParameter rt name ty desc req enum) = Ok p ->
  tp_name p = fst entry /\ py_in rt (fst entry) required = Ok (tp_required p).
Proof.
  destruct entry as [name info]. cbn [fst]. unfold flatten_property, res_bind.
  destruct (as_dict rt info) as [i|]; [|discriminate].
  destruct (py_in rt name required) as [req|]; [|discriminate].
  intros [= <-]. unfold make_ToolParameter, res_bind.
  destruct (validate_str rt _) as [ty|]; [|discriminate].
  destruct (validate_str rt _) as [desc|]; [|discriminate].
  destruct (validate_opt_list_str rt _) as [enum|]; [|discriminate].
  intros [= <-]. split; reflexivity.
Qed.

Lemma flatten_properties_parameters (required : json) (props : list (string * json))
      (raws : list (string * json * json * bool * json)) (ps : list ToolParameter) :
  Forall2 (fun entry raw => flatten_property rt required entry = Ok raw) props raws ->
  Forall2 (fun raw p => (let '(name, ty, desc, req, enum) := raw in
                         make_ToolParameter rt name ty desc req enum) = Ok p)
          raws ps ->
  map tp_name ps = map fst props
  /\ forall p, In p ps ->
               py_in rt (tp_name p) required = Ok (tp_required p).
Proof.
  intros H1. revert ps. induction H1 as [|entry raw props raws He _ IH]; intros ps H2.
  - inversion H2; subst. split; [reflexivity|]. intros p [].
  - inversion H2 as [|raw' p raws' ps' Hp Hps]; subst.
    destruct (flatten_property_parameter _ _ _ _ He Hp) as [Hn Hr].
    destruct (IH _ Hps) as [IHn IHr]. split.
    + cbn [map]. rewrite Hn, IHn. reflexivity.
    + intros q [<-|Hq]; [rewrite Hn; exact Hr|apply IHr; exact Hq].
Qed.

(** A tool that [parse_tool] builds is the flattening of its entry. *)
Lemma parse_tool_flattened (t : json) (tool : Tool) :
  parse_tool rt t = Ok tool -> flattened t tool.
Proof.
  unfold parse_tool, flattened, schema_properties, schema_required, entry_field.
  destruct t as [| | | | |tm]; try discriminate.
  cbn [as_dict res_bind].
  destruct (Py.or_else (Py.dict_get tm "inputSchema" (JObj [])) (JObj []))
    as [| | | | |schema]; try discriminate.
  cbn [as_dict res_bind].
  destruct (Py.or_else (Py.dict_get schema "properties" (JObj [])) (JObj []))
    as [| | | | |props]; try discriminate.
  cbn [as_dict res_bind].
  set (required := Py.or_else (Py.dict_get schema "required" (JArr [])) (JArr [])).
  destruct (res_mapM (flatten_property rt required) props) as [raws|] eqn:Eraws;
    [|discriminate].
  destruct (Py.lookup "name" tm) as [n|]; [|discriminate].
  cbn [res_bind].
  destruct (validate_str rt n) as [n'|]; [|discriminate]. cbn [res_bind].
  destruct (validate_str rt _) as [d|]; [|discriminate]. cbn [res_bind].
  destruct (res_mapM _ raws) as [ps|] eqn:Eps; [|discriminate].
  intros [= <-]. cbn [parameters].
  destruct (flatten_properties_parameters required props raws ps
              (res_mapM_Forall2 _ _ _ Eraws) (res_mapM_Forall2 _ _ _ Eps))
    as [Hn Hr].
  split; [exact Hn|].
  intros names Hnames p Hp. specialize (Hr p Hp).
  rewrite Hnames in Hr. cbn [py_in] in Hr. injection Hr as Hr.
  rewrite <- Hr. apply existsb_str_eq.
Qed.

Lemma returns_bind {A B} (r : Res A) (k : A -> Res B) :
  returns (res_bind r k) = match r with Ok a => returns (k a) | Raise _ => false end.
Proof. destruct r; reflexivity. Qed.

Lemma returns_mapM {A B} (f : A -> Res B) (l : list A) :
  returns (res_mapM f l) = forallb (fun x => returns (f x)) l.
Proof.
  induction l as [|x l IH]; [reflexivity|].
  cbn [res_mapM forallb]. rewrite returns_bind.
  destruct (f x); cbn [returns andb]; [|reflexivity].
  rewrite returns_bind, <- IH. destruct (res_mapM f l); reflexivity.
Qed.

Lemma forallb_pointwise {A} (f g : A -> bool) (l : list A) :
  (forall x, f x = g x) -> forallb f l = forallb g l.
Proof.
  intros H. induction l as [|x l IH]; [reflexivity|].
  cbn [forallb]. rewrite H, IH. reflexivity.
Qed.

Lemma returns_validate_str (v : json) : returns (validate_str rt v) = is_str v.
Proof. destruct v; reflexivity. Qed.

Lemma returns_validate_opt_list_str (v : json) :
  returns (validate_opt_list_str rt v) = is_opt_str_list v.
Proof.
  destruct v as [| | | |l|]; try reflexivity.
  cbn [validate_opt_list_str is_opt_str_list]. rewrite returns_bind.
  pose proof (returns_mapM (validate_str rt) l) as H.
  destruct (res_mapM (validate_str rt) l); cbn [returns] in *; rewrite H;
    apply forallb_pointwise; intros x; apply returns_validate_str.
Qed.

Lemma returns_make_ToolParameter (name : string) (ty desc : json) (req : bool)
      (enum : json) :
  returns (make_ToolParameter rt name ty desc req enum)
  = is_str ty && is_str desc && is_opt_str_list enum.
Proof.
  unfold make_ToolParameter.
  rewrite <- returns_validate_str, <- (returns_validate_str desc),
    <- returns_validate_opt_list_str.
  destruct (validate_str rt ty); [|reflexivity].
  destruct (validate_str rt desc); [|reflexivity].
  destruct (validate_opt_list_str rt enum); reflexivity.
Qed.

Lemma returns_flatten_property (required : json) (entry : string * json) :
  returns (flatten_property rt required entry)
  = match snd entry with JObj _ => true | _ => false end && is_container required.
Proof.
  destruct entry as [name info]. cbn [snd]. unfold flatten_property.
  destruct info; try reflexivity. cbn [as_dict res_bind andb].
  destruct required; reflexivity.
Qed.

(** Once the properties are collected, the parameters validate exactly
    when every property is well formed. *)
Lemma parameters_return (required : json) (props : list (string * json))
      (raws : list (string * json * json * bool * json)) :
  res_mapM (flatten_property rt required) props = Ok raws ->
  returns (res_mapM (fun p => match p with
                              | (name, ty, desc, req, enum) =>
                                  make_ToolParameter rt name ty desc req enum
                              end) raws)
  = forallb well_formed_property props.
Proof.
  intros H. apply res_mapM_Forall2 in H. rewrite returns_mapM.
  induction H as [|entry raw props raws He _ IH]; [reflexivity|].
  cbn [forallb]. rewrite IH. f_equal.
  destruct entry as [name info]. unfold flatten_property, res_bind in He.
  unfold well_formed_property. cbn [snd].
  destruct info as [| | | | |i]; try discriminate. cbn [as_dict] in He.
  destruct (py_in rt name required); [|discriminate].
  injection He as <-. apply returns_make_ToolParameter.
Qed.

Lemma well_formed_property_object (entry : string * json) :
  well_formed_property entry = true ->
  match snd entry with JObj _ => true | _ => false end = true.
Proof.
  unfold well_formed_property. destruct (snd entry); try discriminate. reflexivity.
Qed.

(** What collecting the properties asks for is part of what their being
    well formed asks for. *)
Lemma properties_collected (required : json) (props : list (string * json)) :
  returns (res_mapM (flatten_property rt required) props) = true ->
  match props with [] => true | _ :: _ => is_container required end = true.
Proof.
  destruct props as [|entry props]; [reflexivity|].
  rewrite returns_mapM. cbn [forallb]. rewrite returns_flatten_property.
  intros H. apply andb_prop in H. destruct H as [H _].
  apply andb_prop in H. destruct H as [_ H]. exact H.
Qed.

Lemma properties_not_collected (required : json) (props : list (string * json)) :
  returns (res_mapM (flatten_property rt required) props) = false ->
  forallb well_formed_property props
  && match props with [] => true | _ :: _ => is_container required end = false.
Proof.
  rewrite returns_mapM. intros H.
  destruct (is_container required) eqn:Ec.
  - assert (Hf : forallb well_formed_property props = false).
    { induction props as [|entry props IH]; [discriminate|].
      cbn [forallb] in *. rewrite returns_flatten_property, Ec, andb_true_r in H.
      destruct (well_formed_property entry) eqn:Ew; [|reflexivity].
      rewrite (well_formed_property_object entry Ew) in H. cbn [andb] in *.
      apply IH. exact H. }
    rewrite Hf. reflexivity.
  - destruct props as [|entry props]; [discriminate|]. apply andb_false_r.
Qed.

(** The body of the loop returns a tool exactly for the well-formed
    entries, and raises for the others. *)
Lemma parse_tool_returns (t : json) :
  returns (parse_tool rt t) = well_formed_tool t.
Proof.
  destruct t as [| | | | |tm]; try reflexivity.
  unfold parse_tool, well_formed_tool, schema_required, entry_field.
  cbn [as_dict res_bind].
  destruct (Py.or_else (Py.dict_get tm "inputSchema" (JObj [])) (JObj []))
    as [| | | | |schema];
    try (cbn [as_dict res_bind returns]; rewrite andb_false_r; reflexivity).
  cbn [as_dict res_bind].
  set (required := Py.or_else (Py.dict_get schema "required" (JArr [])) (JArr [])).
  destruct (Py.or_else (Py.dict_get schema "properties" (JObj [])) (JObj []))
    as [| | | | |props];
    try (cbn [as_dict res_bind returns]; rewrite andb_false_r; reflexivity).
  cbn [as_dict res_bind].
  destruct (res_mapM (flatten_property rt required) props) as [raws|e] eqn:Eraws.
  - cbn [res_bind].
    assert (Hc : match props with [] => true | _ :: _ => is_container required end
                 = true).
    { apply properties_collected. rewrite Eraws. reflexivity. }
    rewrite Hc, andb_true_r.
    destruct (Py.lookup "name" tm) as [n|]; [|reflexivity].
    cbn [res_bind].
    destruct n as [| | |n| |]; try reflexivity.
    cbn [validate_str res_bind andb].
    rewrite returns_bind.
    pose proof (returns_validate_str (Py.dict_get tm "description" (JStr ""))) as Hd.
    destruct (validate_str rt (Py.dict_get tm "description" (JStr ""))) as [d|];
      cbn [returns] in Hd; rewrite <- Hd; [|reflexivity].
    cbn [andb]. rewrite returns_bind.
    pose proof (parameters_return required props raws Eraws) as Hp.
    destruct (res_mapM _ raws); cbn [returns] in Hp |- *; exact Hp.
  - cbn [res_bind returns].
    rewrite properties_not_collected; [rewrite andb_false_r; reflexivity|].
    rewrite Eraws. reflexivity.
Qed.

Lemma res_mapM_returns {A B} (f : A -> Res B) (l : list A) :
  returns (res_mapM f l) = true -> exists l', res_mapM f l = Ok l'.
Proof. destruct (res_mapM f l) as [l'|]; [exists l'; reflexivity|discriminate]. Qed.

Lemma res_mapM_not_returns {A B} (f : A -> Res B) (l : list A) :
  returns (res_mapM f l) = false -> exists e, res_mapM f l = Raise e.
Proof. destruct (res_mapM f l) as [|e]; [discriminate|exists e; reflexivity]. Qed.

(** C9 (as amended): when every entry of the list the server sent is well
    formed, [list_tools] returns one tool for each entry, in the order of
    the server, and each tool is the flattening of its entry: its
    parameters are the properties of the input schema in the order of the
    property map, and a parameter is flagged required exactly when its
    name occurs in the required list of the schema. When an entry is not
    well formed, [list_tools] returns the empty list, whatever the other
    entries are. *)
Theorem list_tools_flattens_schema
        (w : World) (resp : MCPResponse) (entries : list json) :
  exchange rt (next_outcome w) = Ok resp ->
  py_iter rt (result_list resp "tools") = Ok entries ->
  (forallb well_formed_tool entries = true ->
   exists tools,
     fst (list_tools rt w) = Ok tools /\ Forall2 flattened entries tools)
  /\ (forallb well_formed_tool entries = false ->
      fst (list_tools rt w) = Ok []).
Proof.
  intros He Hi. rewrite list_tools_run, He, Hi. cbn [res_bind fst].
  pose proof (returns_mapM (parse_tool rt) entries) as Hr.
  rewrite (forallb_pointwise _ _ entries parse_tool_returns) in Hr. rewrite <- Hr.
  split; intros H.
  - destruct (res_mapM_returns _ _ H) as [tools Et]. rewrite Et.
    exists tools. split; [reflexivity|].
    apply res_mapM_Forall2 in Et. clear He Hi Hr H.
    induction Et as [|t tool ts tls Hp _ IH]; constructor.
    + apply parse_tool_flattened. exact Hp.
    + exact IH.
  - destruct (res_mapM_not_returns _ _ H) as [e ->]. reflexivity.
Qed.

End FlattenProperties.

(** C9 (counterexample): the server lists the search tool followed by an
    entry without a name. Listed alone, the search tool is returned with
    its schema flattened; listed before the other entry, it is not
    returned at all: [list_tools] answers with the empty list. *)
Lemma list_tools_drops_sibling_cex :
  (exists resp,
      exchange Mini.rt (next_outcome (client_on net_search_and_stray)) = Ok resp
      /\ py_iter Mini.rt (result_list resp "tools") = Ok [search_entry; stray_entry])
  /\ parse_tool Mini.rt search_entry = Ok search_tool
  /\ fst (list_tools Mini.rt (client_on net_search_tool)) = Ok [search_tool]
  /\ fst (list_tools Mini.rt (client_on net_search_and_stray)) = Ok [].
Proof.
  split; [eexists; split; vm_compute; reflexivity|].
  vm_compute. repeat split.
Qed.

Lemma list_tools_flattens_schema_witness :
  exists tools,
    fst (list_tools Mini.rt (client_on net_search_tool)) = Ok tools
    /\ Forall2 flattened [search_entry] tools.
Proof.
  edestruct (list_tools_flattens_schema Mini.rt (client_on net_search_tool))
    as [H _].
  - vm_compute. reflexivity.
  - vm_compute. reflexivity.
  - apply H. reflexivity.
Defined.

(** ** Session continuity *)

Section SessionProperties.

Variable rt : Runtime.

Lemma latest_token_snoc (tr : list Event) (ev : Event) :
  latest_token (tr ++ [ev])
  = match event_token ev with
    | Some t => Some t
    | None => latest_token tr
    end.
Proof. unfold latest_token. rewrite fold_left_app. reflexivity. Qed.

Lemma supplied_token_origin (o : PostOutcome) (t : string) :
  supplied_token o = Some t ->
  t <> ""
  /\ exists r, o = PostReturns r
               /\ header_get "mcp-session-id" (headers r) = Some t.
Proof.
  unfold supplied_token. destruct o as [e|r]; [discriminate|].
  destruct ((400 <=? status_code r) && (status_code r <? 600)); [discriminate|].
  destruct (header_get "mcp-session-id" (headers r)) as [s|] eqn:Eh;
    [|discriminate].
  destruct (String.eqb s "") eqn:E; [discriminate|].
  intros [= <-]. split.
  - intros ->. discriminate.
  - exists r. split; [reflexivity|exact Eh].
Qed.

(** A token of the trace was sent by the server in answer to a request:
    the client makes none up. *)
Lemma latest_token_origin (tr : list Event) (t : string) :
  latest_token tr = Some t ->
  t <> ""
  /\ exists rq r,
       In (EvPost rq (PostReturns r)) tr
       /\ req_id rq <> None
       /\ header_get "mcp-session-id" (headers r) = Some t.
Proof.
  induction tr as [|ev tr IH] using rev_ind; [discriminate|].
  rewrite latest_token_snoc.
  destruct (event_token ev) as [t'|] eqn:E.
  - intros [= ->]. destruct ev as [rq o| |]; try discriminate.
    cbn [event_token] in E.
    destruct (req_id rq) eqn:Eid; [|discriminate].
    destruct (supplied_token_origin o t E) as (Hne & r & -> & Hh).
    split; [exact Hne|]. exists rq, r. split; [|split].
    + apply in_or_app. right. left. reflexivity.
    + rewrite Eid. discriminate.
    + exact Hh.
  - intros H. destruct (IH H) as (Hne & rq & r & Hin & Hid & Hh).
    split; [exact Hne|]. exists rq, r. split; [|split; assumption].
    apply in_or_app. left. exact Hin.
Qed.

Lemma headers_follow_tokens_snoc (tr : list Event) (ev : Event) :
  headers_follow_tokens tr ->
  match ev with
  | EvPost rq _ => session_header rq = latest_token tr
  | _ => True
  end ->
  headers_follow_tokens (tr ++ [ev]).
Proof.
  intros Htr Hev pre rq o post Heq.
  destruct post as [|x post'] using rev_ind.
  - apply (app_inj_tail tr pre ev (EvPost rq o)) in Heq.
    destruct Heq as [-> ->]. exact Hev.
  - clear IHpost'.
    change (pre ++ EvPost rq o :: post' ++ [x])
      with (pre ++ (EvPost rq o :: post') ++ [x]) in Heq.
    rewrite app_assoc in Heq.
    apply app_inj_tail in Heq. destruct Heq as [-> _].
    apply (Htr pre rq o post'). reflexivity.
Qed.

(** The header the client attaches is its stored token. *)
Lemma session_header_of (w : World) :
  (forall t, session_id w = Some t -> t <> "") ->
  header_get "mcp-session-id" (headers_of w) = session_id w.
Proof.
  intros Hne. unfold headers_of, _make_headers, get, str_truthy. cbn [fst].
  destruct (session_id w) as [s|]; [|reflexivity].
  destruct (String.eqb s "") eqn:E.
  - apply String.eqb_eq in E. destruct (Hne s eq_refl E).
  - reflexivity.
Qed.

Lemma session_inv_stored_nonempty (w : World) :
  session_inv w -> forall t, session_id w = Some t -> t <> "".
Proof.
  intros [Hs _] t Ht. rewrite Hs in Ht.
  apply (latest_token_origin _ _ Ht).
Qed.

Lemma session_inv_after_request (m : string) (p : option json) (w : World) :
  session_inv w -> session_inv (after_request m p w).
Proof.
  intros Hinv. pose proof (session_inv_stored_nonempty w Hinv) as Hne.
  destruct Hinv as [Hs Hh].
  assert (Hh' : headers_follow_tokens
                  (trace w ++ [EvPost (request_of m p w) (next_outcome w)])).
  { apply headers_follow_tokens_snoc; [exact Hh|].
    unfold session_header. cbn [request_of req_headers].
    rewrite (session_header_of w Hne). exact Hs. }
  unfold session_inv. rewrite after_request_trace. split; [|exact Hh'].
  rewrite latest_token_snoc. cbn [event_token request_of req_id].
  unfold after_request.
  destruct (supplied_token (next_outcome w)); [reflexivity|exact Hs].
Qed.

Lemma session_inv_after_notification (m : string) (p : option json) (w : World) :
  session_inv w -> session_inv (after_notification m p w).
Proof.
  intros Hinv. pose proof (session_inv_stored_nonempty w Hinv) as Hne.
  destruct Hinv as [Hs Hh].
  unfold session_inv, after_notification. cbn [emit trace session_id]. split.
  - rewrite latest_token_snoc. exact Hs.
  - apply headers_follow_tokens_snoc; [exact Hh|].
    unfold session_header. cbn [notification_of req_headers].
    rewrite (session_header_of w Hne). exact Hs.
Qed.

Lemma session_inv_emit (ev : Event) (w : World) :
  is_post ev = false -> session_inv w -> session_inv (emit ev w).
Proof.
  intros Hev [Hs Hh]. unfold session_inv. cbn [emit trace session_id]. split.
  - rewrite latest_token_snoc.
    destruct ev; [discriminate|exact Hs|exact Hs].
  - apply headers_follow_tokens_snoc; [exact Hh|].
    destruct ev; [discriminate|exact I|exact I].
Qed.

Lemma session_inv_connect_loop (total : nat) (attempts : list (nat * nat)) (w : World) :
  session_inv w -> session_inv (snd (connect_loop rt total attempts w)).
Proof.
  revert w. induction attempts as [|[attempt delay] rest IH]; intros w Hinv;
    [exact Hinv|].
  cbn [connect_loop].
  destruct (exchange rt (next_outcome w)) as [resp|e] eqn:E.
  - destruct (connect_attempt_succeeds rt w resp E) as [caps ->].
    cbn [snd].
    apply (session_inv_after_notification "notifications/initialized" None
             (set_server_capabilities caps
                (after_request "initialize" (Some initialize_params) w))).
    apply (session_inv_after_request "initialize" (Some initialize_params) w Hinv).
  - rewrite (connect_attempt_fails rt w e E).
    pose proof (session_inv_after_request "initialize" (Some initialize_params)
                  w Hinv) as H1.
    destruct (attempt <? total).
    + unfold bind, sleep, modify. apply IH.
      apply session_inv_emit; [reflexivity|exact H1].
    + exact H1.
Qed.

Lemma session_inv_run_op (op : Op) (w : World) :
  session_inv w -> session_inv (run_op rt op w).
Proof.
  intros Hinv. destruct op; cbn [run_op].
  - apply session_inv_connect_loop. exact Hinv.
  - rewrite disconnect_run. cbn [snd].
    apply session_inv_emit; [reflexivity|].
    destruct (connected w); [|exact Hinv].
    apply (session_inv_after_request "shutdown" None w Hinv).
  - rewrite list_tools_run. apply session_inv_after_request. exact Hinv.
  - rewrite list_resources_run. apply session_inv_after_request. exact Hinv.
  - destruct (call_tool_run rt name arguments w) as (r & -> & _).
    apply session_inv_after_request. exact Hinv.
  - rewrite send_request_run. apply session_inv_after_request. exact Hinv.
  - rewrite send_notification_run. apply session_inv_after_notification.
    exact Hinv.
Qed.

Lemma session_inv_run_ops (ops : list Op) (w : World) :
  session_inv w -> session_inv (run_ops rt ops w).
Proof.
  revert w. induction ops as [|op ops IH]; intros w Hinv; [exact Hinv|].
  cbn [run_ops fold_left]. apply IH. apply session_inv_run_op. exact Hinv.
Qed.

Lemma session_inv_new_client (n : nat -> PostOutcome) (u : nat -> string)
      (c : nat -> option exn) :
  session_inv (new_client n u c).
Proof.
  split; [reflexivity|].
  intros pre rq o post Heq. cbn [new_client trace] in Heq.
  destruct pre; discriminate.
Qed.

(** C6: along every sequence of operations of a new client, each posted
    request carries as session header the token most recently supplied by
    the response to an earlier request, and no session header when there
    was none; a token a request carries was sent by the server. *)
Theorem session_header_follows_tokens
        (n : nat -> PostOutcome) (u : nat -> string) (c : nat -> option exn)
        (ops : list Op) (pre post : list Event) (rq : Request) (o : PostOutcome) :
  trace (run_ops rt ops (new_client n u c)) = pre ++ EvPost rq o :: post ->
  session_header rq = latest_token pre
  /\ (forall t, session_header rq = Some t <-> latest_token pre = Some t)
  /\ (latest_token pre = None -> session_header rq = None)
  /\ (forall t, session_header rq = Some t ->
                exists rq' r,
                  In (EvPost rq' (PostReturns r)) pre
                  /\ req_id rq' <> None
                  /\ header_get "mcp-session-id" (headers r) = Some t).
Proof.
  intros Heq.
  destruct (session_inv_run_ops ops _ (session_inv_new_client n u c)) as [_ Hh].
  pose proof (Hh pre rq o post Heq) as H.
  split; [exact H|]. split; [intros t; rewrite H; reflexivity|].
  split; [intros Hn; rewrite H; exact Hn|].
  intros t Ht. rewrite H in Ht. apply (latest_token_origin _ _ Ht).
Qed.

End SessionProperties.

Lemma session_header_follows_tokens_witness :
  exists rq o,
    nth_error session_trace 6 = Some (EvPost rq o)
    /\ latest_token (firstn 6 session_trace) = Some "s1"
    /\ session_header rq = Some "s1".
Proof.
  eexists _, _. split; [vm_compute; reflexivity|].
  split; [vm_compute; reflexivity|].
  match goal with
  | |- session_header ?rq = _ =>
      destruct (session_header_follows_tokens Mini.rt net_third_time
                  (fun _ => "id") (fun _ => None) [OpConnect; OpListTools]
                  (firstn 6 session_trace) (skipn 7 session_trace)
                  rq (net_third_time 4)) as (H & _)
  end.
  - vm_compute. reflexivity.
  - rewrite H. vm_compute. reflexivity.
Defined.

(** * Further properties *)

(** ** The request primitives *)

Section ExchangeMore.

Variable rt : Runtime.

Lemma after_request_session_id (m : string) (p : option json) (w : World) :
  session_id (after_request m p w)
  = match supplied_token (next_outcome w) with
    | Some t => Some t
    | None => session_id w
    end.
Proof. unfold after_request. destruct (supplied_token _); reflexivity. Qed.

(** X1: a notification never raises, whatever the transport does; it
    posts once, without identifier, and the response is not looked at:
    neither the session token nor the connection flag changes. *)
Theorem send_notification_is_silent (method : string) (params : option json) (w : World) :
  exists w' rq,
    _send_notification method params w = (Ok tt, w')
    /\ trace w' = trace w ++ [EvPost rq (next_outcome w)]
    /\ req_method rq = method /\ req_id rq = None /\ req_params rq = params
    /\ session_header rq = session_header (request_of method params w)
    /\ session_id w' = session_id w
    /\ connected w' = connected w
    /\ server_capabilities w' = server_capabilities w.
Proof.
  rewrite send_notification_run. eexists _, _. split; [reflexivity|].
  repeat split.
Qed.

(** X2: an exception of the transport that is a [RequestException] comes
    out as the plain exception "Failed to communicate with MCP server: "
    with the original as its cause; an exception of any other class comes
    out unchanged.  The stored token stays as it was. *)
Theorem send_request_wraps_request_exceptions
        (method : string) (params : option json) (w : World) (e : exn) :
  next_outcome w = PostRaises e ->
  session_id (snd (_send_request rt method params w)) = session_id w
  /\ (exn_cls e = RequestException ->
      fst (_send_request rt method params w)
      = Raise (Exn PlainException
                   ("Failed to communicate with MCP server: " ++ exn_msg e)
                   (Some e)))
  /\ (exn_cls e <> RequestException -> exn_cls e <> RequestsJSONDecodeError ->
      fst (_send_request rt method params w) = Raise e).
Proof.
  intros Ho. rewrite send_request_run. cbn [fst snd].
  rewrite after_request_session_id, exchange_cases, Ho. cbn [supplied_token].
  split; [reflexivity|]. unfold surfaced. split.
  - intros ->. reflexivity.
  - intros H1 H2. destruct (exn_cls e); try reflexivity; congruence.
Qed.

(** X3: a response whose status is between 400 and 599 makes the request
    raise the wrapped HTTP error before anything of it is read: its body
    is not decoded and its session header is not stored. *)
Theorem send_request_rejects_error_status
        (method : string) (params : option json) (w : World) (r : HttpResponse) :
  next_outcome w = PostReturns r ->
  http_failed r = true ->
  fst (_send_request rt method params w)
  = Raise (Exn PlainException
               ("Failed to communicate with MCP server: "
                  ++ http_error rt (status_code r))
               (Some (Exn RequestException (http_error rt (status_code r)) None)))
  /\ session_id (snd (_send_request rt method params w)) = session_id w.
Proof.
  unfold http_failed. intros Ho Hs. rewrite send_request_run. cbn [fst snd].
  rewrite after_request_session_id, exchange_cases, Ho. cbn [supplied_token].
  rewrite Hs. split; reflexivity.
Qed.

(** X4: the session header of a response that passed the status check is
    stored before the body is looked at: the client holds it afterwards
    whether the request returns or raises, and attaches it next. *)
Theorem send_request_stores_token_first
        (method : string) (params : option json) (w : World) (r : HttpResponse)
        (t : string) :
  next_outcome w = PostReturns r ->
  http_failed r = false ->
  header_get "mcp-session-id" (headers r) = Some t ->
  t <> "" ->
  session_id (snd (_send_request rt method params w)) = Some t
  /\ forall method' params',
       session_header
         (request_of method' params' (snd (_send_request rt method params w)))
       = Some t.
Proof.
  unfold http_failed. intros Ho Hs Hh Hne.
  assert (Hsid : session_id (snd (_send_request rt method params w)) = Some t).
  { rewrite send_request_run. cbn [snd].
    rewrite after_request_session_id, Ho. cbn [supplied_token].
    rewrite Hs, Hh. destruct (String.eqb t "") eqn:E; [|reflexivity].
    apply String.eqb_eq in E. contradiction. }
  split; [exact Hsid|].
  intros method' params'. unfold session_header. cbn [request_of req_headers].
  rewrite <- Hsid. apply session_header_of.
  intros t' Ht'. rewrite Hsid in Ht'. injection Ht' as <-. exact Hne.
Qed.

Lemma decode_body_event_stream (r : HttpResponse) :
  decode_body rt r
  = if is_event_stream r then _parse_sse_response rt (text r) else resp_json rt r.
Proof.
  unfold decode_body, is_event_stream.
  destruct (header_get "Content-Type" (headers r)) as [v|]; [|reflexivity].
  destruct (String.eqb v "") eqn:E; [|reflexivity].
  apply String.eqb_eq in E. subst v. reflexivity.
Qed.

(** X5: a body that is not JSON fails in two ways.  Declared as plain
    JSON, the decode error comes out wrapped as "Failed to communicate
    with MCP server: "; declared as an event stream without a data line,
    the decode error of [json.loads] comes out as it is. *)
Theorem send_request_decode_failures
        (method : string) (params : option json) (w : World) (r : HttpResponse) :
  next_outcome w = PostReturns r ->
  http_failed r = false ->
  json_loads rt (text r) = None ->
  (is_event_stream r = false ->
   fst (_send_request rt method params w)
   = Raise (Exn PlainException
                ("Failed to communicate with MCP server: " ++ json_error rt (text r))
                (Some (Exn RequestsJSONDecodeError (json_error rt (text r)) None))))
  /\ (is_event_stream r = true -> data_lines (text r) = [] ->
      fst (_send_request rt method params w)
      = Raise (Exn JSONDecodeError (json_error rt (text r)) None)).
Proof.
  unfold http_failed. intros Ho Hs Hl. rewrite send_request_run. cbn [fst].
  rewrite exchange_cases, Ho, Hs, decode_body_event_stream. split.
  - intros ->. unfold resp_json. rewrite Hl. reflexivity.
  - intros -> Hd. rewrite parse_sse_characterised.
    unfold decoded_payloads. unfold data_lines in Hd. rewrite Hd.
    cbn [flat_map last]. unfold loads. rewrite Hl. reflexivity.
Qed.

(** X6: an error that is absent, null or an empty object is no error: the
    response is returned. *)
Theorem send_request_ignores_empty_error
        (method : string) (params : option json) (w : World) (r : HttpResponse)
        (data : json) (mr : MCPResponse) :
  next_outcome w = PostReturns r ->
  http_failed r = false ->
  decode_body rt r = Ok data ->
  make_MCPResponse rt data = Ok mr ->
  error mr = None \/ error mr = Some [] ->
  fst (_send_request rt method params w) = Ok mr.
Proof.
  unfold http_failed. intros Ho Hs Hd Hm He. rewrite send_request_run. cbn [fst].
  rewrite exchange_cases, Ho, Hs, Hd. cbn [res_bind]. rewrite Hm.
  destruct He as [-> | ->]; reflexivity.
Qed.

End ExchangeMore.

Lemma send_request_wraps_request_exceptions_witness :
  fst (_send_request Mini.rt "tools/list" None (client_on net_refusing))
  = Raise (Exn PlainException
               "Failed to communicate with MCP server: Connection refused"
               (Some refused))
  /\ fst (_send_request Mini.rt "tools/list" None (client_on net_broken))
     = Raise (Exn OtherException "boom" None).
Proof.
  split.
  - apply (send_request_wraps_request_exceptions Mini.rt "tools/list" None
             (client_on net_refusing) refused); reflexivity.
  - apply (send_request_wraps_request_exceptions Mini.rt "tools/list" None
             (client_on net_broken) (Exn OtherException "boom" None));
      [reflexivity|discriminate|discriminate].
Defined.

Lemma send_request_rejects_error_status_witness :
  session_id (snd (_send_request Mini.rt "initialize" None (client_on net_unavailable)))
  = None.
Proof.
  edestruct (send_request_rejects_error_status Mini.rt "initialize" None
               (client_on net_unavailable)) as [_ H].
  - reflexivity.
  - reflexivity.
  - exact H.
Defined.

Lemma send_request_stores_token_first_witness :
  session_id (snd (_send_request Mini.rt "tools/call" None (client_on net_garbled)))
  = Some "s2".
Proof.
  edestruct (send_request_stores_token_first Mini.rt "tools/call" None
               (client_on net_garbled)) as [H _].
  - reflexivity.
  - reflexivity.
  - reflexivity.
  - discriminate.
  - exact H.
Defined.

Lemma send_request_decode_failures_witness :
  fst (_send_request Mini.rt "tools/list" None (client_on net_garbled))
  = Raise (Exn PlainException
               "Failed to communicate with MCP server: Expecting value"
               (Some (Exn RequestsJSONDecodeError "Expecting value" None)))
  /\ fst (_send_request Mini.rt "tools/list" None (client_on net_garbled_stream))
     = Raise (Exn JSONDecodeError "Expecting value" None).
Proof.
  split.
  - edestruct (send_request_decode_failures Mini.rt "tools/list" None
                 (client_on net_garbled)) as [H _]; [reflexivity ..|].
    apply H. reflexivity.
  - edestruct (send_request_decode_failures Mini.rt "tools/list" None
                 (client_on net_garbled_stream)) as [_ H]; [reflexivity ..|].
    apply H; reflexivity.
Defined.

Lemma send_request_ignores_empty_error_witness :
  exists mr,
    fst (_send_request Mini.rt "tools/list" None (client_on net_empty_error)) = Ok mr
    /\ error mr = Some [].
Proof.
  eexists. split.
  - eapply (send_request_ignores_empty_error Mini.rt "tools/list" None
              (client_on net_empty_error)).
    + reflexivity.
    + reflexivity.
    + vm_compute. reflexivity.
    + vm_compute. reflexivity.
    + right. reflexivity.
  - reflexivity.
Defined.

(** ** Event-stream bodies *)

Section SseMore.

Variable rt : Runtime.

Lemma not_linebreak_not_lf (c : ascii) :
  PyStr.is_linebreak c = false -> (PyStr.code c =? 10) = false.
Proof.
  unfold PyStr.is_linebreak. intros H.
  destruct (PyStr.code c =? 10) eqn:E; [|reflexivity].
  apply Nat.eqb_eq in E. rewrite E in H. discriminate.
Qed.

Lemma append_snoc_cons (a : string) (c : ascii) (t : string) :
  ((a ++ String c EmptyString) ++ t)%string = (a ++ String c t)%string.
Proof.
  induction a as [|x a IH]; [reflexivity|]. cbn [append]. rewrite IH. reflexivity.
Qed.

(** A run of characters without line boundary is added to the line being
    read. *)
Lemma splitlines_from_single_line (s cur rest : string) (after_cr : bool) :
  single_line s = true -> s <> EmptyString ->
  PyStr.splitlines_from cur after_cr (s ++ rest)
  = PyStr.splitlines_from (cur ++ s) false rest.
Proof.
  revert cur after_cr. induction s as [|c s IH]; intros cur after_cr Hs Hne;
    [contradiction|].
  unfold single_line in Hs. cbn [list_ascii_of_string forallb] in Hs.
  apply andb_prop in Hs. destruct Hs as [Hc Hs].
  apply negb_true_iff in Hc.
  cbn [append PyStr.splitlines_from].
  rewrite (not_linebreak_not_lf c Hc), andb_false_r, Hc.
  destruct s as [|c' s'].
  - cbn [append]. reflexivity.
  - rewrite (IH (cur ++ String c EmptyString)%string false Hs); [|discriminate].
    rewrite append_snoc_cons. reflexivity.
Qed.

Lemma splitlines_from_line_feed (cur rest : string) :
  PyStr.splitlines_from cur false (line_feed ++ rest)
  = cur :: PyStr.splitlines_from "" false rest.
Proof. reflexivity. Qed.

Lemma rstrip_app_kept (p s : string) :
  PyStr.rstrip s = s -> s <> EmptyString ->
  PyStr.rstrip (p ++ s) = (p ++ s)%string.
Proof.
  intros Hs Hne. induction p as [|c p IH]; [exact Hs|].
  cbn [append PyStr.rstrip]. rewrite IH.
  destruct (p ++ s)%string eqn:E; [|reflexivity].
  destruct p; cbn in E; [contradiction|discriminate].
Qed.

(** X7: the framing of the mock server and the decoder of the client are
    inverse to each other: for the text of a document on one line, without
    space at either end (as [json.dumps] writes an object), the decoder
    returns the document the text stands for. *)
Theorem sse_frame_round_trip (json_str : string) (j : json) :
  single_line json_str = true ->
  PyStr.lstrip json_str = json_str ->
  PyStr.rstrip json_str = json_str ->
  json_str <> EmptyString ->
  json_loads rt json_str = Some j ->
  j <> JNull ->
  _parse_sse_response rt (sse_frame json_str) = Ok j.
Proof.
  intros Hline Hl Hr Hne Hj Hnn.
  assert (Hsplit : PyStr.splitlines (sse_frame json_str)
                   = ["event: message"; ("data: " ++ json_str)%string; ""]).
  { unfold PyStr.splitlines, sse_frame.
    rewrite (splitlines_from_single_line "event: message" "" _ false);
      [|reflexivity|discriminate].
    rewrite splitlines_from_line_feed.
    change ("data: " ++ json_str ++ line_feed ++ line_feed)%string
      with (("data: " ++ json_str) ++ line_feed ++ line_feed)%string.
    rewrite (splitlines_from_single_line ("data: " ++ json_str) "" _ false);
      [|exact Hline|discriminate].
    rewrite !splitlines_from_line_feed. reflexivity. }
  rewrite parse_sse_characterised, Hsplit.
  assert (Hstrip : PyStr.strip ("data: " ++ json_str) = ("data: " ++ json_str)%string).
  { unfold PyStr.strip.
    change (PyStr.lstrip ("data: " ++ json_str)) with ("data: " ++ json_str)%string.
    apply rstrip_app_kept; assumption. }
  unfold decoded_payloads. cbn [map].
  rewrite Hstrip.
  change (PyStr.strip "event: message") with "event: message".
  change (PyStr.strip "") with "".
  cbn [filter].
  change (is_data_line "event: message") with false.
  change (is_data_line ("data: " ++ json_str)) with true.
  change (is_data_line "") with false.
  cbn [flat_map app].
  change (data_payload ("data: " ++ json_str)) with (PyStr.lstrip json_str).
  rewrite Hl, Hj. cbn [app last].
  destruct j; congruence.
Qed.

(** X8: a data line whose payload decodes to null discards what the data
    lines before it gave: when it is the last one that decodes, the whole
    body is decoded instead. *)
Theorem parse_sse_null_discards (body : string) (pre post : list string) (l : string) :
  PyStr.splitlines body = pre ++ l :: post ->
  is_data_line (PyStr.strip l) = true ->
  json_loads rt (data_payload (PyStr.strip l)) = Some JNull ->
  (forall l', In l' post -> is_data_line (PyStr.strip l') = true ->
              json_loads rt (data_payload (PyStr.strip l')) = None) ->
  _parse_sse_response rt body = loads rt body.
Proof.
  intros Hsplit Hdata Hj Hpost.
  rewrite parse_sse_characterised, Hsplit.
  change (l :: post) with ([l] ++ post).
  rewrite !decoded_payloads_app, (decoded_payloads_none rt post Hpost), app_nil_r.
  unfold decoded_payloads at 2. cbn [map filter]. rewrite Hdata.
  cbn [flat_map]. rewrite Hj. cbn [app].
  rewrite last_last. reflexivity.
Qed.

End SseMore.

Lemma sse_frame_round_trip_witness :
  _parse_sse_response Mini.rt (sse_frame initialize_ok_text)
  = Ok (JObj [("jsonrpc", JStr "2.0"); ("id", JStr "1");
              ("result", JObj [("capabilities", JObj [])])]).
Proof.
  apply (sse_frame_round_trip Mini.rt initialize_ok_text).
  - reflexivity.
  - reflexivity.
  - reflexivity.
  - discriminate.
  - vm_compute. reflexivity.
  - discriminate.
Defined.

Lemma parse_sse_null_discards_witness :
  _parse_sse_response Mini.rt ("data: [1]" ++ Mini.nl ++ "data: null")
  = Raise (Exn JSONDecodeError "Expecting value" None).
Proof.
  rewrite (parse_sse_null_discards Mini.rt ("data: [1]" ++ Mini.nl ++ "data: null")
             ["data: [1]"] [] "data: null").
  - reflexivity.
  - reflexivity.
  - reflexivity.
  - reflexivity.
  - intros l' [].
Defined.

(** ** Health check, initialisation and resources *)

Section MethodsMore.

Variable rt : Runtime.

(** X9: [health_check] never raises and needs no connection.  It
    reports "healthy", with the measured time and no error, exactly when
    the exchange returns, and otherwise "unhealthy" with the text of the
    failure; the connection flag reported is the one before the call,
    which the call does not change. *)
Theorem health_check_reports (w : World) :
  exists report w',
    health_check rt w = (Ok report, w')
    /\ hr_connected report = connected w
    /\ connected w' = connected w
    /\ (forall resp, exchange rt (next_outcome w) = Ok resp ->
                     report = {| hr_status := "healthy"; hr_connected := connected w;
                                 hr_timed := true; hr_error := None |})
    /\ (forall e, exchange rt (next_outcome w) = Raise e ->
                  report = {| hr_status := "unhealthy"; hr_connected := connected w;
                              hr_timed := false; hr_error := Some (exn_msg e) |}).
Proof.
  unfold health_check, bind, get, try_except, ret. rewrite send_request_run.
  pose proof (exchange_cases rt (next_outcome w)) as Hc.
  destruct (exchange rt (next_outcome w)) as [resp|e] eqn:E.
  - assert (Herr : error resp = None \/ error resp = Some []).
    { destruct (next_outcome w) as [e0|r]; [discriminate|].
      destruct ((400 <=? status_code r) && (status_code r <? 600)); [discriminate|].
      destruct (res_bind (decode_body rt r) (make_MCPResponse rt)) as [mr|e0];
        [|discriminate].
      destruct (error mr) as [[|x l]|] eqn:Em; try discriminate;
        injection Hc as <-; [right|left]; exact Em. }
    destruct Herr as [-> | ->]; eexists _, _; (split; [reflexivity|]);
      (repeat split; try apply after_request_connected; try discriminate).
  - eexists _, _. split; [reflexivity|].
    repeat split; try apply after_request_connected; try discriminate.
    intros e' [= <-]. reflexivity.
Qed.

(** X10: when the handshake succeeds at once, [initialize] returns the
    result payload of its response, and the empty object when the payload
    is absent or empty; the client is connected afterwards. *)
Theorem initialize_returns_handshake_result (w : World) (resp : MCPResponse) :
  exchange rt (next_outcome w) = Ok resp ->
  exists w',
    initialize rt w
    = (Ok (JObj match result resp with Some r => r | None => [] end), w')
    /\ connected w' = true.
Proof.
  intros H.
  exists (set_connected true
            (after_notification "notifications/initialized" None
               (set_server_capabilities
                  (Some match result resp with
                        | Some ((_ :: _) as r) => JObj r
                        | _ => JObj []
                        end)
                  (after_request "initialize" (Some initialize_params) w)))).
  split; [|reflexivity].
  unfold initialize, bind, connect.
  cbn [retry_delays enumerate length connect_loop].
  unfold connect_attempt, bind. rewrite send_request_run, H.
  unfold modify. rewrite send_notification_run. unfold get, ret.
  cbn [set_connected after_notification emit set_server_capabilities
         server_capabilities].
  destruct (result resp) as [[|x r]|]; reflexivity.
Qed.

(** X11: [read_resource] never raises; it returns [None] when the
    exchange fails and when the result holds no contents. *)
Theorem read_resource_absorbs_failures (uri_ : string) (w : World) :
  (exists v w', read_resource rt uri_ w = (Ok v, w'))
  /\ (forall e, exchange rt (next_outcome w) = Raise e ->
                fst (read_resource rt uri_ w) = Ok JNull)
  /\ (forall resp, exchange rt (next_outcome w) = Ok resp ->
                   lacks_key resp "contents" ->
                   fst (read_resource rt uri_ w) = Ok JNull).
Proof.
  unfold read_resource, try_except, bind, lift, ret. rewrite send_request_run.
  destruct (exchange rt (next_outcome w)) as [resp|e]; cbv beta iota zeta.
  - split; [|split].
    + destruct (Py.truthy _); [|eexists _, _; reflexivity].
      match goal with
      | |- context [res_bind ?a ?k] => destruct (res_bind a k)
      end; eexists _, _; reflexivity.
    + discriminate.
    + intros resp' [= <-] Hk. unfold lacks_key in Hk.
      destruct (result resp) as [[|x r]|]; try reflexivity.
      unfold Py.dict_get. rewrite Hk. reflexivity.
  - split; [eexists _, _; reflexivity|]. split; [reflexivity|discriminate].
Qed.

(** X12: of the contents the server sent, [read_resource] looks at the
    first item only: it returns its text when that is a true value, and
    otherwise its blob, [None] when there is none. *)
Theorem read_resource_text_or_blob
        (uri_ : string) (w : World) (resp : MCPResponse)
        (r first : list (string * json)) (others : list json) :
  exchange rt (next_outcome w) = Ok resp ->
  result resp = Some r ->
  Py.lookup "contents" r = Some (JArr (JObj first :: others)) ->
  fst (read_resource rt uri_ w)
  = Ok (if Py.truthy (Py.dict_get first "text" JNull)
        then Py.dict_get first "text" JNull
        else Py.dict_get first "blob" JNull).
Proof.
  intros He Hr Hc.
  unfold read_resource, try_except, bind, lift, ret. rewrite send_request_run, He.
  cbv beta iota zeta. rewrite Hr.
  destruct r as [|kv r']; [discriminate|].
  assert (Hget : Py.dict_get (kv :: r') "contents" (JArr [])
                 = JArr (JObj first :: others)).
  { unfold Py.dict_get. rewrite Hc. reflexivity. }
  rewrite !Hget.
  cbn [Py.truthy py_first res_bind as_dict].
  destruct (Py.truthy (Py.dict_get first "text" JNull)); reflexivity.
Qed.

End MethodsMore.

Lemma health_check_reports_witness :
  (exists w', health_check Mini.rt (client_on net_empty_result)
              = (Ok {| hr_status := "healthy"; hr_connected := false;
                       hr_timed := true; hr_error := None |}, w'))
  /\ (exists w', health_check Mini.rt (client_on net_refusing)
                 = (Ok {| hr_status := "unhealthy"; hr_connected := false;
                          hr_timed := false;
                          hr_error := Some "Failed to communicate with MCP server: Connection refused" |},
                    w')).
Proof.
  split.
  - destruct (health_check_reports Mini.rt (client_on net_empty_result))
      as (report & w' & Hrun & _ & _ & Hok & _).
    exists w'. rewrite Hrun. f_equal. f_equal.
    eapply Hok. vm_compute. reflexivity.
  - destruct (health_check_reports Mini.rt (client_on net_refusing))
      as (report & w' & Hrun & _ & _ & _ & Hfail).
    exists w'. rewrite Hrun. f_equal. f_equal.
    apply (Hfail (communicate_error refused)). vm_compute. reflexivity.
Defined.

Lemma initialize_returns_handshake_result_witness :
  exists w',
    initialize Mini.rt (client_on net_handshake)
    = (Ok (JObj [("capabilities", JObj [])]), w')
    /\ connected w' = true.
Proof.
  edestruct (initialize_returns_handshake_result Mini.rt (client_on net_handshake))
    as (w' & Hi & Hc).
  - vm_compute. reflexivity.
  - exists w'. split; [exact Hi|exact Hc].
Defined.

Lemma read_resource_absorbs_failures_witness :
  fst (read_resource Mini.rt "doc://1" (client_on net_refusing)) = Ok JNull
  /\ fst (read_resource Mini.rt "doc://1" (client_on net_empty_result)) = Ok JNull.
Proof.
  destruct (read_resource_absorbs_failures Mini.rt "doc://1" (client_on net_refusing))
    as (_ & Hfail & _).
  destruct (read_resource_absorbs_failures Mini.rt "doc://1"
              (client_on net_empty_result)) as (_ & _ & Hnone).
  split.
  - apply (Hfail (communicate_error refused)). vm_compute. reflexivity.
  - eapply Hnone; [vm_compute; reflexivity|reflexivity].
Defined.

Lemma read_resource_text_or_blob_witness :
  fst (read_resource Mini.rt "doc://1" (client_on net_blob_resource))
  = Ok (JStr "QUJD").
Proof.
  eapply eq_trans.
  - eapply (read_resource_text_or_blob Mini.rt "doc://1"
              (client_on net_blob_resource)).
    + vm_compute. reflexivity.
    + reflexivity.
    + reflexivity.
  - reflexivity.
Defined.

(** ** The life cycle of a connection *)

Section LifecycleMore.

Variable rt : Runtime.

(** The world a successful attempt leaves. *)
Lemma attempt_success_world (w : World) (caps : option json) :
  let w' := set_connected true
              (after_notification "notifications/initialized" None
                 (set_server_capabilities caps
                    (after_request "initialize" (Some initialize_params) w))) in
  exists r1 r2 o2,
    trace w' = trace w ++ [EvPost r1 (next_outcome w); EvPost r2 o2]
    /\ connected w' = true.
Proof.
  cbn zeta. eexists _, _, _. split; [|reflexivity].
  cbn [set_connected after_notification emit set_server_capabilities trace].
  rewrite after_request_trace, <- app_assoc. reflexivity.
Qed.

(** The four courses [connect] can take. *)
Lemma connect_courses (w : World) :
  exists res w' evs,
    connect rt w = (res, w')
    /\ trace w' = trace w ++ evs
    /\ ((res = Ok true /\ connected w' = true
         /\ ((sleeps evs = [] /\ count_posts evs = 2)
             \/ (sleeps evs = [1] /\ count_posts evs = 3)
             \/ (sleeps evs = [1; 2] /\ count_posts evs = 4)))
        \/ (exists e, res = Raise (connect_error e)
                      /\ connected w' = connected w
                      /\ sleeps evs = [1; 2] /\ count_posts evs = 3)).
Proof.
  unfold connect. cbn [retry_delays enumerate length].
  destruct (exchange rt (next_outcome w)) as [resp1|e1] eqn:E1.
  { cbn [connect_loop].
    destruct (connect_attempt_succeeds rt w resp1 E1) as [caps ->].
    destruct (attempt_success_world w caps) as (r1 & r2 & o2 & Ht & Hc).
    eexists _, _, _. split; [reflexivity|]. split; [exact Ht|].
    left. split; [reflexivity|]. split; [exact Hc|]. left. split; reflexivity. }
  rewrite (connect_loop_retry rt 3 1 1 _ w e1 E1 eq_refl).
  destruct (retry_world w 1) as (Ht1 & _ & Hc1 & _).
  set (w1 := emit (EvSleep 1) _) in *.
  destruct (exchange rt (next_outcome w1)) as [resp2|e2] eqn:E2.
  { cbn [connect_loop].
    destruct (connect_attempt_succeeds rt w1 resp2 E2) as [caps ->].
    destruct (attempt_success_world w1 caps) as (r1 & r2 & o2 & Ht & Hc).
    eexists _, _, _. split; [reflexivity|]. split.
    - rewrite Ht, Ht1, <- app_assoc. reflexivity.
    - left. split; [reflexivity|]. split; [exact Hc|].
      right. left. split; reflexivity. }
  rewrite (connect_loop_retry rt 3 2 2 _ w1 e2 E2 eq_refl).
  destruct (retry_world w1 2) as (Ht2 & _ & Hc2 & _).
  set (w2 := emit (EvSleep 2) _) in *.
  destruct (exchange rt (next_outcome w2)) as [resp3|e3] eqn:E3.
  { cbn [connect_loop].
    destruct (connect_attempt_succeeds rt w2 resp3 E3) as [caps ->].
    destruct (attempt_success_world w2 caps) as (r1 & r2 & o2 & Ht & Hc).
    eexists _, _, _. split; [reflexivity|]. split.
    - rewrite Ht, Ht2, Ht1, <- !app_assoc. reflexivity.
    - left. split; [reflexivity|]. split; [exact Hc|].
      right. right. split; reflexivity. }
  rewrite (connect_loop_exhausted rt 3 3 4 [] w2 e3 E3 eq_refl).
  eexists _, _, _. split; [reflexivity|]. split.
  - rewrite after_request_trace, Ht2, Ht1, <- !app_assoc. reflexivity.
  - right. exists e3. split; [reflexivity|]. split.
    + rewrite after_request_connected, Hc2, Hc1. reflexivity.
    + split; reflexivity.
Qed.

(** X13: whatever the transport does, [connect] sleeps nothing, 1, or 1
    and then 2, and posts between two and four times: the third delay of
    [retry_delays], 4, is never slept. *)
Theorem connect_effects_bounded (w : World) :
  exists evs,
    trace (snd (connect rt w)) = trace w ++ evs
    /\ (sleeps evs = [] \/ sleeps evs = [1] \/ sleeps evs = [1; 2])
    /\ 2 <= count_posts evs <= 4.
Proof.
  destruct (connect_courses w) as (res & w' & evs & -> & Ht & H).
  exists evs. split; [exact Ht|].
  destruct H as [(_ & _ & [[Hs Hp]|[[Hs Hp]|[Hs Hp]]])|(e & _ & _ & Hs & Hp)];
    rewrite Hs, Hp; (split; [tauto|lia]).
Qed.

(** X14: [connect] either returns [True], and then the client is
    connected, or raises "Failed to connect to MCP server: " with the
    last error as cause, and then the connection flag is as it was (a
    connected client whose new handshake fails still counts as
    connected).  It never returns [False]. *)
Theorem connect_returns_true_or_raises (w : World) :
  (fst (connect rt w) = Ok true /\ connected (snd (connect rt w)) = true)
  \/ (exists e,
         fst (connect rt w)
         = Raise (Exn PlainException
                      ("Failed to connect to MCP server: " ++ exn_msg e) (Some e))
         /\ connected (snd (connect rt w)) = connected w).
Proof.
  destruct (connect_courses w) as (res & w' & evs & -> & _ & H).
  destruct H as [(-> & Hc & _)|(e & -> & Hc & _)].
  - left. split; [reflexivity|exact Hc].
  - right. exists e. split; [reflexivity|exact Hc].
Qed.

(** X15: when the handshake succeeds at once and its response supplies a
    session token, [connect] posts twice without sleeping, and the second
    post, the notification that the client is ready, already carries that
    token. *)
Theorem connect_notification_carries_token (w : World) (resp : MCPResponse) (t : string) :
  exchange rt (next_outcome w) = Ok resp ->
  supplied_token (next_outcome w) = Some t ->
  exists r1 r2 o2,
    trace (snd (connect rt w)) = trace w ++ [EvPost r1 (next_outcome w); EvPost r2 o2]
    /\ req_method r1 = "initialize" /\ req_id r1 <> None
    /\ req_method r2 = "notifications/initialized" /\ req_id r2 = None
    /\ session_header r2 = Some t.
Proof.
  intros He Ht. unfold connect. cbn [retry_delays enumerate length connect_loop].
  destruct (connect_attempt_succeeds rt w resp He) as [caps ->]. cbn [snd].
  eexists _, _, _. split.
  - cbn [set_connected after_notification emit set_server_capabilities trace].
    rewrite after_request_trace, <- app_assoc. reflexivity.
  - split; [reflexivity|]. split; [discriminate|].
    split; [reflexivity|]. split; [reflexivity|].
    unfold session_header. cbn [notification_of req_headers].
    assert (Hsid : session_id
                     (set_server_capabilities caps
                        (after_request "initialize" (Some initialize_params) w))
                   = Some t).
    { cbn [set_server_capabilities session_id].
      rewrite after_request_session_id, Ht. reflexivity. }
    rewrite <- Hsid. apply session_header_of.
    intros t' Ht'. rewrite Hsid in Ht'. injection Ht' as <-.
    apply (supplied_token_origin _ _ Ht).
Qed.

(** X16: [disconnect] on a client that is not connected sends nothing;
    on a connected client it sends one shutdown request without
    parameters.  In both cases it then releases the session exactly
    once, also when the shutdown exchange failed. *)
Theorem disconnect_effects (w : World) :
  trace (snd (disconnect rt w))
  = trace w
      ++ (if connected w
          then [EvPost (request_of "shutdown" None w) (next_outcome w)]
          else [])
      ++ [EvClose].
Proof.
  rewrite disconnect_run. cbn [snd emit trace].
  destruct (connected w).
  - cbn [set_connected trace]. rewrite after_request_trace, <- app_assoc.
    reflexivity.
  - reflexivity.
Qed.

(** What holds of the worlds the primitives leave holds after every
    operation. *)
Lemma run_op_preserves (P : World -> Prop) :
  (forall m p w, P w -> P (after_request m p w)) ->
  (forall m p w, P w -> P (after_notification m p w)) ->
  (forall ev w, P w -> P (emit ev w)) ->
  (forall b w, P w -> P (set_connected b w)) ->
  (forall c w, P w -> P (set_server_capabilities c w)) ->
  forall op w, P w -> P (run_op rt op w).
Proof.
  intros Hreq Hnot Hemit Hconn Hcaps.
  assert (Hloop : forall total attempts w,
             P w -> P (snd (connect_loop rt total attempts w))).
  { intros total attempts. induction attempts as [|[attempt delay] rest IH];
      intros w Hw; [exact Hw|].
    cbn [connect_loop].
    destruct (exchange rt (next_outcome w)) as [resp|e] eqn:E.
    - destruct (connect_attempt_succeeds rt w resp E) as [caps ->]. cbn [snd].
      apply Hconn, Hnot, Hcaps, Hreq. exact Hw.
    - rewrite (connect_attempt_fails rt w e E).
      destruct (attempt <? total).
      + unfold bind, sleep, modify. apply IH, Hemit, Hreq. exact Hw.
      + cbn [raise snd]. apply Hreq. exact Hw. }
  intros op w Hw. destruct op; cbn [run_op].
  - apply Hloop. exact Hw.
  - rewrite disconnect_run. cbn [snd]. apply Hemit.
    destruct (connected w); [|exact Hw]. apply Hconn, Hreq. exact Hw.
  - rewrite list_tools_run. apply Hreq. exact Hw.
  - rewrite list_resources_run. apply Hreq. exact Hw.
  - destruct (call_tool_run rt name arguments w) as (r & -> & _).
    apply Hreq. exact Hw.
  - rewrite send_request_run. apply Hreq. exact Hw.
  - rewrite send_notification_run. apply Hnot. exact Hw.
Qed.

(** X17: no operation clears the session token: once the client holds
    one, it holds one after every sequence of operations, [disconnect]
    included, so that a later handshake is sent with a session header. *)
Theorem session_token_never_cleared (ops : list Op) (w : World) (t : string) :
  session_id w = Some t ->
  exists t', session_id (run_ops rt ops w) = Some t'.
Proof.
  intros Ht.
  assert (H : forall op w0, (exists t0, session_id w0 = Some t0) ->
                            exists t', session_id (run_op rt op w0) = Some t').
  { apply (run_op_preserves (fun w0 => exists t0, session_id w0 = Some t0)).
    - intros m p w0 [t0 H0]. rewrite after_request_session_id.
      destruct (supplied_token _) as [t1|]; [exists t1|exists t0]; congruence.
    - intros m p w0 H0. exact H0.
    - intros ev w0 H0. exact H0.
    - intros b w0 H0. exact H0.
    - intros c w0 H0. exact H0. }
  assert (G : forall w0, (exists t0, session_id w0 = Some t0) ->
                         exists t', session_id (run_ops rt ops w0) = Some t').
  { induction ops as [|op ops IH]; intros w0 H0; [exact H0|].
    cbn [run_ops fold_left]. apply IH. apply H. exact H0. }
  apply G. exists t. exact Ht.
Qed.

End LifecycleMore.

Lemma connect_notification_carries_token_witness :
  exists r1 r2 o2,
    trace (snd (connect Mini.rt (client_on net_handshake)))
    = [EvPost r1 (net_handshake 0); EvPost r2 o2]
    /\ session_header r1 = None
    /\ session_header r2 = Some "s1".
Proof.
  edestruct (connect_notification_carries_token Mini.rt (client_on net_handshake))
    as (r1 & r2 & o2 & Ht & _ & _ & _ & _ & Hh).
  - vm_compute. reflexivity.
  - reflexivity.
  - exists r1, r2, o2. split; [exact Ht|]. split; [|exact Hh].
    cbn [client_on new_client trace app] in Ht.
    assert (H : nth_error (trace (snd (connect Mini.rt (client_on net_handshake)))) 0
                = Some (EvPost r1 (net_handshake 0))).
    { rewrite Ht. reflexivity. }
    vm_compute in H. injection H as <-. reflexivity.
Defined.

Lemma session_token_never_cleared_witness :
  session_id (run_ops Mini.rt [OpConnect; OpDisconnect; OpConnect]
                      (client_on net_handshake))
  = Some "s1".
Proof.
  destruct (session_token_never_cleared Mini.rt [OpDisconnect; OpConnect]
              (run_ops Mini.rt [OpConnect] (client_on net_handshake)) "s1")
    as [t' Ht'].
  - vm_compute. reflexivity.
  - vm_compute. reflexivity.
Defined.

(** ** Tool calls and listings, further *)

Section ToolsMore.

Variable rt : Runtime.

Lemma validate_list_dict_objects (items : list json) :
  Forall is_object items -> validate_list_dict rt (JArr items) = Ok items.
Proof.
  intros H. cbn [validate_list_dict].
  induction H as [|x l [m ->] _ IH]; [reflexivity|].
  cbn [res_mapM res_bind]. rewrite IH. reflexivity.
Qed.

Lemma res_mapM_raises {A B} (f : A -> Res B) (l : list A) (x : A) :
  In x l -> (exists e, f x = Raise e) -> exists e, res_mapM f l = Raise e.
Proof.
  intros Hin Hx. induction l as [|y l IH]; [destruct Hin|].
  cbn [res_mapM]. unfold res_bind.
  destruct (f y) as [b|e] eqn:Ey; [|exists e; reflexivity].
  destruct Hin as [->|Hin].
  - destruct Hx as [e He]. congruence.
  - destruct (IH Hin) as [e ->]. exists e. reflexivity.
Qed.

(** The successful course of [call_tool]. *)
Lemma call_tool_success_run
      (name : string) (arguments : json) (w : World) (resp : MCPResponse)
      (r : list (string * json)) (items : list json) (b : bool) :
  exchange rt (next_outcome w) = Ok resp ->
  result resp = Some r ->
  Py.lookup "content" r = Some (JArr items) ->
  Forall is_object items ->
  Py.dict_get r "isError" (JBool false) = JBool b ->
  fst (call_tool rt name arguments w) = Ok {| content := items; isError := b |}.
Proof.
  intros He Hr Hc Hi Hb.
  unfold call_tool, try_except, bind, lift, ret. rewrite send_request_run, He.
  cbv beta iota zeta. rewrite Hr.
  destruct r as [|kv r']; [discriminate|].
  assert (Hget : Py.dict_get (kv :: r') "content" (JArr []) = JArr items).
  { unfold Py.dict_get. rewrite Hc. reflexivity. }
  rewrite Hget, (validate_list_dict_objects items Hi), Hb. reflexivity.
Qed.

(** X18: when the exchange succeeds and the result holds a list of
    objects under "content", [call_tool] returns these items unchanged
    and in the order of the server, with the error flag the result
    holds, false when it holds none. *)
Theorem call_tool_preserves_content
        (name : string) (arguments : json) (w : World) (resp : MCPResponse)
        (r : list (string * json)) (items : list json) (b : bool) :
  exchange rt (next_outcome w) = Ok resp ->
  result resp = Some r ->
  Py.lookup "content" r = Some (JArr items) ->
  Forall is_object items ->
  Py.dict_get r "isError" (JBool false) = JBool b ->
  fst (call_tool rt name arguments w) = Ok {| content := items; isError := b |}.
Proof.
  intros He Hr Hc Hi Hb.
  exact (call_tool_success_run name arguments w resp r items b He Hr Hc Hi Hb).
Qed.

(** X19: when the exchange succeeds but the list under "content" holds
    something that is not an object, [call_tool] does not raise either:
    it returns the result with the error flag set and the text of the
    validation error as its only item. *)
Theorem call_tool_flags_malformed_content
        (name : string) (arguments : json) (w : World) (resp : MCPResponse)
        (r : list (string * json)) (items : list json) (x : json) :
  exchange rt (next_outcome w) = Ok resp ->
  result resp = Some r ->
  Py.lookup "content" r = Some (JArr items) ->
  In x items ->
  ~ is_object x ->
  exists e,
    fst (call_tool rt name arguments w) = Ok (failure_response e)
    /\ exn_cls e = ValidationError.
Proof.
  intros He Hr Hc Hin Hx.
  unfold call_tool, try_except, bind, lift, ret. rewrite send_request_run, He.
  cbv beta iota zeta. rewrite Hr.
  destruct r as [|kv r']; [discriminate|].
  assert (Hget : Py.dict_get (kv :: r') "content" (JArr []) = JArr items).
  { unfold Py.dict_get. rewrite Hc. reflexivity. }
  rewrite Hget. cbn [validate_list_dict].
  assert (Hraise : exists e,
             res_mapM (fun y => match y with
                                | JObj _ => Ok y
                                | _ => lib_raise rt ValidationError y
                                end) items = Raise e
             /\ exn_cls e = ValidationError).
  { clear Hget Hc. induction items as [|y l IH]; [destruct Hin|].
    cbn [res_mapM]. unfold res_bind.
    destruct Hin as [->|Hin].
    - destruct x; try (eexists; split; reflexivity).
      exfalso. apply Hx. eexists. reflexivity.
    - destruct y; try (eexists; split; reflexivity).
      destruct (IH Hin) as (e & -> & Hcls). exists e. split; [reflexivity|exact Hcls]. }
  destruct Hraise as (e & -> & Hcls). exists e. split; [reflexivity|exact Hcls].
Qed.

Lemma parse_tool_needs_name (t : json) :
  (forall m, t = JObj m -> Py.lookup "name" m = None) ->
  exists e, parse_tool rt t = Raise e.
Proof.
  intros H. unfold parse_tool.
  destruct t as [| | | | |tm]; try (eexists; reflexivity).
  cbn [as_dict res_bind].
  destruct (as_dict rt _) as [schema|e]; [|exists e; reflexivity].
  cbn [res_bind].
  destruct (as_dict rt _) as [props|e]; [|exists e; reflexivity].
  cbn [res_bind].
  destruct (res_mapM _ props) as [raws|e]; [|exists e; reflexivity].
  cbn [res_bind]. rewrite (H tm eq_refl). eexists. reflexivity.
Qed.

(** X20: the listing of tools is all or nothing: when one entry of the
    list the server sent is not an object or has no name, [list_tools]
    returns the empty list, whatever the other entries are. *)
Theorem list_tools_all_or_nothing
        (w : World) (resp : MCPResponse) (entries : list json) (t : json) :
  exchange rt (next_outcome w) = Ok resp ->
  py_iter rt (result_list resp "tools") = Ok entries ->
  In t entries ->
  (forall m, t = JObj m -> Py.lookup "name" m = None) ->
  fst (list_tools rt w) = Ok [].
Proof.
  intros He Hi Hin Ht. rewrite list_tools_run, He, Hi. cbn [res_bind fst].
  destruct (res_mapM_raises (parse_tool rt) entries t Hin (parse_tool_needs_name t Ht))
    as [e ->].
  reflexivity.
Qed.

Lemma make_Resource_fields (entry : json) (r : Resource) :
  make_Resource rt entry = Ok r -> resource_of_entry entry r.
Proof.
  unfold make_Resource, resource_of_entry.
  destruct entry as [| | | | |m]; try discriminate.
  unfold res_bind.
  destruct (Py.lookup "uri" m) as [u|] eqn:Eu; [|discriminate].
  destruct u as [| | |u| |]; try discriminate. cbn [validate_str].
  destruct (Py.lookup "name" m) as [n|] eqn:En; [|discriminate].
  destruct n as [| | |n| |]; try discriminate. cbn [validate_str].
  destruct (validate_opt_str rt _) as [d|]; [|discriminate].
  destruct (validate_opt_str rt _) as [mt|]; [|discriminate].
  intros [= <-]. exists m. cbn [uri res_name].
  split; [reflexivity|]. split; [exact Eu|exact En].
Qed.

Lemma returns_validate_opt_str (v : json) :
  returns (validate_opt_str rt v) = is_opt_str v.
Proof. destruct v; reflexivity. Qed.

(** A resource is built exactly from the well-formed entries. *)
Lemma make_Resource_returns (entry : json) :
  returns (make_Resource rt entry) = well_formed_resource entry.
Proof.
  destruct entry as [| | | | |m]; try reflexivity.
  unfold make_Resource, well_formed_resource.
  destruct (Py.lookup "uri" m) as [u|]; [|reflexivity].
  destruct u as [| | |u| |]; try reflexivity.
  cbn [validate_str res_bind andb].
  destruct (Py.lookup "name" m) as [n|]; [|reflexivity].
  destruct n as [| | |n| |]; try reflexivity.
  cbn [validate_str res_bind andb].
  rewrite <- !returns_validate_opt_str.
  destruct (validate_opt_str rt (Py.dict_get m "description" JNull)); [|reflexivity].
  destruct (validate_opt_str rt (Py.dict_get m "mimeType" JNull)); reflexivity.
Qed.

(** X21: when every entry of the list the server sent is well formed,
    [list_resources] returns one resource for each entry, in the order of
    the server, with the uri and the name of the entry. When an entry is
    not well formed, it returns the empty list, whatever the other
    entries are. *)
Theorem list_resources_follows_entries
        (w : World) (resp : MCPResponse) (entries : list json) :
  exchange rt (next_outcome w) = Ok resp ->
  py_iter rt (result_list resp "resources") = Ok entries ->
  (forallb well_formed_resource entries = true ->
   exists rs,
     fst (list_resources rt w) = Ok rs /\ Forall2 resource_of_entry entries rs)
  /\ (forallb well_formed_resource entries = false ->
      fst (list_resources rt w) = Ok []).
Proof.
  intros He Hi. rewrite list_resources_run, He, Hi. cbn [res_bind fst].
  pose proof (returns_mapM (make_Resource rt) entries) as Hr.
  rewrite (forallb_pointwise _ _ entries make_Resource_returns) in Hr.
  rewrite <- Hr. split; intros H.
  - destruct (res_mapM_returns _ _ H) as [rs Er]. rewrite Er.
    exists rs. split; [reflexivity|].
    apply res_mapM_Forall2 in Er. clear He Hi Hr H.
    induction Er as [|entry r es rs' Hm _ IH]; constructor.
    + apply make_Resource_fields. exact Hm.
    + exact IH.
  - destruct (res_mapM_not_returns _ _ H) as [e ->]. reflexivity.
Qed.

End ToolsMore.

Lemma call_tool_preserves_content_witness :
  fst (call_tool Mini.rt "search" (JObj []) (client_on net_two_items))
  = Ok {| content := [JObj [("type", JStr "text"); ("text", JStr "first")];
                      JObj [("type", JStr "image")]];
          isError := false |}.
Proof.
  eapply (call_tool_preserves_content Mini.rt "search" (JObj [])
            (client_on net_two_items)).
  - vm_compute. reflexivity.
  - reflexivity.
  - reflexivity.
  - repeat constructor; eexists; reflexivity.
  - reflexivity.
Defined.

Lemma call_tool_flags_malformed_content_witness :
  exists e,
    fst (call_tool Mini.rt "search" (JObj []) (client_on net_bad_item))
    = Ok (failure_response e)
    /\ exn_cls e = ValidationError.
Proof.
  eapply (call_tool_flags_malformed_content Mini.rt "search" (JObj [])
            (client_on net_bad_item) _ _ _ (JInt 7)).
  - vm_compute. reflexivity.
  - reflexivity.
  - reflexivity.
  - right. left. reflexivity.
  - intros [m Hm]. discriminate.
Defined.

Lemma list_tools_all_or_nothing_witness :
  fst (list_tools Mini.rt (client_on net_nameless_tool)) = Ok [].
Proof.
  eapply (list_tools_all_or_nothing Mini.rt (client_on net_nameless_tool) _ _
            (JObj [("description", JStr "anonymous")])).
  - vm_compute. reflexivity.
  - reflexivity.
  - right. left. reflexivity.
  - intros m [= <-]. reflexivity.
Defined.

Lemma list_resources_follows_entries_witness :
  exists rs,
    fst (list_resources Mini.rt (client_on net_two_resources)) = Ok rs
    /\ Forall2 resource_of_entry
         [JObj [("uri", JStr "doc://1"); ("name", JStr "one")];
          JObj [("uri", JStr "doc://2"); ("name", JStr "two");
                ("mimeType", JStr "text/plain")]]
         rs.
Proof.
  edestruct (list_resources_follows_entries Mini.rt (client_on net_two_resources))
    as [H _].
  - vm_compute. reflexivity.
  - vm_compute. reflexivity.
  - apply H. reflexivity.
Defined.

(** ** The Jira and Confluence helpers *)

Section HelpersMore.

Variable rt : Runtime.

Lemma validate_list_dict_yields_objects (v : json) (c : list json) :
  validate_list_dict rt v = Ok c -> Forall is_object c.
Proof.
  destruct v as [| | | |items|]; try discriminate. cbn [validate_list_dict].
  revert c. induction items as [|x l IH]; intros c H.
  - injection H as <-. constructor.
  - cbn [res_mapM] in H. unfold res_bind in H.
    destruct x as [| | | | |m]; try discriminate.
    destruct (res_mapM _ l) as [ys|]; [|discriminate].
    injection H as <-. constructor; [exists m; reflexivity|].
    apply IH. reflexivity.
Qed.

(** The content [call_tool] returns holds objects only. *)
Lemma call_tool_content_objects (name : string) (arguments : json) (w : World) :
  exists r,
    call_tool rt name arguments w
    = (Ok r, after_request "tools/call" (tool_call_params name arguments) w)
    /\ Forall is_object (content r)
    /\ (forall e, exchange rt (next_outcome w) = Raise e -> isError r = true).
Proof.
  unfold call_tool, try_except, bind, lift, ret, tool_call_params.
  rewrite send_request_run.
  destruct (exchange rt (next_outcome w)) as [resp|e]; cbv beta iota zeta.
  - unfold res_bind.
    destruct (validate_list_dict rt _) as [c|e] eqn:Ec.
    + destruct (validate_bool rt _) as [b|e].
      * eexists. split; [reflexivity|]. split; [|discriminate].
        apply (validate_list_dict_yields_objects _ _ Ec).
      * eexists. split; [reflexivity|]. split; [|discriminate].
        repeat constructor. eexists. reflexivity.
    + eexists. split; [reflexivity|]. split; [|discriminate].
      repeat constructor. eexists. reflexivity.
  - eexists. split; [reflexivity|]. split; [|reflexivity].
    repeat constructor. eexists. reflexivity.
Qed.

Section Generic.

Variable R : Type.
Variable make : json -> option R.

Lemma records_of_content_objects (items : list json) :
  Forall is_object items -> exists l, records_of_content rt R make items = Ok l.
Proof.
  intros H. unfold records_of_content.
  assert (G : exists ls, res_mapM (records_of_item rt R make) items = Ok ls).
  { induction H as [|x l [m ->] _ [ls IH]]; [exists []; reflexivity|].
    cbn [res_mapM]. rewrite IH. unfold records_of_item. cbn [as_dict res_bind].
    destruct (Py.str_eq _ _); eexists; reflexivity. }
  destruct G as [ls ->]. eexists. reflexivity.
Qed.

Lemma first_record_objects (items : list json) :
  Forall is_object items -> exists v, first_record rt R make items = Ok v.
Proof.
  intros H. induction H as [|x l [m ->] _ [v IH]]; [exists None; reflexivity|].
  cbn [first_record as_dict res_bind]. rewrite IH.
  destruct (Py.str_eq _ _); [|eexists; reflexivity].
  destruct (Py.lookup "text" m) as [[| | |s| |]|]; try (eexists; reflexivity).
  destruct (json_loads rt s) as [d|]; [|eexists; reflexivity].
  destruct (make d); eexists; reflexivity.
Qed.

(** A search posts once and never raises; it returns nothing when the
    exchange fails. *)
Lemma search_with_run (tool : string) (args : json) (w : World) :
  exists l,
    search_with rt R make tool args w
    = (Ok l, after_request "tools/call" (tool_call_params tool args) w)
    /\ (forall e, exchange rt (next_outcome w) = Raise e -> l = []).
Proof.
  unfold search_with, bind.
  destruct (call_tool_content_objects tool args w) as (r & -> & Hobj & Hfail).
  destruct (isError r) eqn:Eerr.
  - exists []. split; reflexivity.
  - destruct (records_of_content_objects (content r) Hobj) as [l Hl].
    exists l. unfold lift. rewrite Hl. split; [reflexivity|].
    intros e He. specialize (Hfail e He). congruence.
Qed.

(** A lookup posts once and never raises; it returns nothing when the
    exchange fails. *)
Lemma get_with_run (tool : string) (args : json) (w : World) :
  exists v,
    get_with rt R make tool args w
    = (Ok v, after_request "tools/call" (tool_call_params tool args) w)
    /\ (forall e, exchange rt (next_outcome w) = Raise e -> v = None).
Proof.
  unfold get_with, bind.
  destruct (call_tool_content_objects tool args w) as (r & -> & Hobj & Hfail).
  destruct (isError r) eqn:Eerr.
  - exists None. split; reflexivity.
  - destruct (first_record_objects (content r) Hobj) as [v Hv].
    exists v. unfold lift. rewrite Hv. split; [reflexivity|].
    intros e He. specialize (Hfail e He). congruence.
Qed.

Lemma first_record_skips (pre post : list json) (item : json) :
  Forall is_object pre -> is_object item ->
  (forall x, In x pre -> item_yield rt make x = None) ->
  first_record rt R make (pre ++ item :: post)
  = match item_yield rt make item with
    | Some v => Ok (Some v)
    | None => first_record rt R make post
    end.
Proof.
  intros Hpre [m ->] Hnone. induction Hpre as [|x l [mx ->] _ IH].
  - cbn [app first_record as_dict res_bind item_yield].
    destruct (Py.str_eq _ _); [|reflexivity].
    destruct (Py.lookup "text" m) as [[| | |s| |]|]; try reflexivity.
    destruct (json_loads rt s) as [d|]; [|reflexivity].
    destruct (make d); reflexivity.
  - cbn [app first_record as_dict res_bind].
    rewrite IH; [|intros y Hy; apply Hnone; right; exact Hy].
    pose proof (Hnone (JObj mx) (or_introl eq_refl)) as H0.
    cbn [item_yield] in H0.
    destruct (Py.str_eq _ _); [|reflexivity].
    destruct (Py.lookup "text" mx) as [[| | |s| |]|]; try reflexivity.
    destruct (json_loads rt s) as [d|]; [|reflexivity].
    rewrite H0. reflexivity.
Qed.

(** The successful course of a lookup. *)
Lemma get_with_first_match
      (tool : string) (args : json) (w : World) (resp : MCPResponse)
      (r : list (string * json)) (pre post : list json) (item : json) (v : R) :
  exchange rt (next_outcome w) = Ok resp ->
  result resp = Some r ->
  Py.lookup "content" r = Some (JArr (pre ++ item :: post)) ->
  Forall is_object (pre ++ item :: post) ->
  Py.dict_get r "isError" (JBool false) = JBool false ->
  (forall x, In x pre -> item_yield rt make x = None) ->
  item_yield rt make item = Some v ->
  fst (get_with rt R make tool args w) = Ok (Some v).
Proof.
  intros He Hr Hc Hobj Hb Hnone Hv.
  pose proof (call_tool_success_run rt tool args w resp r _ false He Hr Hc Hobj Hb)
    as Hcall.
  unfold get_with, bind.
  destruct (call_tool rt tool args w) as [res w'] eqn:Ecall.
  cbn [fst] in Hcall. subst res. cbn [isError content]. unfold lift. cbn [fst].
  apply Forall_app in Hobj. destruct Hobj as [Hpre Hrest].
  rewrite (first_record_skips pre post item Hpre (Forall_inv Hrest) Hnone), Hv.
  reflexivity.
Qed.

(** The successful course of a search over one text item that holds a
    list. *)
Lemma search_with_list_prefix
      (tool : string) (args : json) (w : World) (resp : MCPResponse)
      (r : list (string * json)) (m : list (string * json)) (s : string)
      (ds : list json) :
  exchange rt (next_outcome w) = Ok resp ->
  result resp = Some r ->
  Py.lookup "content" r = Some (JArr [JObj m]) ->
  Py.dict_get r "isError" (JBool false) = JBool false ->
  Py.lookup "type" m = Some (JStr "text") ->
  Py.lookup "text" m = Some (JStr s) ->
  json_loads rt s = Some (JArr ds) ->
  fst (search_with rt R make tool args w) = Ok (append_until_failure R make ds).
Proof.
  intros He Hr Hc Hb Hty Htx Hs.
  assert (Hobj : Forall is_object [JObj m]).
  { repeat constructor. eexists. reflexivity. }
  pose proof (call_tool_success_run rt tool args w resp r _ false He Hr Hc Hobj Hb)
    as Hcall.
  unfold search_with, bind.
  destruct (call_tool rt tool args w) as [res w'] eqn:Ecall.
  cbn [fst] in Hcall. subst res. cbn [isError content]. unfold lift. cbn [fst].
  unfold records_of_content. cbn [res_mapM]. unfold records_of_item.
  cbn [as_dict res_bind]. unfold Py.dict_get. rewrite Hty.
  cbn [Py.str_eq String.eqb Ascii.eqb Bool.eqb andb]. rewrite Htx, Hs.
  cbn [res_bind concat app]. rewrite app_nil_r. reflexivity.
Qed.

Lemma append_until_failure_prefix (good rest : list json) (bad : json) :
  (forall d, In d good -> make d <> None) ->
  make bad = None ->
  length (append_until_failure R make (good ++ bad :: rest)) = length good
  /\ append_until_failure R make (good ++ bad :: rest)
     = append_until_failure R make good.
Proof.
  intros Hgood Hbad. induction good as [|d good IH].
  - cbn. rewrite Hbad. split; reflexivity.
  - cbn [app append_until_failure length].
    destruct (make d) eqn:Ed.
    + destruct IH as [IH1 IH2]; [intros x Hx; apply Hgood; right; exact Hx|].
      cbn [length]. rewrite IH1, IH2. split; reflexivity.
    + exfalso. apply (Hgood d (or_introl eq_refl) Ed).
Qed.

End Generic.

Section Named.

Variables JiraIssue ConfluencePage : Type.
Variable make_JiraIssue : json -> option JiraIssue.
Variable make_ConfluencePage : json -> option ConfluencePage.

(** X22: [search_jira_issues] posts one call of the tool
    "jira_search_issues" whose arguments are the limit and a query: the
    query given when there is one, project and status being then left
    out; else the filters "project = P" and "status = 'S'" that are given,
    joined by " AND "; else "ORDER BY updated DESC". *)
Theorem search_jira_issues_request
        (jql project status : option string) (max_results : Z) (w : World) :
  exists rq q,
    trace (snd (search_jira_issues rt JiraIssue make_JiraIssue jql project status
                                   max_results w))
    = trace w ++ [EvPost rq (next_outcome w)]
    /\ req_method rq = "tools/call"
    /\ req_params rq
       = tool_call_params "jira_search_issues"
           (JObj [("maxResults", JInt max_results); ("jql", JStr q)])
    /\ (forall j, jql = Some j -> j <> "" -> q = j)
    /\ (str_truthy jql = false ->
        q = match (if str_truthy project then project else None),
                  (if str_truthy status then status else None) with
            | Some p, Some s => ("project = " ++ p ++ " AND status = '" ++ s ++ "'")%string
            | Some p, None => ("project = " ++ p)%string
            | None, Some s => ("status = '" ++ s ++ "'")%string
            | None, None => "ORDER BY updated DESC"
            end).
Proof.
  unfold search_jira_issues.
  destruct (search_with_run JiraIssue make_JiraIssue "jira_search_issues"
              (JObj [("maxResults", JInt max_results);
                     ("jql", JStr (jira_jql jql project status))]) w)
    as (l & -> & _).
  cbn [snd]. rewrite after_request_trace.
  eexists _, _. split; [reflexivity|]. split; [reflexivity|].
  split; [reflexivity|]. split.
  - intros j -> Hj. unfold jira_jql, str_truthy.
    destruct (String.eqb j "") eqn:E; [|reflexivity].
    apply String.eqb_eq in E. contradiction.
  - intros Hq. unfold jira_jql. rewrite Hq.
    destruct (str_truthy project) eqn:Ep; destruct (str_truthy status) eqn:Es;
      destruct project as [p|]; destruct status as [s|];
      try discriminate; reflexivity.
Qed.

(** X23: the searches never raise.  [search_jira_issues] and
    [search_confluence_pages] return the empty list when the exchange
    fails, whatever the failure. *)
Theorem searches_absorb_failures
        (jql project status : option string) (query : string) (space : option string)
        (max_results : Z) (w : World) :
  (exists l w',
      search_jira_issues rt JiraIssue make_JiraIssue jql project status max_results w
      = (Ok l, w'))
  /\ (exists l w',
         search_confluence_pages rt ConfluencePage make_ConfluencePage query space
                                 max_results w
         = (Ok l, w'))
  /\ (forall e,
         exchange rt (next_outcome w) = Raise e ->
         fst (search_jira_issues rt JiraIssue make_JiraIssue jql project status
                                 max_results w) = Ok []
         /\ fst (search_confluence_pages rt ConfluencePage make_ConfluencePage
                                         query space max_results w) = Ok []).
Proof.
  unfold search_jira_issues, search_confluence_pages.
  destruct (search_with_run JiraIssue make_JiraIssue "jira_search_issues"
              (JObj [("maxResults", JInt max_results);
                     ("jql", JStr (jira_jql jql project status))]) w)
    as (l1 & -> & H1).
  destruct (search_with_run ConfluencePage make_ConfluencePage "confluence_search"
              (JObj [("cql", JStr (confluence_cql query space));
                     ("limit", JInt max_results)]) w)
    as (l2 & -> & H2).
  split; [eexists _, _; reflexivity|]. split; [eexists _, _; reflexivity|].
  intros e He. rewrite (H1 e He), (H2 e He). split; reflexivity.
Qed.

(** X24: the lookups never raise.  [get_jira_issue] and
    [get_confluence_page] post one call of their tool, with the key or
    the id as only argument, and return [None] when the exchange fails. *)
Theorem lookups_absorb_failures (issue_key page_id : string) (w : World) :
  (exists v,
      get_jira_issue rt JiraIssue make_JiraIssue issue_key w
      = (Ok v, after_request "tools/call"
                 (tool_call_params "jira_get_issue"
                    (JObj [("issueKey", JStr issue_key)])) w)
      /\ (forall e, exchange rt (next_outcome w) = Raise e -> v = None))
  /\ (exists v,
         get_confluence_page rt ConfluencePage make_ConfluencePage page_id w
         = (Ok v, after_request "tools/call"
                    (tool_call_params "confluence_get_page"
                       (JObj [("pageId", JStr page_id)])) w)
         /\ (forall e, exchange rt (next_outcome w) = Raise e -> v = None)).
Proof.
  unfold get_jira_issue, get_confluence_page. split; apply get_with_run.
Qed.

(** X25: [get_jira_issue] returns the issue of the first content item
    that yields one: items before it that are not text, whose text does
    not decode or whose document does not validate are passed over, and
    the items after it are not looked at. *)
Theorem get_jira_issue_first_match
        (issue_key : string) (w : World) (resp : MCPResponse)
        (r : list (string * json)) (pre post : list json) (item : json)
        (v : JiraIssue) :
  exchange rt (next_outcome w) = Ok resp ->
  result resp = Some r ->
  Py.lookup "content" r = Some (JArr (pre ++ item :: post)) ->
  Forall is_object (pre ++ item :: post) ->
  Py.dict_get r "isError" (JBool false) = JBool false ->
  (forall x, In x pre -> item_yield rt make_JiraIssue x = None) ->
  item_yield rt make_JiraIssue item = Some v ->
  fst (get_jira_issue rt JiraIssue make_JiraIssue issue_key w) = Ok (Some v).
Proof.
  intros He Hr Hc Hobj Hb Hnone Hv. unfold get_jira_issue.
  exact (get_with_first_match JiraIssue make_JiraIssue _ _ w resp r pre post item v
           He Hr Hc Hobj Hb Hnone Hv).
Qed.

(** X26: when the text of the only content item is a list,
    [search_jira_issues] returns the issues of the elements before the
    first one that does not validate: that element and all that follow
    it are dropped, valid or not. *)
Theorem search_jira_issues_keeps_prefix
        (jql project status : option string) (max_results : Z) (w : World)
        (resp : MCPResponse) (r m : list (string * json)) (s : string)
        (good rest : list json) (bad : json) :
  exchange rt (next_outcome w) = Ok resp ->
  result resp = Some r ->
  Py.lookup "content" r = Some (JArr [JObj m]) ->
  Py.dict_get r "isError" (JBool false) = JBool false ->
  Py.lookup "type" m = Some (JStr "text") ->
  Py.lookup "text" m = Some (JStr s) ->
  json_loads rt s = Some (JArr (good ++ bad :: rest)) ->
  (forall d, In d good -> make_JiraIssue d <> None) ->
  make_JiraIssue bad = None ->
  exists issues,
    fst (search_jira_issues rt JiraIssue make_JiraIssue jql project status
                            max_results w) = Ok issues
    /\ length issues = length good
    /\ issues = append_until_failure JiraIssue make_JiraIssue good.
Proof.
  intros He Hr Hc Hb Hty Htx Hs Hgood Hbad. unfold search_jira_issues.
  rewrite (search_with_list_prefix JiraIssue make_JiraIssue _ _ w resp r m s _
             He Hr Hc Hb Hty Htx Hs).
  destruct (append_until_failure_prefix JiraIssue make_JiraIssue good rest bad
              Hgood Hbad) as [Hlen Heq].
  eexists. split; [reflexivity|]. split; [exact Hlen|exact Heq].
Qed.

(** X27: [list_pages] of the collector never raises and posts one call
    of "confluence_search".  For a space K the query it sends is
    "space = K AND text ~ 'space = K'": the filter built by the collector
    becomes the text searched for; without a space it is
    "text ~ 'type = page'". *)
Theorem list_pages_query (space_key : option string) (limit : Z) (w : World) :
  exists l rq q,
    list_pages rt ConfluencePage make_ConfluencePage space_key limit w
    = (Ok l, after_request "tools/call"
               (tool_call_params "confluence_search"
                  (JObj [("cql", JStr q); ("limit", JInt limit)])) w)
    /\ trace (snd (list_pages rt ConfluencePage make_ConfluencePage space_key limit w))
       = trace w ++ [EvPost rq (next_outcome w)]
    /\ req_params rq
       = tool_call_params "confluence_search"
           (JObj [("cql", JStr q); ("limit", JInt limit)])
    /\ (forall k, space_key = Some k -> k <> "" ->
                  q = ("space = " ++ k ++ " AND text ~ 'space = " ++ k ++ "'")%string)
    /\ (str_truthy space_key = false -> q = "text ~ 'type = page'").
Proof.
  unfold list_pages, try_except, search_confluence_pages.
  match goal with
  | |- context [search_with rt ConfluencePage make_ConfluencePage ?t ?a w] =>
      destruct (search_with_run ConfluencePage make_ConfluencePage t a w)
        as (l & -> & _)
  end.
  eexists _, _, _. split; [reflexivity|]. cbn [snd].
  rewrite after_request_trace.
  split; [reflexivity|]. split; [reflexivity|]. split.
  - intros k -> Hk. unfold confluence_cql, str_truthy.
    destruct (String.eqb k "") eqn:E; [|reflexivity].
    apply String.eqb_eq in E. contradiction.
  - intros Hs. unfold confluence_cql. rewrite Hs. reflexivity.
Qed.

End Named.

End HelpersMore.

Lemma search_jira_issues_request_witness :
  exists rq,
    trace (snd (search_jira_issues Mini.rt string key_of (Some "key = A-1")
                                   (Some "P") None 50%Z (client_on net_issue_list)))
    = [EvPost rq (net_issue_list 0)]
    /\ req_params rq
       = tool_call_params "jira_search_issues"
           (JObj [("maxResults", JInt 50%Z); ("jql", JStr "key = A-1")]).
Proof.
  destruct (search_jira_issues_request Mini.rt string key_of (Some "key = A-1")
              (Some "P") None 50%Z (client_on net_issue_list))
    as (rq & q & Ht & _ & Hp & Hj & _).
  exists rq. split; [exact Ht|].
  rewrite Hp, (Hj "key = A-1" eq_refl); [reflexivity|discriminate].
Defined.

Lemma searches_absorb_failures_witness :
  fst (search_jira_issues Mini.rt string key_of None None None 50%Z
                          (client_on net_refusing)) = Ok []
  /\ fst (search_confluence_pages Mini.rt string key_of "term" None 50%Z
                                  (client_on net_rejecting)) = Ok [].
Proof.
  destruct (searches_absorb_failures Mini.rt string string key_of key_of
              None None None "term" None 50%Z (client_on net_refusing))
    as (_ & _ & H1).
  destruct (searches_absorb_failures Mini.rt string string key_of key_of
              None None None "term" None 50%Z (client_on net_rejecting))
    as (_ & _ & H2).
  split.
  - apply (H1 (communicate_error refused)). vm_compute. reflexivity.
  - apply (H2 (Exn PlainException "MCP Error: Invalid params" None)).
    vm_compute. reflexivity.
Defined.

Lemma lookups_absorb_failures_witness :
  fst (get_jira_issue Mini.rt string key_of "A-1" (client_on net_refusing)) = Ok None
  /\ fst (get_confluence_page Mini.rt string key_of "42" (client_on net_refusing))
     = Ok None.
Proof.
  destruct (lookups_absorb_failures Mini.rt string string key_of key_of "A-1" "42"
              (client_on net_refusing))
    as ((v1 & Hr1 & Hf1) & (v2 & Hr2 & Hf2)).
  rewrite Hr1, Hr2. cbn [fst].
  rewrite (Hf1 (communicate_error refused)), (Hf2 (communicate_error refused));
    [split; reflexivity|vm_compute; reflexivity|vm_compute; reflexivity].
Defined.

Lemma get_jira_issue_first_match_witness :
  fst (get_jira_issue Mini.rt string key_of "A-1" (client_on net_issue_third))
  = Ok (Some "A-1").
Proof.
  eapply (get_jira_issue_first_match Mini.rt string key_of "A-1"
            (client_on net_issue_third) _ _
            [JObj [("type", JStr "image")];
             JObj [("type", JStr "text"); ("text", JStr "oops")]]
            []
            (JObj [("type", JStr "text");
                   ("text", JStr ("{" ++ Mini.q "key" ++ ":" ++ Mini.q "A-1" ++ "}"))])).
  - vm_compute. reflexivity.
  - reflexivity.
  - reflexivity.
  - repeat constructor; eexists; reflexivity.
  - reflexivity.
  - intros x [<-|[<-|[]]]; reflexivity.
  - reflexivity.
Defined.

Lemma search_jira_issues_keeps_prefix_witness :
  fst (search_jira_issues Mini.rt string key_of None None None 50%Z
                          (client_on net_issue_list))
  = Ok ["A-1"].
Proof.
  edestruct (search_jira_issues_keeps_prefix Mini.rt string key_of None None None
               50%Z (client_on net_issue_list))
    with (good := [JObj [("key", JStr "A-1")]])
         (rest := [JObj [("key", JStr "A-3")]])
         (bad := JInt 7%Z)
    as (issues & Hi & _ & Heq).
  - vm_compute. reflexivity.
  - reflexivity.
  - reflexivity.
  - reflexivity.
  - reflexivity.
  - reflexivity.
  - vm_compute. reflexivity.
  - intros d [<-|[]]. discriminate.
  - reflexivity.
  - rewrite Hi, Heq. reflexivity.
Defined.

Lemma list_pages_query_witness :
  exists rq,
    trace (snd (list_pages Mini.rt string key_of (Some "DS") 10%Z
                           (client_on net_refusing)))
    = [EvPost rq (net_refusing 0)]
    /\ req_params rq
       = tool_call_params "confluence_search"
           (JObj [("cql", JStr "space = DS AND text ~ 'space = DS'");
                  ("limit", JInt 10%Z)]).
Proof.
  destruct (list_pages_query Mini.rt string key_of (Some "DS") 10%Z
              (client_on net_refusing))
    as (l & rq & q & _ & Ht & Hp & Hk & _).
  exists rq. split; [exact Ht|].
  rewrite Hp, (Hk "DS" eq_refl); [reflexivity|discriminate].
Defined.

(** ** The collectors *)

Lemma string_append_assoc (a b c : string) :
  ((a ++ b) ++ c)%string = (a ++ b ++ c)%string.
Proof.
  induction a as [|x a IH]; [reflexivity|]. cbn [append]. rewrite IH. reflexivity.
Qed.

Section CollectorsMore.

Variable rt : Runtime.
Variable JiraIssue : Type.
Variable make_JiraIssue : json -> option JiraIssue.

(** X28: the query [_build_default_jql] builds always holds a status
    condition and ends with the ordering: its own fallback, the bare
    ordering, is never returned.  Being never empty, it is the query
    [search_jira_issues] sends when [collect_issues] passes it on. *)
Theorem default_jql_is_sent (project status : option string) (max_results : Z)
        (w : World) :
  let project_part :=
    if str_truthy project
    then ("project = " ++ match project with Some p => p | None => "" end ++ " AND ")%string
    else "" in
  let status_part :=
    if str_truthy status
    then ("status = '" ++ match status with Some s => s | None => "" end ++ "'")%string
    else "status IN (Done, Resolved, Closed) AND resolved >= -180d" in
  _build_default_jql project status
  = (project_part ++ status_part ++ " ORDER BY updated DESC")%string
  /\ _build_default_jql project status <> "ORDER BY updated DESC"
  /\ exists rq,
       trace (snd (search_jira_issues rt JiraIssue make_JiraIssue
                     (Some (_build_default_jql project status)) None None
                     max_results w))
       = trace w ++ [EvPost rq (next_outcome w)]
       /\ req_params rq
          = tool_call_params "jira_search_issues"
              (JObj [("maxResults", JInt max_results);
                     ("jql", JStr (_build_default_jql project status))]).
Proof.
  cbn zeta.
  assert (Hshape :
            _build_default_jql project status
            = ((if str_truthy project
                then "project = " ++ match project with Some p => p | None => "" end
                                  ++ " AND "
                else "")
               ++ (if str_truthy status
                   then "status = '" ++ match status with Some s => s | None => "" end
                                     ++ "'"
                   else "status IN (Done, Resolved, Closed) AND resolved >= -180d")
               ++ " ORDER BY updated DESC")%string).
  { unfold _build_default_jql, join.
    destruct (str_truthy project); destruct (str_truthy status);
      cbn [app String.concat]; rewrite ?string_append_assoc; reflexivity. }
  assert (Hne : exists c rest, _build_default_jql project status = String c rest
                               /\ String c rest <> "ORDER BY updated DESC").
  { rewrite Hshape.
    destruct (str_truthy project); destruct (str_truthy status);
      cbn [append]; eexists _, _; (split; [reflexivity|discriminate]). }
  split; [exact Hshape|]. split.
  - destruct Hne as (c & rest & -> & H). exact H.
  - unfold search_jira_issues.
    destruct (search_with_run rt JiraIssue make_JiraIssue "jira_search_issues"
                (JObj [("maxResults", JInt max_results);
                       ("jql", JStr (jira_jql (Some (_build_default_jql project status))
                                              None None))]) w)
      as (l & -> & _).
    cbn [snd]. rewrite after_request_trace. eexists. split; [reflexivity|].
    cbn [request_of req_params]. unfold tool_call_params. do 6 f_equal.
    destruct Hne as (c & rest & -> & _). reflexivity.
Qed.

End CollectorsMore.

Section BatchProperties.

Variables Item DB : Type.
Variable save_single : DB -> Item -> DB * bool.

Lemma save_batch_app (a b : list Item) (st : DB * nat) :
  save_batch Item DB save_single (a ++ b) st
  = save_batch Item DB save_single b (save_batch Item DB save_single a st).
Proof.
  revert st. induction a as [|x a IH]; intros [db c]; [reflexivity|].
  cbn [app save_batch]. destruct (save_single db x) as [db' ok]. apply IH.
Qed.

Lemma range_fuel_done (fuel start stop step : nat) :
  stop <= start -> range_fuel fuel start stop step = [].
Proof.
  intros H. destruct fuel; [reflexivity|]. cbn [range_fuel].
  destruct (start <? stop) eqn:E; [|reflexivity].
  apply Nat.ltb_lt in E. lia.
Qed.

(** The batches taken from position [i] on are the rest of the list. *)
Lemma save_from (items : list Item) (fuel i : nat) (st : DB * nat) :
  length items - i <= fuel ->
  fold_left (fun st' k => save_batch Item DB save_single
                            (slice items k (k + batch_size)) st')
            (range_fuel fuel i (length items) batch_size) st
  = save_batch Item DB save_single (skipn i items) st.
Proof.
  revert i st. induction fuel as [|fuel IH]; intros i st Hf.
  - cbn [range_fuel fold_left]. rewrite skipn_all2; [reflexivity|lia].
  - cbn [range_fuel]. destruct (i <? length items) eqn:E.
    + apply Nat.ltb_lt in E. cbn [fold_left].
      rewrite IH; [|unfold batch_size; lia].
      unfold slice. replace (i + batch_size - i) with batch_size by lia.
      rewrite <- save_batch_app. f_equal.
      rewrite <- (firstn_skipn batch_size (skipn i items)) at 2.
      f_equal. rewrite skipn_skipn. f_equal. lia.
    + apply Nat.ltb_ge in E. cbn [fold_left].
      rewrite skipn_all2; [reflexivity|lia].
Qed.

Lemma range_fuel_length (fuel i n : nat) :
  n - i <= fuel ->
  length (range_fuel fuel i n batch_size) = (n - i + batch_size - 1) / batch_size.
Proof.
  unfold batch_size. revert i. induction fuel as [|fuel IH]; intros i Hf.
  - cbn [range_fuel length]. replace (n - i) with 0 by lia. reflexivity.
  - cbn [range_fuel]. destruct (i <? n) eqn:E.
    + apply Nat.ltb_lt in E. cbn [length].
      destruct (Nat.le_gt_cases 50 (n - i)) as [Hbig|Hsmall].
      * rewrite IH; [|lia].
        replace (n - i + 50 - 1) with ((n - (i + 50) + 50 - 1) + 1 * 50) by lia.
        rewrite Nat.div_add; [lia|discriminate].
      * rewrite range_fuel_done; [|lia]. cbn [length].
        apply (Nat.div_unique _ 50 1 (n - i - 1)); lia.
    + apply Nat.ltb_ge in E. cbn [length].
      replace (n - i) with 0 by lia. reflexivity.
Qed.

Lemma save_batch_count (items : list Item) (db : DB) (c : nat) :
  snd (save_batch Item DB save_single items (db, c)) <= c + length items
  /\ ((forall d x, snd (save_single d x) = true) ->
      snd (save_batch Item DB save_single items (db, c)) = c + length items).
Proof.
  revert db c. induction items as [|x items IH]; intros db c.
  - cbn. split; [lia|intros _; lia].
  - cbn [save_batch length]. destruct (save_single db x) as [db' ok] eqn:E.
    destruct (IH db' (if ok then S c else c)) as [IH1 IH2]. split.
    + destruct ok; lia.
    + intros Hall. rewrite (IH2 Hall).
      pose proof (Hall db x) as Hx. rewrite E in Hx. cbn in Hx. subst ok. lia.
Qed.

(** X29: the batches of [save_to_cache] are no more than a way to walk
    through the list: every item is saved once, in order, as by a single
    loop over the list, and the number of batches announced,
    [total_batches], is the number of batches the loop goes through. *)
Theorem save_batches_is_single_pass (items : list Item) (db : DB) :
  save_batches Item DB save_single items db
  = save_batch Item DB save_single items (db, 0)
  /\ length (py_range 0 (length items) batch_size) = total_batches (length items).
Proof.
  split.
  - unfold save_batches, py_range. rewrite save_from; [reflexivity|lia].
  - unfold py_range, total_batches. rewrite range_fuel_length; [|lia].
    rewrite Nat.sub_0_r. reflexivity.
Qed.

(** X30: the count [save_to_cache] returns is at most the number of
    items, and equal to it when no save raises; an item whose save
    raises is not counted and does not stop the items after it. *)
Theorem save_batches_counts (items : list Item) (db : DB) :
  snd (save_batches Item DB save_single items db) <= length items
  /\ ((forall d x, snd (save_single d x) = true) ->
      snd (save_batches Item DB save_single items db) = length items)
  /\ (forall before after x,
         items = before ++ x :: after ->
         save_batches Item DB save_single items db
         = save_batch Item DB save_single after
             (let st := save_batch Item DB save_single before (db, 0) in
              let r := save_single (fst st) x in
              (fst r, if snd r then S (snd st) else snd st))).
Proof.
  assert (Hpass : save_batches Item DB save_single items db
                  = save_batch Item DB save_single items (db, 0)).
  { unfold save_batches, py_range. rewrite save_from; [reflexivity|lia]. }
  rewrite Hpass.
  destruct (save_batch_count items db 0) as [H1 H2].
  split; [exact H1|]. split; [exact H2|].
  intros before after x ->. rewrite save_batch_app. cbn zeta.
  destruct (save_batch Item DB save_single before (db, 0)) as [db1 c1].
  cbn [save_batch fst snd]. destruct (save_single db1 x) as [db2 ok]. reflexivity.
Qed.

End BatchProperties.

Lemma save_batches_counts_witness :
  snd (save_batches nat (list nat) (fun db x => (x :: db, true)) (seq 0 120) []) = 120
  /\ snd (save_batches nat (list nat)
            (fun db x => if x =? 60 then (db, false) else (x :: db, true))
            (seq 0 120) []) = 119.
Proof.
  destruct (save_batches_counts nat (list nat) (fun db x => (x :: db, true))
              (seq 0 120) []) as (_ & Hall & _).
  destruct (save_batches_counts nat (list nat)
              (fun db x => if x =? 60 then (db, false) else (x :: db, true))
              (seq 0 120) []) as (_ & _ & Hskip).
  split.
  - rewrite Hall; reflexivity.
  - rewrite (Hskip (seq 0 60) (seq 61 59) 60); reflexivity.
Defined.
